(** * scintillometry: stream combination and PSRFITS record decoding

    A shallow embedding of [scintillometry/combining.py],
    [scintillometry/io/psrfits/hdu.py], [scintillometry/io/psrfits/core.py]
    and [scintillometry/io/psrfits/psrfits_htm_parser.py].

    Python exceptions are values of [exc]; a computation that may raise has
    type [result A].  Python floats and numpy floating arrays are modelled
    by exact rationals ([Q]): rounding is outside the model.  The integers
    of an integer column wrap around at the width of their type.  A numpy
    array is its shape together with its elements in row-major (C)
    order. *)

From Stdlib Require Import ZArith QArith Qabs Qround List String Ascii Lia.
From stdpp Require Import base option list gmap strings pretty.

Close Scope Q_scope.
Local Open Scope Z_scope.
Local Open Scope string_scope.
Local Open Scope list_scope.

(** ** Exceptions and results *)

Inductive exc_class :=
  | EOFError | ValueError | TypeError | IndexError | KeyError
  | AssertionError | AttributeError | RuntimeError | ZeroDivisionError
  | UnitConversionError.

Record exc := Exc { exc_kind : exc_class; exc_args : list string }.

Definition result (A : Type) : Type := exc + A.

Definition ok {A} (x : A) : result A := inr x.
Definition raise {A} (k : exc_class) (msg : string) : result A :=
  inl (Exc k [msg]).
Definition bind {A B} (m : result A) (f : A -> result B) : result B :=
  match m with inl e => inl e | inr x => f x end.

Notation "'let*' x ':=' m 'in' k" := (bind m (fun x => k))
  (at level 10, x name, m at level 100, k at level 200).

(** [exc.args += (msg,)] followed by a bare [raise]. *)
Definition add_note {A} (m : result A) (msg : string) : result A :=
  match m with
  | inl e => inl (Exc (exc_kind e) (exc_args e ++ [msg]))
  | inr x => inr x
  end.

Definition is_ok {A} (m : result A) : bool :=
  match m with inr _ => true | inl _ => false end.

(** A computation that never fails with the end-of-stream condition. *)
Definition never_eof {A} (m : result A) : Prop :=
  forall e, m = inl e -> exc_kind e <> EOFError.

(** A computation that never fails with the error [bad]. *)
Definition never_raises {A} (bad : exc) (m : result A) : Prop :=
  forall e, m = inl e -> e <> bad.

(** [for x in xs: ys.append(f(x))] where [f] may raise. *)
Fixpoint mapM {A B} (f : A -> result B) (xs : list A) : result (list B) :=
  match xs with
  | [] => ok []
  | x :: xs' => let* y := f x in let* ys := mapM f xs' in ok (y :: ys)
  end.

(** An error mentions a name when one of its arguments contains it. *)
Fixpoint contains (needle hay : string) : bool :=
  String.prefix needle hay ||
  match hay with
  | EmptyString => false
  | String _ hay' => contains needle hay'
  end.

Definition mentions (e : exc) (name : string) : bool :=
  existsb (contains name) (exc_args e).

(** ** Python and numpy display of shapes *)

Definition show_nat (n : nat) : string := pretty n.

Definition join (sep : string) (parts : list string) : string :=
  match parts with
  | [] => ""
  | p :: ps => fold_left (fun acc s => acc +:+ sep +:+ s) ps p
  end.

(** [str(tuple)]: "()", "(3,)", "(2, 3)". *)
Definition show_tuple (s : list nat) : string :=
  match s with
  | [n] => "(" +:+ show_nat n +:+ ",)"
  | _ => "(" +:+ join ", " (map show_nat s) +:+ ")"
  end.

Definition show_tuples (ss : list (list nat)) : string :=
  "[" +:+ join ", " (map show_tuple ss) +:+ "]".

(** numpy prints shapes in broadcast errors without spaces. *)
Definition show_dims (s : list nat) : string :=
  match s with
  | [n] => "(" +:+ show_nat n +:+ ",)"
  | _ => "(" +:+ join "," (map show_nat s) +:+ ")"
  end.

(** ** numpy arrays *)

Record ndarray (A : Type) := NdArray { shape : list nat; elems : list A }.
Arguments NdArray {A} _ _.
Arguments shape {A} _.
Arguments elems {A} _.

Definition size_of (s : list nat) : nat := fold_right Nat.mul 1%nat s.

Definition well_formed {A} (a : ndarray A) : Prop :=
  length (elems a) = size_of (shape a).

(** The [o]-th block of [len] consecutive elements. *)
Definition piece {A} (len : nat) (d : list A) (o : nat) : list A :=
  take len (drop (o * len) d).

Definition pieces {A} (len count : nat) (d : list A) : list (list A) :=
  map (piece len d) (seq 0 count).

(** [a.reshape(-1, 1)] of a C-contiguous array: the elements keep their
    order and the shape becomes [(size, 1)]. *)
Definition reshape_column {A} (a : ndarray A) : ndarray A :=
  NdArray [length (elems a); 1%nat] (elems a).

(** *** Broadcasting *)

(** Broadcast of two shapes given last axis first. *)
Fixpoint broadcast_rev (s t : list nat) : option (list nat) :=
  match s, t with
  | [], _ => Some t
  | _, [] => Some s
  | m :: s', n :: t' =>
      match broadcast_rev s' t' with
      | None => None
      | Some r =>
          if (m =? n)%nat then Some (m :: r)
          else if (m =? 1)%nat then Some (n :: r)
          else if (n =? 1)%nat then Some (m :: r)
          else None
      end
  end.

Definition broadcast_shapes (s t : list nat) : option (list nat) :=
  match broadcast_rev (rev s) (rev t) with
  | Some r => Some (rev r)
  | None => None
  end.

Definition pad_shape (ndim : nat) (s : list nat) : list nat :=
  repeat 1%nat (ndim - length s) ++ s.

(** Elements of an array of shape [s] repeated to fill shape [t]; the two
    shapes have the same length and [s] has 1 wherever they differ. *)
Fixpoint stretch {A} (s t : list nat) (d : list A) : list A :=
  match s, t with
  | m :: s', n :: t' =>
      if (m =? n)%nat
      then flat_map (stretch s' t') (pieces (size_of s') m d)
      else List.concat (repeat (stretch s' t' d) n)
  | _, _ => d
  end.

Definition can_broadcast_to (s t : list nat) : bool :=
  (length s <=? length t)%nat &&
  forallb (fun '(m, n) => (m =? n)%nat || (m =? 1)%nat)
          (combine (pad_shape (length t) s) t).

(** [np.broadcast_to(a, t)]. *)
Definition np_broadcast_to {A} (a : ndarray A) (t : list nat)
  : result (ndarray A) :=
  if can_broadcast_to (shape a) t
  then ok (NdArray t (stretch (pad_shape (length t) (shape a)) t (elems a)))
  else raise ValueError
         ("operands could not be broadcast together with remapped shapes "
          +:+ "[original->remapped]: " +:+ show_dims (shape a)
          +:+ " and requested shape " +:+ show_dims t).

(** An elementwise binary operation [a op b]. *)
Definition np_binop {A B C} (f : A -> B -> C) (a : ndarray A) (b : ndarray B)
  : result (ndarray C) :=
  match broadcast_shapes (shape a) (shape b) with
  | None =>
      raise ValueError
        ("operands could not be broadcast together with shapes "
         +:+ show_dims (shape a) +:+ " " +:+ show_dims (shape b) +:+ " ")
  | Some s =>
      ok (NdArray s
            (zip_with f
               (stretch (pad_shape (length s) (shape a)) s (elems a))
               (stretch (pad_shape (length s) (shape b)) s (elems b))))
  end.

(** The in-place form [a op= b]: the result keeps the shape of [a]. *)
Definition np_inplace {A B} (f : A -> B -> A) (a : ndarray A) (b : ndarray B)
  : result (ndarray A) :=
  match broadcast_shapes (shape a) (shape b) with
  | None =>
      raise ValueError
        ("operands could not be broadcast together with shapes "
         +:+ show_dims (shape a) +:+ " " +:+ show_dims (shape b) +:+ " ")
  | Some s =>
      if bool_decide (s = shape a)
      then ok (NdArray s
                 (zip_with f (elems a)
                    (stretch (pad_shape (length s) (shape b)) s (elems b))))
      else raise ValueError
             ("non-broadcastable output operand with shape "
              +:+ show_dims (shape a)
              +:+ " doesn't match the broadcast shape " +:+ show_dims s)
  end.

(** An array and a Python scalar, [a op x]. *)
Definition np_scalar_op {A B C} (f : A -> B -> C) (a : ndarray A) (x : B)
  : ndarray C :=
  NdArray (shape a) (map (fun y => f y x) (elems a)).

(** ** Python values held by a FITS header *)

Inductive hval :=
  | HInt (z : Z)
  | HFloat (q : Q)
  | HBool (b : bool)
  | HStr (s : string)
  | HUndef.

(** A header is a mapping from keyword to value; [header[key]] raises
    [KeyError] for a missing keyword. *)
Definition header_get (h : gmap string hval) (key : string) : result hval :=
  match h !! key with
  | Some v => ok v
  | None => raise KeyError ("Keyword '" +:+ key +:+ "' not found.")
  end.

Definition bool_to_Z (b : bool) : Z := if b then 1 else 0.

(** The number a Python numeric value denotes. *)
Definition as_number (v : hval) : option Q :=
  match v with
  | HInt z => Some (inject_Z z)
  | HFloat q => Some q
  | HBool b => Some (inject_Z (bool_to_Z b))
  | HStr _ | HUndef => None
  end.

Definition type_name (v : hval) : string :=
  match v with
  | HInt _ => "int" | HFloat _ => "float" | HBool _ => "bool"
  | HStr _ => "str" | HUndef => "Undefined"
  end.

(** *** The strings accepted by [float()] *)

Definition is_digit (c : ascii) : bool :=
  let n := nat_of_ascii c in ((48 <=? n) && (n <=? 57))%nat.

Definition is_space (c : ascii) : bool :=
  let n := nat_of_ascii c in ((n =? 32) || ((9 <=? n) && (n <=? 13)))%nat.

Definition lower (c : ascii) : ascii :=
  let n := nat_of_ascii c in
  if ((65 <=? n) && (n <=? 90))%nat then ascii_of_nat (n + 32) else c.

(** The rest of a [digitpart] after its first digit: digits, each
    optionally preceded by one underscore. *)
Fixpoint digits_rest (l : list ascii) : list ascii :=
  match l with
  | c :: l' =>
      if is_digit c then digits_rest l'
      else if Ascii.eqb c "_" then
        match l' with
        | d :: l'' => if is_digit d then digits_rest l'' else l
        | [] => l
        end
      else l
  | [] => []
  end.

Definition digitpart (l : list ascii) : option (list ascii) :=
  match l with
  | c :: l' => if is_digit c then Some (digits_rest l') else None
  | [] => None
  end.

Definition skip_sign (l : list ascii) : list ascii :=
  match l with
  | c :: l' => if Ascii.eqb c "+" || Ascii.eqb c "-" then l' else l
  | [] => []
  end.

(** [number ::= [digitpart] "." digitpart | digitpart ["."]] *)
Definition number_part (l : list ascii) : option (list ascii) :=
  match digitpart l with
  | Some r =>
      match r with
      | c :: r' =>
          if Ascii.eqb c "." then
            match digitpart r' with Some r'' => Some r'' | None => Some r' end
          else Some r
      | [] => Some []
      end
  | None =>
      match l with
      | c :: r => if Ascii.eqb c "." then digitpart r else None
      | [] => None
      end
  end.

Definition exponent_part (l : list ascii) : option (list ascii) :=
  match l with
  | c :: r =>
      if Ascii.eqb (lower c) "e" then digitpart (skip_sign r) else Some l
  | [] => Some []
  end.

Fixpoint strip_left (l : list ascii) : list ascii :=
  match l with
  | c :: l' => if is_space c then strip_left l' else l
  | [] => []
  end.

(** [str.strip()] *)
Definition strip_chars (l : list ascii) : list ascii :=
  rev (strip_left (rev (strip_left l))).

Definition py_strip (s : string) : string :=
  string_of_list_ascii (strip_chars (list_ascii_of_string s)).

Definition py_upper_char (c : ascii) : ascii :=
  let n := nat_of_ascii c in
  if ((97 <=? n) && (n <=? 122))%nat then ascii_of_nat (n - 32) else c.

(** [str.upper()] on ASCII text. *)
Definition py_upper (s : string) : string :=
  string_of_list_ascii (map py_upper_char (list_ascii_of_string s)).

(** Whether [float(s)] accepts the string [s]:
    optional blanks, an optional sign, then a decimal number with an
    optional exponent, or one of inf, infinity, nan in any case. *)
Definition float_accepts (s : string) : bool :=
  let body := skip_sign (strip_chars (list_ascii_of_string s)) in
  let word := string_of_list_ascii (map lower body) in
  if String.eqb word "inf" || String.eqb word "infinity" || String.eqb word "nan"
  then true
  else match number_part body with
       | Some r =>
           match exponent_part r with
           | Some [] => true
           | _ => false
           end
       | None => false
       end.

(** Whether [float(v)] returns rather than raises.  Integers are taken
    within the range of a double. *)
Definition py_float_ok (v : hval) : bool :=
  match v with
  | HInt _ | HFloat _ | HBool _ => true
  | HStr s => float_accepts s
  | HUndef => false
  end.

(** [int(v)] *)
Definition digit_value (c : ascii) : Z := Z.of_nat (nat_of_ascii c) - 48.

Definition py_int (v : hval) : result Z :=
  match v with
  | HInt z => ok z
  | HBool b => ok (bool_to_Z b)
  | HFloat q => ok (Z.quot (Qnum q) (Z.pos (Qden q)))
  | HStr s =>
      let l := strip_chars (list_ascii_of_string s) in
      let body := skip_sign l in
      match digitpart body with
      | Some [] =>
          let n := fold_left (fun acc c => if is_digit c then 10 * acc + digit_value c else acc)
                             body 0 in
          ok (match l with
              | c :: _ => if Ascii.eqb c "-" then - n else n
              | [] => n
              end)
      | _ => raise ValueError
               ("invalid literal for int() with base 10: '" +:+ s +:+ "'")
      end
  | HUndef => raise TypeError
      "int() argument must be a string, a bytes-like object or a real number, not 'Undefined'"
  end.

(** Truth value of a Python object. *)
Definition py_truth (v : hval) : bool :=
  match v with
  | HInt z => negb (z =? 0)%Z
  | HFloat q => negb (Qeq_bool q (inject_Z 0))
  | HBool b => b
  | HStr s => negb (String.eqb s "")
  | HUndef => true
  end.

(** [v == s] for a string literal [s]. *)
Definition py_eq_str (v : hval) (s : string) : bool :=
  match v with HStr t => String.eqb t s | _ => false end.

(** [i >= v] for a Python int [i]. *)
Definition py_int_ge (i : Z) (v : hval) : result bool :=
  match v with
  | HInt n => ok (n <=? i)%Z
  | HBool b => ok (bool_to_Z b <=? i)%Z
  | HFloat q => ok (Qle_bool q (inject_Z i))
  | HStr _ | HUndef =>
      raise TypeError
        ("'>=' not supported between instances of 'int' and '"
         +:+ type_name v +:+ "'")
  end.

(** [v * k] for a Python int [k]; a string is repeated. *)
Definition py_mul_int (v : hval) (k : Z) : result hval :=
  match v with
  | HInt n => ok (HInt (n * k))
  | HBool b => ok (HInt (bool_to_Z b * k))
  | HFloat q => ok (HFloat (q * inject_Z k)%Q)
  | HStr s => ok (HStr (String.concat "" (repeat s (Z.to_nat k))))
  | HUndef => raise TypeError
      "unsupported operand type(s) for *: 'Undefined' and 'int'"
  end.

(** [assert cond] and [assert cond, msg]. *)
Definition py_assert (cond : bool) : result unit :=
  if cond then ok tt else inl (Exc AssertionError []).

Definition py_assert_msg (cond : bool) (msg : string) : result unit :=
  if cond then ok tt else raise AssertionError msg.

(** [str(v)] as used in messages. *)
Definition py_str (v : hval) : string :=
  match v with
  | HStr s => s
  | HInt z => pretty z
  | HBool b => if b then "True" else "False"
  | HFloat q => pretty (Qnum q) +:+ "/" +:+ pretty (Z.pos (Qden q))
  | HUndef => ""
  end.

Definition Qsum (l : list Q) : Q := fold_right Qplus (inject_Z 0) l.

(** [a.mean()] *)
Definition np_mean (l : list Q) : Q :=
  (Qsum l / inject_Z (Z.of_nat (length l)))%Q.

(** [np.isclose(a, b, atol=atol)] with the default [rtol] of 1e-5. *)
Definition np_isclose (a b atol : Q) : bool :=
  Qle_bool (Qabs (a - b)) (atol + (1 # 100000) * Qabs b)%Q.

(** The Python scalar held by an array of one element. *)
Definition as_scalar {A} (a : ndarray A) : result A :=
  match elems a with
  | [x] => ok x
  | _ => raise TypeError
           "only size-1 arrays can be converted to Python scalars"
  end.

(** [seq[i]] for a Python sequence and an integer index. *)
Definition py_getitem {A} (l : list A) (index : Z) (what : string) : result A :=
  let n := Z.of_nat (length l) in
  let i := if (index <? 0)%Z then index + n else index in
  match (if ((0 <=? i) && (i <? n))%Z then l !! Z.to_nat i else None) with
  | Some x => ok x
  | None => raise IndexError (what +:+ " index out of range")
  end.

(** *** Integer columns and their arithmetic *)

(** The widths of numpy's integers. *)
Inductive int_width := W8 | W16 | W32 | W64.

Definition bits_of (w : int_width) : Z :=
  match w with W8 => 8 | W16 => 16 | W32 => 32 | W64 => 64 end.

(** The element type of a numeric column: an integer of a given width,
    signed or not, or a floating-point number. *)
Inductive np_dtype :=
  | np_int (signed : bool) (width : int_width)
  | np_float.

Definition int16 : np_dtype := np_int true W16.
Definition uint8 : np_dtype := np_int false W8.

Definition fits_signed (w : int_width) (z : Z) : bool :=
  ((- 2 ^ (bits_of w - 1) <=? z) && (z <? 2 ^ (bits_of w - 1)))%Z.

Definition fits_unsigned (w : int_width) (z : Z) : bool :=
  ((0 <=? z) && (z <? 2 ^ bits_of w))%Z.

(** The value an integer takes when stored in an integer of width [w]: the
    arithmetic of the integer dtypes wraps around. *)
Definition wrap_int (signed : bool) (w : int_width) (z : Z) : Z :=
  if signed
  then ((z + 2 ^ (bits_of w - 1)) mod 2 ^ bits_of w - 2 ^ (bits_of w - 1))%Z
  else (z mod 2 ^ bits_of w)%Z.

(** The narrowest of the integer widths that can hold [z]. *)
Definition min_width (fits : int_width -> Z -> bool) (z : Z)
  : option int_width :=
  List.find (fun w => fits w z) [W8; W16; W32; W64].

Definition wider (a b : int_width) : int_width :=
  if (bits_of a <=? bits_of b)%Z then b else a.

Definition next_width (w : int_width) : option int_width :=
  match w with
  | W8 => Some W16
  | W16 => Some W32
  | W32 => Some W64
  | W64 => None
  end.

(** The dtype of [a op z] for an array of dtype [dt] and a Python integer
    [z] (NumPy 1.x): the array's own dtype as long as [z] fits it, a wider
    one otherwise; a signed one for an unsigned array and a negative [z]. *)
Definition int_scalar_result (dt : np_dtype) (z : Z) : np_dtype :=
  match dt with
  | np_float => np_float
  | np_int true n =>
      match min_width fits_signed z with
      | Some m => np_int true (wider n m)
      | None => np_float
      end
  | np_int false n =>
      if (0 <=? z)%Z
      then match min_width fits_unsigned z with
           | Some m => np_int false (wider n m)
           | None => np_float
           end
      else match min_width fits_signed z with
           | Some m =>
               if (bits_of n <? bits_of m)%Z then np_int true m
               else match next_width n with
                    | Some w => np_int true w
                    | None => np_float
                    end
           | None => np_float
           end
  end.

(** A number as an array of dtype [dt] holds it. *)
Definition store (dt : np_dtype) (q : Q) : Q :=
  match dt with
  | np_int signed bits => inject_Z (wrap_int signed bits (Qfloor q))
  | np_float => q
  end.

(** The dtype of [a - v] for an array of dtype [dt] and a header value. *)
Definition sub_scalar_dtype (dt : np_dtype) (v : hval) : np_dtype :=
  match v with
  | HInt z => int_scalar_result dt z
  | HBool _ => dt
  | _ => np_float
  end.

(** One element of [a - v]: the difference, stored in the dtype of the
    result. *)
Definition sub_scalar (dt : np_dtype) (v : hval) (z x : Q) : Q :=
  store (sub_scalar_dtype dt v) (x - z)%Q.

(** [row['DATA'] - zero_off]: an array of dtype [dt] minus a Python scalar.
    An integer array minus a Python integer or boolean is an integer array
    again, and its elements wrap around. *)
Definition np_sub_scalar (dt : np_dtype) (a : ndarray Q) (v : hval)
  : result (ndarray Q) :=
  match as_number v with
  | Some z => ok (np_scalar_op (fun x z => sub_scalar dt v z x) a z)
  | None =>
      raise TypeError
        "ufunc 'subtract' did not contain a loop with signature matching types"
  end.

(** An astropy position on Earth, in Cartesian metres. *)
Record EarthLocation := MkLocation { loc_x : Q; loc_y : Q; loc_z : Q }.

(** [EarthLocation(x, y, z, u.m)]: the three coordinates must be numbers.
    (astropy also reads a string that starts with a number; header values
    of that kind are not modelled and show as the [TypeError] of a string
    that holds no number.) *)
Definition EarthLocation_new (x y z : hval) : result EarthLocation :=
  match as_number x, as_number y, as_number z with
  | Some a, Some b, Some c => ok (MkLocation a b c)
  | _, _, _ =>
      raise TypeError
        "Coordinates could not be parsed as either geocentric or geodetic"
  end.

(** An astropy time: a day number (MJD), the seconds elapsed since it and
    the position of the observer, if any. *)
Record Time := MkTime {
  time_day : Q;
  time_sec : Q;
  time_location : option EarthLocation
}.

(** [Time(v, format='mjd', location=location)] *)
Definition Time_mjd (v : hval) (location : option EarthLocation)
  : result Time :=
  match as_number v with
  | Some d => ok (MkTime d (inject_Z 0) location)
  | None => raise ValueError
              "Input values did not match the format class mjd"
  end.

(** [TimeDelta(v1, v2, format='sec')], in seconds. *)
Definition TimeDelta_sec (v1 v2 : hval) : result Q :=
  match as_number v1, as_number v2 with
  | Some a, Some b => ok (a + b)%Q
  | _, _ => raise ValueError
              "Input values did not match the format class sec"
  end.

(** [t + dt] for [dt] in seconds. *)
Definition Time_add (t : Time) (dt : Q) : Time :=
  MkTime (time_day t) (time_sec t + dt)%Q (time_location t).

(** An astropy unit: its name, its physical dimension and its scale
    relative to the base unit of that dimension. *)
Record Unit := MkUnit {
  unit_name : string;
  unit_dim : string;
  unit_scale : Q
}.

Definition MHz : Unit := MkUnit "MHz" "frequency" (inject_Z 1000000).

(** An astropy quantity: a numeric array with a unit. *)
Record Quantity := MkQuantity { q_value : ndarray Q; q_unit : Unit }.

(** *** Joining and cutting along an axis *)

(** An axis index in the range [-ndim, ndim). *)
Definition normalize_axis (ndim : nat) (axis : Z) : result nat :=
  let n := Z.of_nat ndim in
  if ((0 <=? axis) && (axis <? n))%Z then ok (Z.to_nat axis)
  else if ((- n <=? axis) && (axis <? 0))%Z then ok (Z.to_nat (n + axis))
  else raise ValueError
         ("axis " +:+ pretty axis +:+ " is out of bounds for array of dimension "
          +:+ show_nat ndim).

(** Two shapes agree on every axis but [k]. *)
Definition same_except (k : nat) (s t : list nat) : bool :=
  bool_decide (<[k:=0%nat]> s = <[k:=0%nat]> t).

Definition sum_nat (l : list nat) : nat := fold_right Nat.add 0%nat l.

(** Joining along axis [k]: for each index of the axes before [k], the
    block of each array in turn. *)
Definition join_axis {A} (k : nat) (arrays : list (ndarray A)) (s0 : list nat)
  : ndarray A :=
  NdArray
    (<[k := sum_nat (map (fun a => nth k (shape a) 0%nat) arrays)]> s0)
    (flat_map
       (fun o => flat_map
                   (fun a => piece (size_of (drop k (shape a))) (elems a) o)
                   arrays)
       (seq 0 (size_of (take k s0)))).

(** [np.concatenate(arrays, axis=axis, out=out)]: the value returned; with
    [out] given, it is written into that buffer, whose shape must fit. *)
Definition np_concatenate {A} (arrays : list (ndarray A)) (axis : Z)
  (out : option (ndarray A)) : result (ndarray A) :=
  match arrays with
  | [] => raise ValueError "need at least one array to concatenate"
  | a0 :: rest =>
      let ndim := length (shape a0) in
      if (ndim =? 0)%nat
      then raise ValueError "zero-dimensional arrays cannot be concatenated"
      else
        let* k := normalize_axis ndim axis in
        let* _ :=
          mapM (fun a =>
                  if negb (length (shape a) =? ndim)%nat
                  then raise ValueError
                         "all the input arrays must have same number of dimensions"
                  else if negb (same_except k (shape a0) (shape a))
                  then raise ValueError
                         ("all the input array dimensions except for the "
                          +:+ "concatenation axis must match exactly")
                  else ok tt)
               rest in
        let res := join_axis k arrays (shape a0) in
        match out with
        | None => ok res
        | Some buffer =>
            if bool_decide (shape buffer = shape res)
            then ok res
            else raise ValueError "Output array is the wrong shape"
        end
  end.

(** [np.stack(arrays, axis=axis, out=out)]: every array gets a new axis
    of length 1 at [axis], and the results are concatenated along it. *)
Definition np_stack {A} (arrays : list (ndarray A)) (axis : Z)
  (out : option (ndarray A)) : result (ndarray A) :=
  match arrays with
  | [] => raise ValueError "need at least one array to stack"
  | a0 :: rest =>
      if negb (forallb (fun a => bool_decide (shape a = shape a0)) rest)
      then raise ValueError "all input arrays must have the same shape"
      else
        let* k := normalize_axis (length (shape a0) + 1) axis in
        let expanded :=
          map (fun a => NdArray (take k (shape a) ++ 1%nat :: drop k (shape a))
                                (elems a))
              arrays in
        np_concatenate expanded (Z.of_nat k) out
  end.

(** The basic slice [a[..., lo:hi, ...]] along axis [k], for
    [lo <= hi <= a.shape[k]]. *)
Definition slice_axis {A} (k lo hi : nat) (a : ndarray A) : ndarray A :=
  let inner := size_of (drop (S k) (shape a)) in
  let block := (nth k (shape a) 0 * inner)%nat in
  NdArray
    (<[k := (hi - lo)%nat]> (shape a))
    (flat_map
       (fun o => take ((hi - lo) * inner) (drop (lo * inner)
                   (piece block (elems a) o)))
       (seq 0 (size_of (take k (shape a))))).

(** What [a[0]] gives: for an array of one dimension the element itself,
    for an array of more dimensions the first sub-array. *)
Inductive item (A : Type) :=
  | Element (x : A)
  | Row (a : ndarray A).
Arguments Element {A} x.
Arguments Row {A} a.

(** The shape of what [a[0]] gives; an element has none. *)
Definition item_shape {A} (first : item A) : list nat :=
  match first with
  | Element _ => []
  | Row a => shape a
  end.

(** [a[0]]: the first entry along axis 0. *)
Definition first_row {A} (a : ndarray A) : result (item A) :=
  match shape a with
  | [] => raise IndexError
            "too many indices for array: array is 0-dimensional"
  | O :: _ => raise IndexError
                "index 0 is out of bounds for axis 0 with size 0"
  | [S _] =>
      match elems a with
      | x :: _ => ok (Element x)
      | [] => raise IndexError
                "index 0 is out of bounds for axis 0 with size 0"
      end
  | S _ :: s => ok (Row (NdArray s (take (size_of s) (elems a))))
  end.

(** [t[0]] for a shape tuple. *)
Definition shape0 (s : list nat) : result nat :=
  match s with
  | n :: _ => ok n
  | [] => raise IndexError "tuple index out of range"
  end.

(** [a[..., j, ...]]: the entry [j] along axis [k]; the axis is gone
    from the result. *)
Definition index_axis {A} (k j : nat) (a : ndarray A) : ndarray A :=
  NdArray (take k (shape a) ++ drop (S k) (shape a))
          (elems (slice_axis k j (S j) a)).

(** *** Transposition and reshaping *)

(** The lists of [ls], each of [m] elements, read column by column. *)
Definition interleave {A} (m : nat) (ls : list (list A)) : list A :=
  flat_map (fun p => flat_map (fun l => take 1 (drop p l)) ls) (seq 0 m).

(** The elements of [a.T] in C order: the first axis of [a] becomes the
    last one, and so on inwards. *)
Fixpoint transpose_elems {A} (s : list nat) (d : list A) : list A :=
  match s with
  | [] => d
  | n :: s' =>
      interleave (size_of s')
        (map (transpose_elems s') (pieces (size_of s') n d))
  end.

(** [a.T]: the axes reversed. *)
Definition np_T {A} (a : ndarray A) : ndarray A :=
  NdArray (rev (shape a)) (transpose_elems (shape a) (elems a)).

(** [operator.index(v)], what numpy asks of a dimension. *)
Definition py_index (v : hval) : result Z :=
  match v with
  | HInt z => ok z
  | HBool b => ok (bool_to_Z b)
  | HFloat _ | HStr _ | HUndef =>
      raise TypeError
        ("'" +:+ type_name v +:+ "' object cannot be interpreted as an integer")
  end.

Definition show_int_dims (dims : list Z) : string :=
  match dims with
  | [n] => "(" +:+ pretty n +:+ ",)"
  | _ => "(" +:+ join "," (map pretty dims) +:+ ")"
  end.

(** [a.reshape(dims)]: the elements keep their C order; one dimension may
    be -1 and is then inferred. *)
Definition np_reshape {A} (a : ndarray A) (dims : list Z) : result (ndarray A) :=
  let size := length (elems a) in
  let cannot :=
    raise ValueError
      ("cannot reshape array of size " +:+ show_nat size +:+ " into shape "
       +:+ show_int_dims dims) in
  if existsb (fun n => (n <? -1)%Z) dims
  then raise ValueError "negative dimensions not allowed"
  else
    let known := List.filter (fun n => (0 <=? n)%Z) dims in
    let product := size_of (map Z.to_nat known) in
    match (length dims - length known)%nat with
    | O =>
        if (product =? size)%nat
        then ok (NdArray (map Z.to_nat dims) (elems a))
        else cannot
    | S O =>
        if (product =? 0)%nat then cannot
        else if (size mod product =? 0)%nat
        then ok (NdArray
                   (map (fun n => if (n <? 0)%Z then (size / product)%nat
                                  else Z.to_nat n) dims)
                   (elems a))
        else cannot
    | _ => raise ValueError "can only specify one unknown dimension"
    end.

(** ** Python strings *)

(** [s.startswith(prefix)] *)
Definition py_startswith (s prefix : string) : bool := String.prefix prefix s.

(** [s.split(sep)] for a separator of one character: the pieces between
    the separators, empty ones included. *)
Fixpoint split_chars (sep : ascii) (l : list ascii) : list (list ascii) :=
  match l with
  | [] => [[]]
  | c :: l' =>
      if Ascii.eqb c sep then [] :: split_chars sep l'
      else match split_chars sep l' with
           | piece0 :: rest => (c :: piece0) :: rest
           | [] => [[c]]
           end
  end.

Definition py_split (s : string) (sep : ascii) : list string :=
  map string_of_list_ascii (split_chars sep (list_ascii_of_string s)).

(** [sep.join(parts)] *)
Definition py_join (sep : string) (parts : list string) : string :=
  join sep parts.

(** [s.replace(c, '')] for one character [c]. *)
Definition py_remove (s : string) (c : ascii) : string :=
  string_of_list_ascii
    (List.filter (fun x => negb (Ascii.eqb x c)) (list_ascii_of_string s)).

Definition newline : ascii := ascii_of_nat 10.

(** * io/psrfits/hdu.py *)

Module hdu.

(** A binary table: its column names, its rows and the element type of
    its DATA column; in a row each column holds an array cell. *)
Record table := Table {
  names : list string;
  rows : list (gmap string (ndarray Q));
  data_dtype : np_dtype
}.

(** An astropy HDU: its name, its header and its table. *)
Record HDU := MkHDU {
  name : string;
  header : gmap string hval;
  data : table
}.

Definition has_column (t : table) (key : string) : bool :=
  existsb (String.eqb key) (names t).

(** [row[key]] *)
Definition row_getitem (row : gmap string (ndarray Q)) (key : string)
  : result (ndarray Q) :=
  match row !! key with
  | Some c => ok c
  | None => raise KeyError ("Key '" +:+ key +:+ "' does not exist.")
  end.

(** [data[key]]: the cells of a column, one per row. *)
Definition column (t : table) (key : string) : result (list (ndarray Q)) :=
  if has_column t key
  then mapM (fun row => row_getitem row key) (rows t)
  else raise KeyError ("Key '" +:+ key +:+ "' does not exist.").

(** [data[key].shape] *)
Definition column_shape (cells : list (ndarray Q)) : list nat :=
  length cells :: match cells with c :: _ => shape c | [] => [] end.

(** ** HDUWrapper and PSRFITSPrimaryHDU *)

Record PSRFITSPrimaryHDU := MkPrimary { primary_wrapped : HDU }.

Definition PSRFITSPrimaryHDU_verify (self : PSRFITSPrimaryHDU) : result unit :=
  let h := header (primary_wrapped self) in
  let* simple := header_get h "SIMPLE" in
  let* _ := py_assert_msg (py_truth simple)
              "The HDU is not a FITS primary HDU." in
  let* fitstype := header_get h "FITSTYPE" in
  py_assert_msg (py_eq_str fitstype "PSRFITS")
    "The header is not from a PSRFITS file.".

(** [HDUWrapper.__init__] for the primary HDU. *)
Definition PSRFITSPrimaryHDU_init (hdu : HDU) (verify : bool)
  : result PSRFITSPrimaryHDU :=
  let self := MkPrimary hdu in
  if verify
  then let* _ := PSRFITSPrimaryHDU_verify self in ok self
  else ok self.

(** [PSRFITSPrimaryHDU.location]: [None] when one of the three keywords is
    missing; only the [KeyError] is caught. *)
Definition PSRFITSPrimaryHDU_location (self : PSRFITSPrimaryHDU)
  : result (option EarthLocation) :=
  let h := header (primary_wrapped self) in
  match h !! "ANT_X", h !! "ANT_Y", h !! "ANT_Z" with
  | Some x, Some y, Some z =>
      let* location := EarthLocation_new x y z in ok (Some location)
  | _, _, _ => ok None
  end.

Definition PSRFITSPrimaryHDU_start_time (self : PSRFITSPrimaryHDU)
  : result Time :=
  let h := header (primary_wrapped self) in
  let* imjd := header_get h "STT_IMJD" in
  let* location := PSRFITSPrimaryHDU_location self in
  let* t := Time_mjd imjd location in
  let* smjd := header_get h "STT_SMJD" in
  let* offs := header_get h "STT_OFFS" in
  let* dt := TimeDelta_sec smjd offs in
  ok (Time_add t dt).

Definition PSRFITSPrimaryHDU_obs_mode (self : PSRFITSPrimaryHDU)
  : result hval :=
  header_get (header (primary_wrapped self)) "OBS_MODE".

(** [np.arange(1, n + 1)] *)
Definition arange_from_1 (n : Z) : list Z :=
  map (fun i => Z.of_nat i) (seq 1 (Z.to_nat n)).

(** [PSRFITSPrimaryHDU.frequency]: [None] when a keyword is missing.
    OBSNCHAN is an integer keyword; the arithmetic on a channel count of
    another type is not modelled and shows as a [TypeError]. *)
Definition PSRFITSPrimaryHDU_frequency (self : PSRFITSPrimaryHDU)
  : result (option Quantity) :=
  let h := header (primary_wrapped self) in
  match h !! "OBSNCHAN", h !! "OBSFREQ", h !! "OBSBW" with
  | Some n_chan_v, Some c_freq_v, Some bw_v =>
      match n_chan_v, as_number c_freq_v, as_number bw_v with
      | HInt n_chan, Some c_freq, Some bw =>
          if (n_chan =? 0)%Z
          then raise ZeroDivisionError "division by zero"
          else
            let chan_bw := (bw / inject_Z n_chan)%Q in
            let freq :=
              map (fun k => (c_freq
                             + inject_Z (k - (n_chan + 1) / 2) * chan_bw)%Q)
                  (arange_from_1 n_chan) in
            ok (Some (MkQuantity (NdArray [length freq] freq) MHz))
      | _, _, _ =>
          raise TypeError "unsupported operand type(s) in frequency"
      end
  | _, _, _ => ok None
  end.

(** ** SubintHDU and PSRSubintHDU *)

(** The classes of [subint_map]. *)
Inductive subint_class := PSRSubintHDU.

Definition subint_map (mode : hval) : option subint_class :=
  match mode with
  | HStr s => if String.eqb s "PSR" then Some PSRSubintHDU else None
  | _ => None
  end.

Record SubintHDU := MkSubint {
  cls : subint_class;
  wrapped : HDU;
  primary_hdu : PSRFITSPrimaryHDU;
  offset : Z
}.

Definition mode (self : SubintHDU) : result hval :=
  PSRFITSPrimaryHDU_obs_mode (primary_hdu self).

Definition nrow (self : SubintHDU) : result hval :=
  header_get (header (wrapped self)) "NAXIS2".
Definition nchan (self : SubintHDU) : result hval :=
  header_get (header (wrapped self)) "NCHAN".
Definition npol (self : SubintHDU) : result hval :=
  header_get (header (wrapped self)) "NPOL".
Definition nbin (self : SubintHDU) : result hval :=
  header_get (header (wrapped self)) "NBIN".

(** [PSRSubintHDU.samples_per_frame] *)
Definition samples_per_frame (self : SubintHDU) : Z := 1.

(** [PSRSubintHDU.sample_rate], in Hz: the inverse of the mean of the
    TSUBINT column. *)
Definition sample_rate (self : SubintHDU) : result Q :=
  let* cells := column (data (wrapped self)) "TSUBINT" in
  let sample_time := np_mean (flat_map elems cells) in
  ok (1 / sample_time)%Q.

(** [SubintHDU.sample_shape]: the tuple [(nbin, nchan, npol)]. *)
Definition sample_shape (self : SubintHDU) : result (hval * hval * hval) :=
  let* b := nbin self in
  let* c := nchan self in
  let* p := npol self in
  ok (b, c, p).

(** [SubintHDU.shape]: the tuple [(nsample, nbin, nchan, npol)]. *)
Definition SubintHDU_shape (self : SubintHDU)
  : result (hval * hval * hval * hval) :=
  let* n := nrow self in
  let* nsample := py_mul_int n (samples_per_frame self) in
  let* b := nbin self in
  let* c := nchan self in
  let* p := npol self in
  ok (nsample, b, c, p).

(** [SubintHDU.start_time] *)
Definition SubintHDU_start_time (self : SubintHDU) : result Time :=
  PSRFITSPrimaryHDU_start_time (primary_hdu self).

(** [PSRSubintHDU.start_time]; [start_time += offset0] builds a new time. *)
Definition PSRSubintHDU_start_time (self : SubintHDU) : result Time :=
  let* start_time := SubintHDU_start_time self in
  if has_column (data (wrapped self)) "OFFS_SUB"
  then
    let* offs_sub := column (data (wrapped self)) "OFFS_SUB" in
    let* first := py_getitem offs_sub 0 "array" in
    let* t0 := as_scalar first in
    let* rate := sample_rate self in
    let offset0 := (t0 - inject_Z (samples_per_frame self) / 2 / rate)%Q in
    ok (Time_add start_time offset0)
  else ok start_time.

(** The [try] block of [read_data_row]: the ZERO_OFF keyword of the header
    as it stands when [float()] accepts it, 0 otherwise. *)
Definition zero_off (self : SubintHDU) : hval :=
  match header_get (header (wrapped self)) "ZERO_OFF" with
  | inr v => if py_float_ok v then v else HInt 0
  | inl _ => HInt 0
  end.

(** The body of [read_data_row] once the row is fetched: the calibrated
    samples of one row. *)
Definition decode_row (self : SubintHDU) (row : gmap string (ndarray Q))
  (weighted : bool) : result (ndarray Q) :=
  let* dat_scl := row_getitem row "DAT_SCL" in
  let data_scale := reshape_column dat_scl in
  let* dat_offs := row_getitem row "DAT_OFFS" in
  let data_off_set := reshape_column dat_offs in
  let zero_off := zero_off self in
  let* raw := row_getitem row "DATA" in
  let* shifted :=
    np_sub_scalar (data_dtype (data (wrapped self))) raw zero_off in
  let* scaled := np_binop Qmult shifted data_scale in
  let* result := np_binop Qplus scaled data_off_set in
  if weighted && has_column (data (wrapped self)) "DAT_WTS"
  then
    let* dat_wts := row_getitem row "DAT_WTS" in
    np_inplace Qmult result (reshape_column dat_wts)
  else ok result.

(** [SubintHDU.read_data_row] *)
Definition read_data_row (self : SubintHDU) (index : Z) (weighted : bool)
  : result (ndarray Q) :=
  let* n := nrow self in
  let* beyond := py_int_ge index n in
  if beyond
  then raise EOFError "cannot read from beyond end of input SUBINT HDU."
  else
    let* row := py_getitem (rows (data (wrapped self))) index "table" in
    decode_row self row weighted.

(** [SubintHDU.dtype]: that of the decoded row 0, a floating-point array
    once the samples are multiplied by the scales. *)
Definition SubintHDU_dtype (self : SubintHDU) : result np_dtype :=
  let* row := read_data_row self 0 false in
  ok np_float.

(** [v.strip()] and [v.upper()]: only strings have these methods. *)
Definition str_method (f : string -> string) (meth : string) (v : hval)
  : result string :=
  match v with
  | HStr s => ok (f s)
  | _ => raise AttributeError
           ("'" +:+ type_name v +:+ "' object has no attribute '"
            +:+ meth +:+ "'")
  end.

(** [n == v] for an array dimension [n] and a header value [v]. *)
Definition dim_eq (n : nat) (v : hval) : bool :=
  match as_number v with
  | Some q => Qeq_bool q (inject_Z (Z.of_nat n))
  | None => false
  end.

Fixpoint dims_eq (s : list nat) (vs : list hval) : bool :=
  match s, vs with
  | [], [] => true
  | n :: s', v :: vs' => dim_eq n v && dims_eq s' vs'
  | _, _ => false
  end.

Fixpoint Qlist_eqb (l1 l2 : list Q) : bool :=
  match l1, l2 with
  | [], [] => true
  | x :: l1', y :: l2' => Qeq_bool x y && Qlist_eqb l1' l2'
  | _, _ => false
  end.

(** [SubintHDU.verify]; its second assertion, that the primary HDU is a
    [PSRFITSPrimaryHDU], holds by the type of [primary_hdu]. *)
Definition SubintHDU_verify (self : SubintHDU) : result unit :=
  let* extname := header_get (header (wrapped self)) "EXTNAME" in
  let* stripped := str_method py_strip "strip" extname in
  py_assert_msg (String.eqb stripped "SUBINT")
    "Input HDU is not a SUBINT type.".

Definition PSRSubintHDU_verify (self : SubintHDU) : result unit :=
  let t := data (wrapped self) in
  let* _ := SubintHDU_verify self in
  let* m := mode self in
  let* upper := str_method py_upper "upper" m in
  let* _ := py_assert_msg (String.eqb upper "PSR")
              "Header HDU is not in the folding mode." in
  let* nbin_v := nbin self in
  let* nbin_i := py_int nbin_v in
  let* _ := py_assert_msg (1 <? nbin_i)%Z
              "Invalid 'NBIN' field in the header." in
  let* _ :=
    if has_column t "DAT_FREQ"
    then
      let* freqs := column t "DAT_FREQ" in
      let* f0 := py_getitem freqs 0 "array" in
      py_assert_msg
        (forallb (fun f => Qlist_eqb (elems f0) (elems f)) freqs)
        "Frequencies are not all the same for different rows."
    else ok tt in
  let* tsubint_cells := column t "TSUBINT" in
  let* tsubint := mapM as_scalar tsubint_cells in
  let* t0 := py_getitem tsubint 0 "array" in
  let* _ := py_assert_msg
              (forallb (fun x => np_isclose t0 x (1 # 10)) tsubint)
              "TSUBINT differ by large amounts in different rows." in
  let* cells := column t "DATA" in
  let d_shape_raw := column_shape cells in
  let* b := nbin self in
  let* c := nchan self in
  let* p := npol self in
  let* n := nrow self in
  py_assert_msg (dims_eq d_shape_raw [n; p; c; b])
    "Data shape does not match with the header information.".

(** [SubintHDU.__new__] selects the class from the observing mode of the
    primary header; [__init__] then stores the HDUs and verifies. *)
Definition SubintHDU_new (hdu : HDU) (primary : PSRFITSPrimaryHDU)
  (verify : bool) : result SubintHDU :=
  let* m := PSRFITSPrimaryHDU_obs_mode primary in
  match subint_map m with
  | None => raise ValueError ("'" +:+ py_str m +:+ "' is not a valid mode.")
  | Some c =>
      let self := MkSubint c hdu primary 0 in
      if verify
      then let* _ := PSRSubintHDU_verify self in ok self
      else ok self
  end.

(** [SubintHDU.frequency]: the DAT_FREQ cell of the first row as a
    column in MHz; without that column the code asks [super()], the
    [HDUWrapper], for [frequency], which it does not have. *)
Definition SubintHDU_frequency (self : SubintHDU) : result (option Quantity) :=
  let* freqs :=
    if has_column (data (wrapped self)) "DAT_FREQ"
    then
      let* cells := column (data (wrapped self)) "DAT_FREQ" in
      let* first := py_getitem cells 0 "array" in
      ok (Some (MkQuantity first MHz))
    else raise AttributeError "'super' object has no attribute 'frequency'" in
  match freqs with
  | Some q => ok (Some (MkQuantity (reshape_column (q_value q)) (q_unit q)))
  | None => ok None
  end.

(** What the iterator over [zip] of [k] copies of one iterator of [s],
    each tuple joined to a string, yields: the
    consecutive pieces of [k] characters of [s]; characters left over at
    the end are dropped, and for [k <= 0] there is nothing to zip. *)
Definition zip_chunks (s : string) (k : Z) : list string :=
  if (k <=? 0)%Z then []
  else
    let chars := list_ascii_of_string s in
    map string_of_list_ascii
        (pieces (Z.to_nat k) (length chars / Z.to_nat k) chars).

(** [len(pol_type) // npol] *)
Definition floordiv_len (len : Z) (v : hval) : result Z :=
  match v with
  | HInt z =>
      if (z =? 0)%Z
      then raise ZeroDivisionError "integer division or modulo by zero"
      else ok (len / z)
  | HBool b =>
      if b then ok len
      else raise ZeroDivisionError "integer division or modulo by zero"
  | HFloat q =>
      if Qeq_bool q (inject_Z 0)
      then raise ZeroDivisionError "float floor division by zero"
      else raise TypeError "can't multiply sequence by non-int of type 'float'"
  | HStr _ | HUndef =>
      raise TypeError
        ("unsupported operand type(s) for //: 'int' and '"
         +:+ type_name v +:+ "'")
  end.

(** [SubintHDU.polarization]: [np.array] of a list that holds one [map]
    iterator is an array of shape [(1,)] that holds that iterator; the
    element here is what the iterator yields. *)
Definition polarization (self : SubintHDU) : result (ndarray (list string)) :=
  let* pol_type := header_get (header (wrapped self)) "POL_TYPE" in
  match pol_type with
  | HStr s =>
      let* n := npol self in
      let* k := floordiv_len (Z.of_nat (String.length s)) n in
      ok (NdArray [1%nat] [zip_chunks s k])
  | _ => raise TypeError
           ("'" +:+ type_name pol_type +:+ "' object is not iterable")
  end.

End hdu.

(** * io/psrfits/core.py *)

Module core.

Import hdu.

(** What the base class keeps of the four optional arguments of the
    reader. *)
Record task_attributes := MkAttributes {
  task_frequency : option Quantity;
  task_sideband : option (ndarray Z);
  task_polarization : option (ndarray (list string));
  task_dtype : np_dtype
}.

(** [getattr(ih, name, None)]: only the [AttributeError] of a missing
    attribute gives the default. *)
Definition getattr_default {A} (m : result (option A)) : result (option A) :=
  match m with
  | inl (Exc AttributeError _) => ok None
  | _ => m
  end.

(** An argument the caller gave, or else the value inferred from the HDU. *)
Definition given_or {A} (given : option A) (inferred : result (option A))
  : result (option A) :=
  match given with
  | Some v => ok (Some v)
  | None => inferred
  end.

(** Modelled from the spec: [BaseTaskBase], the frame-based reader base
    class, is not part of these sources.  Its constructor reads the stream
    attributes of the wrapped HDU (those of [_properties]: shape, sample
    rate, start time) and takes each of frequency, sideband, polarization
    and dtype from the caller or else, as the reader documents, "inferred
    from hdu": the attribute of that name of the HDU, [None] when the HDU
    has no such attribute (a [SubintHDU] has no [sideband]), and the dtype
    of the decoded row 0. *)
Definition BaseTaskBase_init (ih : SubintHDU)
  (frequency : option Quantity) (sideband : option (ndarray Z))
  (polarization : option (ndarray (list string))) (dtype : option np_dtype)
  : result task_attributes :=
  let* _ := SubintHDU_shape ih in
  let* _ := sample_rate ih in
  let* _ := PSRSubintHDU_start_time ih in
  let* dtype :=
    match dtype with
    | Some d => ok d
    | None => SubintHDU_dtype ih
    end in
  let* frequency :=
    given_or frequency (getattr_default (SubintHDU_frequency ih)) in
  let* sideband := given_or sideband (ok None) in
  let* polarization :=
    given_or polarization
      (getattr_default
         (let* labels := hdu.polarization ih in ok (Some labels))) in
  ok (MkAttributes frequency sideband polarization dtype).

(** A reader: the wrapped HDU, the [weighted] option and what the base
    class keeps.  Its [shape] and [samples_per_frame] are those of the
    HDU. *)
Record PSRFITSReader := MkReader {
  ih : SubintHDU;
  weighted : bool;
  attributes : task_attributes
}.

(** [PSRFITSReader.__init__] *)
Definition PSRFITSReader_init (ih : SubintHDU)
  (frequency : option Quantity) (sideband : option (ndarray Z))
  (polarization : option (ndarray (list string))) (dtype : option np_dtype)
  (weighted : bool) : result PSRFITSReader :=
  let* attributes :=
    BaseTaskBase_init ih frequency sideband polarization dtype in
  ok (MkReader ih weighted attributes).

Definition reader_shape (r : PSRFITSReader)
  : result (hval * hval * hval * hval) :=
  SubintHDU_shape (ih r).

Definition reader_samples_per_frame (r : PSRFITSReader) : Z :=
  samples_per_frame (ih r).

(** The keys of [HDU_map]. *)
Definition HDU_map_keys : list string := ["PRIMARY"; "SUBINT"].

(** [HDU_map[k](hdu, primary_hdu)] for the keys left in [buffers] once
    'PRIMARY' is popped. *)
Definition HDU_map_call (k : string) (hdu : HDU) (primary : PSRFITSPrimaryHDU)
  : result SubintHDU :=
  if String.eqb k "SUBINT"
  then SubintHDU_new hdu primary true
  else raise KeyError k.

(** The first loop of [get_readers]: HDUs grouped by name; an HDU whose
    name is not a key of [HDU_map] is skipped (with a logged warning). *)
Definition buffer_hdus (hdu_list : list HDU) : gmap string (list HDU) :=
  fold_left
    (fun buffers hdu =>
       if existsb (String.eqb (name hdu)) HDU_map_keys
       then <[name hdu := default [] (buffers !! name hdu) ++ [hdu]]> buffers
       else buffers)
    hdu_list ∅.

(** What [str] shows of an HDU list: one entry per HDU (Python shows the
    class and the address of each object; here its name stands for it). *)
Definition show_hdu_list (hdu_list : list HDU) : string :=
  "[" +:+ join ", " (map (fun hdu => "<" +:+ name hdu +:+ " HDU>") hdu_list)
  +:+ "]".

(** [get_readers(hdu_list, weighted=...)]: of the keyword arguments that
    it hands to the reader, [open] documents [weighted]. *)
Definition get_readers (hdu_list : list HDU) (weighted : bool)
  : result (list PSRFITSReader) :=
  let buffers := buffer_hdus hdu_list in
  let primary := default [] (buffers !! "PRIMARY") in
  let buffers := delete "PRIMARY" buffers in
  match primary with
  | [p] =>
      let* primary_hdu := PSRFITSPrimaryHDU_init p true in
      let* psrfits_hdus :=
        mapM (fun '(k, hdu) => HDU_map_call k hdu primary_hdu)
             (flat_map (fun '(k, v) => map (fun hdu => (k, hdu)) v)
                       (map_to_list buffers)) in
      mapM (fun hdu => PSRFITSReader_init hdu None None None None weighted)
           psrfits_hdus
  | _ =>
      raise ValueError
        ("HDUList `" +:+ show_hdu_list hdu_list
         +:+ "` does not have a header HDU or have more than one header HDU.")
  end.

(** [open(filename, mode, weighted=...)]; [fits_open] stands for
    [astropy.io.fits.open] on the file system at hand. *)
Definition open (fits_open : string -> result (list HDU))
  (filename : string) (mode : string) (weighted : bool)
  : result PSRFITSReader :=
  if String.eqb mode "r"
  then
    let* hdu_list := fits_open filename in
    let* reader_list := get_readers hdu_list weighted in
    match reader_list with
    | [reader] => ok reader
    | _ => raise RuntimeError "Current reader can only read one SUBINT HDU."
    end
  else raise ValueError
         ("Unknown mode '" +:+ mode
          +:+ "'. Currently only 'r' mode are supported.").

(** [PSRFITSReader._read_frame]: the decoded row, transposed to
    (bin, channel, polarization) and reshaped to one frame. *)
Definition _read_frame (r : PSRFITSReader) (frame_index : Z)
  : result (ndarray Q) :=
  let* row := read_data_row (ih r) frame_index (weighted r) in
  let res := np_T row in
  let* dims := sample_shape (ih r) in
  let '(nbin, nchan, npol) := dims in
  let* dims :=
    mapM py_index [HInt (reader_samples_per_frame r); nbin; nchan; npol] in
  np_reshape res dims.

End core.

(** * combining.py *)

Module combining.

(** Python objects held in sample blocks and in metadata arrays. *)
Inductive pyobj :=
  | PNone
  | PNum (q : Q)
  | PStr (s : string).

(** The value of [frequency], [sideband] or [polarization] on a stream:
    [None] (also when the attribute is missing), a scalar other than
    [None], a plain array, or an astropy quantity. *)
Inductive attr_value :=
  | AttrNone
  | AttrScalar (x : pyobj)
  | AttrArray (a : ndarray pyobj)
  | AttrQuantity (a : ndarray Q) (u : Unit).

(** Modelled from the spec: the frame-based stream contract of the input
    streams ([sample_rate], [dtype], [start_time], [shape], [sample_shape],
    [samples_per_frame], [seek], [read]); the reader classes themselves are
    not part of these sources.  A stream holds [nsample] samples of shape
    [sample_shape], stored in [content], and a read position. *)
Record stream := Stream {
  sample_rate : Q;
  dtype : string;
  start_time : Q;
  nsample : nat;
  sample_shape : list nat;
  samples_per_frame : nat;
  frequency : attr_value;
  sideband : attr_value;
  polarization : attr_value;
  content : ndarray pyobj;
  position : nat
}.

(** [ih.shape] *)
Definition stream_shape (ih : stream) : list nat :=
  nsample ih :: sample_shape ih.

Definition stream_ok (ih : stream) : Prop :=
  shape (content ih) = stream_shape ih /\ well_formed (content ih).

(** [ih.seek(offset)] *)
Definition seek (ih : stream) (offset : nat) : stream :=
  Stream (sample_rate ih) (dtype ih) (start_time ih) (nsample ih)
    (sample_shape ih) (samples_per_frame ih) (frequency ih) (sideband ih)
    (polarization ih) (content ih) offset.

(** [ih.read(count)]: the next [count] samples; the position advances. *)
Definition read (ih : stream) (count : nat) : result (ndarray pyobj * stream) :=
  if (position ih + count <=? nsample ih)%nat
  then ok (slice_axis 0 (position ih) (position ih + count) (content ih),
           seek ih (position ih + count))
  else raise EOFError "cannot read from beyond end of stream.".

(** [getattr(ih, attr, None)] *)
Definition getattr_or_None (ih : stream) (attr : string) : attr_value :=
  if String.eqb attr "frequency" then frequency ih
  else if String.eqb attr "sideband" then sideband ih
  else if String.eqb attr "polarization" then polarization ih
  else AttrNone.

Definition is_None (v : attr_value) : bool :=
  match v with AttrNone => true | _ => false end.

(** [getattr(value, 'unit', None)] *)
Definition unit_or_None (v : attr_value) : option Unit :=
  match v with AttrQuantity _ u => Some u | _ => None end.

(** [value.to_value(unit)]: only a quantity has the method; its numbers
    are rescaled when the units share a dimension. *)
Definition to_value (unit : Unit) (v : attr_value) : result attr_value :=
  match v with
  | AttrQuantity a u =>
      if String.eqb (unit_dim u) (unit_dim unit)
      then ok (AttrArray
                 (NdArray (shape a)
                          (map (fun x => PNum (x * (unit_scale u / unit_scale unit))%Q)
                               (elems a))))
      else raise UnitConversionError
             ("'" +:+ unit_name u +:+ "' and '" +:+ unit_name unit
              +:+ "' are not convertible")
  | AttrNone =>
      raise AttributeError "'NoneType' object has no attribute 'to_value'"
  | AttrScalar x =>
      raise AttributeError
        ("'" +:+ match x with
                 | PNone => "NoneType"
                 | PNum _ => "float"
                 | PStr _ => "str"
                 end +:+ "' object has no attribute 'to_value'")
  | AttrArray _ =>
      raise AttributeError "'numpy.ndarray' object has no attribute 'to_value'"
  end.

(** [np.broadcast_to(value, shape)]: [None] becomes an object array that
    holds [None] everywhere; of a quantity the plain numbers are broadcast
    (the subclass is not passed on). *)
Definition broadcast_value (v : attr_value) (s : list nat)
  : result (ndarray pyobj) :=
  match v with
  | AttrNone => np_broadcast_to (NdArray [] [PNone]) s
  | AttrScalar x => np_broadcast_to (NdArray [] [x]) s
  | AttrArray a => np_broadcast_to a s
  | AttrQuantity a _ => np_broadcast_to (NdArray (shape a) (map PNum (elems a))) s
  end.

(** The numbers of an array, as [Quantity(array, unit)] needs them. *)
Definition to_numbers (a : ndarray pyobj) : result (ndarray Q) :=
  let* xs := mapM (fun x => match x with
                            | PNum q => ok q
                            | _ => raise TypeError
                                     "The value must be a valid Python or Numpy numeric type."
                            end)
                  (elems a) in
  ok (NdArray (shape a) xs).

(** The attribute value that a plain [result[0]] is: an element of an
    array of one dimension is the object held there, [None] included. *)
Definition item_value (first : item pyobj) : attr_value :=
  match first with
  | Element PNone => AttrNone
  | Element x => AttrScalar x
  | Row a => AttrArray a
  end.

(** The numbers of [result[0]], as [Quantity(result[0], unit)] needs
    them. *)
Definition item_numbers (first : item pyobj) : result (ndarray Q) :=
  match first with
  | Element x => to_numbers (NdArray [] [x])
  | Row a => to_numbers a
  end.

(** The combining operation of each class: the callable handed to
    [CombineStreams], or the [task] method of [Concatenate] and [Stack]. *)
Inductive combiner :=
  | CombineStreams (task : list (ndarray pyobj) -> result (ndarray pyobj))
  | Concatenate (axis : Z)
  | Stack (axis : Z).

(** The frame buffer to reuse:
    [getattr(self._frame, 'shape', [-1])[0] == data[0].shape[0]]. *)
Definition reuse_frame (frame : option (ndarray pyobj))
  (data : list (ndarray pyobj)) : result (option (ndarray pyobj)) :=
  let* lead_frame :=
    match frame with
    | None => ok (-1)
    | Some f => let* n := shape0 (shape f) in ok (Z.of_nat n)
    end in
  let* d0 :=
    match data with
    | d :: _ => ok d
    | [] => raise IndexError "list index out of range"
    end in
  let* lead_data := shape0 (shape d0) in
  ok (if (lead_frame =? Z.of_nat lead_data)%Z then frame else None).

(** [self.task(data)], with [frame] the value of [self._frame]. *)
Definition task (c : combiner) (frame : option (ndarray pyobj))
  (data : list (ndarray pyobj)) : result (ndarray pyobj) :=
  match c with
  | CombineStreams f => f data
  | Concatenate axis =>
      let* out := reuse_frame frame data in
      np_concatenate data axis out
  | Stack axis =>
      let* out := reuse_frame frame data in
      np_stack data axis out
  end.

(** The combined stream.  Modelled from the spec: [TaskBase.__init__] is
    not part of these sources; it keeps the shape and the attributes it is
    handed, takes [samples_per_frame] from the first stream and starts
    without a frame buffer. *)
Record CombineStreamsBase := MkCombined {
  ihs : list stream;
  combined_shape : list nat;
  combined_frequency : attr_value;
  combined_sideband : attr_value;
  combined_polarization : attr_value;
  _samples_per_frame : nat;
  _frame : option (ndarray pyobj)
}.

Definition TaskBase_init (ihs : list stream) (ih0 : stream) (shape : list nat)
  (frequency sideband polarization : attr_value) : result CombineStreamsBase :=
  ok (MkCombined ihs shape frequency sideband polarization
        (samples_per_frame ih0) None).

Section WithUninitialisedMemory.

(** What [np.empty] finds in memory: the element at each position of a
    fresh array of a given shape and dtype. *)
Variable uninitialised : list nat -> string -> nat -> pyobj.

Definition np_empty (s : list nat) (dt : string) : ndarray pyobj :=
  NdArray s (map (uninitialised s dt) (seq 0 (size_of s))).

(** The synthetic blocks of [__init__]:
    [[np.empty((7,) + ih.sample_shape, ih.dtype) for ih in ihs]]. *)
Definition probe_blocks (ihs : list stream) : list (ndarray pyobj) :=
  map (fun ih => np_empty (7%nat :: sample_shape ih) (dtype ih)) ihs.

(** [CombineStreamsBase._combine_attr]; in [__init__] no frame has been
    read yet. *)
Definition _combine_attr (c : combiner) (ihs : list stream) (attr : string)
  : result attr_value :=
  let values := map (fun ih => getattr_or_None ih attr) ihs in
  if forallb is_None values then ok AttrNone
  else
    let* value0 := py_getitem values 0 "list" in
    let unit := unit_or_None value0 in
    let* values :=
      match unit with
      | Some u => mapM (to_value u) values
      | None => ok values
      end in
    let* values :=
      mapM (fun '(value, ih) => broadcast_value value (1%nat :: sample_shape ih))
           (combine values ihs) in
    let* result :=
      add_note (task c None values)
        ("the " +:+ attr +:+ " attribute of the streams cannot be combined "
         +:+ "as required") in
    let* first := first_row result in
    match unit with
    | None => ok (item_value first)
    | Some u => let* xs := item_numbers first in ok (AttrQuantity xs u)
    end.

(** The consistency checks of [__init__] for one stream [ih]. *)
Definition check_stream (ih0 ih : stream) : result unit :=
  let* _ := py_assert (Qeq_bool (sample_rate ih) (sample_rate ih0)) in
  let* _ := py_assert (String.eqb (dtype ih) (dtype ih0)) in
  let* _ := py_assert (Qeq_bool (start_time ih) (start_time ih0)) in
  py_assert (nsample ih =? nsample ih0)%nat.

(** [CombineStreamsBase.__init__] *)
Definition CombineStreamsBase_init (c : combiner) (ihs : list stream)
  : result CombineStreamsBase :=
  match ihs with
  | [] =>
      add_note (raise IndexError "list index out of range")
        "Need an iterable containing at least one stream."
  | ih0 :: rest =>
      let* _ := mapM (check_stream ih0) rest in
      let fakes := probe_blocks ihs in
      let* a :=
        add_note (task c None fakes)
          ("streams with sample shapes "
           +:+ show_tuples (map (fun f => tail (shape f)) fakes)
           +:+ " cannot be combined as required") in
      let* lead := shape0 (shape a) in
      if negb (lead =? 7)%nat
      then raise ValueError "stream combination affected the sample axis (0)."
      else
        let shape := nsample ih0 :: tail (shape a) in
        let* frequency := _combine_attr c ihs "frequency" in
        let* sideband := _combine_attr c ihs "sideband" in
        let* polarization := _combine_attr c ihs "polarization" in
        TaskBase_init ihs ih0 shape frequency sideband polarization
  end.

End WithUninitialisedMemory.

(** The frame buffer after [self.task(data)] returned [res]: a buffer
    handed to numpy as [out] is written in place, so the object that
    [self._frame] names then holds [res]. *)
Definition frame_after (c : combiner) (frame : option (ndarray pyobj))
  (data : list (ndarray pyobj)) (res : ndarray pyobj)
  : option (ndarray pyobj) :=
  match c with
  | CombineStreams _ => frame
  | Concatenate _ | Stack _ =>
      match reuse_frame frame data with
      | inr (Some _) => Some res
      | _ => frame
      end
  end.

(** [CombineStreamsBase._read_frame]: the combined frame, and the object
    afterwards: the streams at their positions after the reads, the
    frame buffer with its content. *)
Definition _read_frame (c : combiner) (self : CombineStreamsBase)
  (frame_index : nat) : result (ndarray pyobj * CombineStreamsBase) :=
  let* reads :=
    mapM (fun ih =>
            read (seek ih (frame_index * _samples_per_frame self))
                 (_samples_per_frame self))
         (ihs self) in
  let data := map fst reads in
  let* out := task c (_frame self) data in
  ok (out,
      MkCombined (map snd reads) (combined_shape self)
        (combined_frequency self) (combined_sideband self)
        (combined_polarization self) (_samples_per_frame self)
        (frame_after c (_frame self) data out)).

(** [self._frame = buffer], as the reading machinery of the base class
    does with a frame it has read. *)
Definition with_frame (self : CombineStreamsBase)
  (buffer : option (ndarray pyobj)) : CombineStreamsBase :=
  MkCombined (ihs self) (combined_shape self) (combined_frequency self)
    (combined_sideband self) (combined_polarization self)
    (_samples_per_frame self) buffer.

End combining.

(** * io/psrfits/psrfits_htm_parser.py *)

Module psrfits_htm_parser.

(** The attributes of a [MyHTMLParser].  [extensions] is the dictionary
    of the class, which [dump] mutates in place; the module uses one
    parser.  [headers] is no class attribute: it exists once an [h3] tag
    has been met. *)
Record MyHTMLParser := MkParser {
  section : bool;
  collect : bool;
  add_nl : bool;
  extensions : gmap string string;
  extname : string;
  data : string;
  headers : option (list string)
}.

(** A parser as the class statement leaves it. *)
Definition new_parser : MyHTMLParser :=
  MkParser false false false ∅ "" "" None.

(** [self.headers] *)
Definition get_headers (self : MyHTMLParser) : result (list string) :=
  match headers self with
  | Some h => ok h
  | None => raise AttributeError
              "'MyHTMLParser' object has no attribute 'headers'"
  end.

Definition nl : string := String newline EmptyString.

(** [MyHTMLParser.dump] *)
Definition dump (self : MyHTMLParser) : result MyHTMLParser :=
  let* h := get_headers self in
  ok (MkParser (section self) (collect self) (add_nl self)
        (<[extname self := py_join nl h]> (extensions self))
        (extname self) (data self) (headers self)).

(** [MyHTMLParser.handle_starttag]; an attribute of a tag is a name with
    its value, if it has one. *)
Definition handle_starttag (self : MyHTMLParser) (tag : string)
  (attrs : list (string * option string)) : result MyHTMLParser :=
  if String.eqb tag "p"
     || (String.eqb tag "div"
         && bool_decide (attrs = [("class", Some "indent")]))
  then ok (MkParser (section self) true (add_nl self) (extensions self)
             (extname self) "" (headers self))
  else if String.eqb tag "br"
  then ok (MkParser (section self) (collect self) true (extensions self)
             (extname self) (data self) (headers self))
  else if String.eqb tag "h3"
  then
    let* self := if section self then dump self else ok self in
    ok (MkParser true (collect self) (add_nl self) (extensions self)
          (extname self) (data self) (Some []))
  else ok self.

(** [headers[-1] = headers[-1] + suffix] on a list that is not empty. *)
Fixpoint append_to_last (h : list string) (suffix : string) : list string :=
  match h with
  | [] => []
  | [x] => [x +:+ suffix]
  | x :: h' => x :: append_to_last h' suffix
  end.

(** [len(data) > 8 and data[8] == '='] *)
Definition is_card (data : string) : bool :=
  (8 <? String.length data)%nat
  && match String.get 8 data with
     | Some c => Ascii.eqb c "="
     | None => false
     end.

(** [MyHTMLParser.handle_endtag] *)
Definition handle_endtag (self : MyHTMLParser) (tag : string)
  : result MyHTMLParser :=
  if negb (String.eqb tag "p" || String.eqb tag "div") || negb (collect self)
  then ok self
  else
    let self := MkParser (section self) false (add_nl self) (extensions self)
                  (extname self) (data self) (headers self) in
    let data := data self in
    if String.eqb tag "p"
       && (py_startswith data "COMMENT" || py_startswith data "END"
           || is_card data)
    then
      let* self :=
        if py_startswith data "EXTNAME"
        then
          let* name := py_getitem (py_split data " ") 2 "list" in
          ok (MkParser (section self) (collect self) (add_nl self)
                (extensions self) name (psrfits_htm_parser.data self)
                (headers self))
        else ok self in
      let* h := get_headers self in
      ok (MkParser (section self) false (add_nl self) (extensions self)
            (extname self) (psrfits_htm_parser.data self)
            (Some (h ++ py_split data newline)))
    else if String.eqb tag "div"
    then
      let* h := get_headers self in
      if negb (bool_decide (h = [])) && negb (py_startswith data "Standard")
      then ok (MkParser (section self) (collect self) (add_nl self)
                 (extensions self) (extname self)
                 (psrfits_htm_parser.data self)
                 (Some (append_to_last h (nl +:+ "# " +:+ data))))
      else ok self
    else ok self.

(** [MyHTMLParser.handle_data] *)
Definition handle_data (self : MyHTMLParser) (text : string) : MyHTMLParser :=
  let text := py_remove text newline in
  MkParser (section self) (collect self) false (extensions self)
    (extname self)
    (if collect self
     then data self +:+ (if add_nl self then nl else "") +:+ text
     else data self)
    (headers self).

(** Modelled from the spec: [HTMLParser.feed] is the tokenizer of the
    Python library; it calls the three handlers in document order.  A
    document is given here by the calls it leads to. *)
Inductive event :=
  | StartTag (tag : string) (attrs : list (string * option string))
  | EndTag (tag : string)
  | Data (text : string).

Definition handle (self : MyHTMLParser) (ev : event) : result MyHTMLParser :=
  match ev with
  | StartTag tag attrs => handle_starttag self tag attrs
  | EndTag tag => handle_endtag self tag
  | Data text => ok (handle_data self text)
  end.

Fixpoint feed (self : MyHTMLParser) (evs : list event)
  : result MyHTMLParser :=
  match evs with
  | [] => ok self
  | ev :: evs' => let* self := handle self ev in feed self evs'
  end.

(** The statements of the module: parse the document, then look up the
    primary header under the empty extension name. *)
Definition main (document : list event) : result string :=
  let* parser := feed new_parser document in
  match extensions parser !! "" with
  | Some text => ok text
  | None => raise KeyError "''"
  end.

End psrfits_htm_parser.

(** * Notions used in the statements *)

(** The HDUs of a file that carry a given name, in file order. *)
Definition hdus_named (k : string) (hdu_list : list hdu.HDU) : list hdu.HDU :=
  List.filter (fun h => String.eqb (hdu.name h) k) hdu_list.

(** A stream differs from the first one of its group in one of the four
    attributes that [CombineStreamsBase.__init__] compares. *)
Definition differs (ih ih0 : combining.stream) : Prop :=
  ~ (combining.sample_rate ih == combining.sample_rate ih0)%Q
  \/ combining.dtype ih <> combining.dtype ih0
  \/ ~ (combining.start_time ih == combining.start_time ih0)%Q
  \/ combining.nsample ih <> combining.nsample ih0.

(** The four attribute names. *)
Definition compared_attributes : list string :=
  ["sample_rate"; "dtype"; "start_time"; "shape"].

(** A buffer is fit for a result when there is none or it has the shape
    of the result. *)
Definition fits {A} (out : option (ndarray A)) (s : list nat) : Prop :=
  match out with
  | None => True
  | Some buffer => shape buffer = s
  end.

(** The zero offset that [read_data_row] subtracts, as the specification
    words it: 0 when the ZERO_OFF keyword is absent or its value is not
    numeric, the value when it is a number.  There is none for a string
    that [float()] accepts. *)
Definition zero_offset (h : gmap string hval) : option Q :=
  match h !! "ZERO_OFF" with
  | None => Some (inject_Z 0)
  | Some v => if py_float_ok v then as_number v else Some (inject_Z 0)
  end.

(** The difference [x - z] of a sample and the zero offset as the
    arithmetic of the table's DATA column gives it: exact for
    floating-point samples or a floating-point offset, wrapped around to
    the width of the integer type otherwise. *)
Definition shifted (self : hdu.SubintHDU) (z x : Q) : Q :=
  sub_scalar (hdu.data_dtype (hdu.data (hdu.wrapped self)))
             (hdu.zero_off self) z x.






(** An attribute error that names none of the three metadata attributes. *)
Definition unnamed (e : exc) : Prop :=
  exc_kind e = AttributeError
  /\ forall attr, In attr ["frequency"; "sideband"; "polarization"] ->
                  mentions e attr = false.

(** The shape of a combined attribute that is not [None]. *)
Definition attr_shape (v : combining.attr_value) : option (list nat) :=
  match v with
  | combining.AttrNone => None
  | combining.AttrScalar _ => Some []
  | combining.AttrArray a => Some (shape a)
  | combining.AttrQuantity a _ => Some (shape a)
  end.

(** The combination of the blocks of a group has more than one axis: a
    stack always has, a concatenation has when the samples of the streams
    have an axis. *)
Definition keeps_sample_axes (c : combining.combiner)
  (ih0 : combining.stream) : Prop :=
  match c with
  | combining.CombineStreams _ => False
  | combining.Concatenate _ => combining.sample_shape ih0 <> []
  | combining.Stack _ => True
  end.

(** The parser events that open a section of the documentation: the
    start tags of an [h3] heading. *)
Definition opens_section (ev : psrfits_htm_parser.event) : bool :=
  match ev with
  | psrfits_htm_parser.StartTag tag _ => String.eqb tag "h3"
  | _ => false
  end.

(** * Inputs used in the examples *)

(** The rounding the claim of the specification uses: the ceiling of
    [a / b]. *)
Definition ceil_div (a b : Z) : Z := - ((- a) / b).

(** A primary header with two channels around 1400 MHz. *)
Definition two_channel_primary : hdu.PSRFITSPrimaryHDU :=
  hdu.MkPrimary
    (hdu.MkHDU "PRIMARY"
       (list_to_map [("OBSNCHAN", HInt 2); ("OBSFREQ", HInt 1400);
                     ("OBSBW", HInt 200)])
       (hdu.Table [] [] int16)).

(** A PSRFITS primary HDU in fold mode. *)
Definition psr_primary_hdu : hdu.HDU :=
  hdu.MkHDU "PRIMARY"
    (list_to_map [("SIMPLE", HBool true); ("FITSTYPE", HStr "PSRFITS");
                  ("OBS_MODE", HStr "PSR"); ("STT_IMJD", HInt 58000);
                  ("STT_SMJD", HInt 3600); ("STT_OFFS", HFloat (1 # 4));
                  ("OBSNCHAN", HInt 2); ("OBSFREQ", HInt 1400);
                  ("OBSBW", HInt 200)])
    (hdu.Table [] [] int16).

Definition psr_primary : hdu.PSRFITSPrimaryHDU := hdu.MkPrimary psr_primary_hdu.

Definition Qs (l : list Z) : list Q := map inject_Z l.

(** One row of a SUBINT table with [npol] polarizations, two channels and
    two bins; the scales and offsets hold one entry per polarization and
    channel, the weights one entry per channel. *)
Definition subint_row (npol : nat) (first : Z) : gmap string (ndarray Q) :=
  list_to_map
    [("TSUBINT", NdArray [] (Qs [10]));
     ("OFFS_SUB", NdArray [] (Qs [5 + 10 * first]));
     ("DAT_WTS", NdArray [2%nat] (Qs [1; 0]));
     ("DAT_OFFS", NdArray [(npol * 2)%nat]
                    (Qs (map (fun i => 10 * Z.of_nat i) (seq 1 (npol * 2)))));
     ("DAT_SCL", NdArray [(npol * 2)%nat]
                   (Qs (map (fun i => 1 + Z.of_nat i) (seq 1 (npol * 2)))));
     ("DATA", NdArray [npol; 2%nat; 2%nat]
                (Qs (map (fun i => first + Z.of_nat i) (seq 1 (npol * 4)))))].

(** A SUBINT HDU of two rows, with an optional ZERO_OFF keyword. *)
Definition subint_hdu (npol : nat) (zero_off : option hval) : hdu.HDU :=
  hdu.MkHDU "SUBINT"
    (list_to_map
       ([("EXTNAME", HStr "SUBINT  "); ("NAXIS2", HInt 2); ("NBIN", HInt 2);
         ("NCHAN", HInt 2); ("NPOL", HInt (Z.of_nat npol))]
        ++ match zero_off with
           | Some v => [("ZERO_OFF", v)]
           | None => []
           end))
    (hdu.Table
       ["TSUBINT"; "OFFS_SUB"; "DAT_WTS"; "DAT_OFFS"; "DAT_SCL"; "DATA"]
       [subint_row npol 0; subint_row npol 100]
       int16).

Definition subint (npol : nat) (zero_off : option hval) : hdu.SubintHDU :=
  hdu.MkSubint hdu.PSRSubintHDU (subint_hdu npol zero_off) psr_primary 0.

(** A primary header that gives the antenna position, and the table of one
    polarization under such a header. *)
Definition antenna_primary (x y z : hval) : hdu.PSRFITSPrimaryHDU :=
  hdu.MkPrimary
    (hdu.MkHDU "PRIMARY"
       (<["ANT_X" := x]> (<["ANT_Y" := y]> (<["ANT_Z" := z]>
          (hdu.header psr_primary_hdu))))
       (hdu.data psr_primary_hdu)).

Definition subint_at (primary : hdu.PSRFITSPrimaryHDU) : hdu.SubintHDU :=
  hdu.MkSubint hdu.PSRSubintHDU (subint_hdu 1 None) primary 0.

Definition parkes : EarthLocation :=
  MkLocation (inject_Z (-4554232)) (inject_Z 2816759) (inject_Z (-3454036)).

Definition parkes_primary : hdu.PSRFITSPrimaryHDU :=
  antenna_primary (HInt (-4554232)) (HInt 2816759) (HInt (-3454036)).

(** A table of one row of 16-bit samples, one channel and two bins, the
    first sample at the upper end of the range, with ZERO_OFF = -1. *)
Definition wrapping_row : gmap string (ndarray Q) :=
  list_to_map
    [("TSUBINT", NdArray [] (Qs [10]));
     ("DAT_OFFS", NdArray [1%nat] (Qs [10]));
     ("DAT_SCL", NdArray [1%nat] (Qs [2]));
     ("DATA", NdArray [1; 1; 2]%nat (Qs [32767; 100]))].

Definition wrapping_subint : hdu.SubintHDU :=
  hdu.MkSubint hdu.PSRSubintHDU
    (hdu.MkHDU "SUBINT"
       (list_to_map
          [("EXTNAME", HStr "SUBINT  "); ("NAXIS2", HInt 1); ("NBIN", HInt 2);
           ("NCHAN", HInt 1); ("NPOL", HInt 1); ("ZERO_OFF", HInt (-1))])
       (hdu.Table ["TSUBINT"; "DAT_OFFS"; "DAT_SCL"; "DATA"] [wrapping_row]
          int16))
    psr_primary 0.

(** Memory that holds zeros wherever [np.empty] allocates. *)
Definition zero_memory : list nat -> string -> nat -> combining.pyobj :=
  fun _ _ _ => combining.PNum (inject_Z 0).

Definition ramp (n : nat) (first : Z) : list combining.pyobj :=
  map (fun i => combining.PNum (inject_Z (first + Z.of_nat i))) (seq 0 n).

(** A stream of four samples in frames of two, counting up from [first]. *)
Definition example_stream (rate : Q) (dt : string) (sample_shape : list nat)
  (first : Z) (frequency : combining.attr_value) : combining.stream :=
  combining.Stream rate dt (inject_Z 0) 4 sample_shape 2
    frequency combining.AttrNone combining.AttrNone
    (NdArray (4%nat :: sample_shape) (ramp (4 * size_of sample_shape) first))
    0.

(** A task that drops the last sample of the first block. *)
Definition drop_last_sample (blocks : list (ndarray combining.pyobj))
  : result (ndarray combining.pyobj) :=
  match blocks with
  | b :: _ =>
      match shape b with
      | n :: s => ok (slice_axis 0 0 (n - 1) b)
      | [] => ok b
      end
  | [] => raise IndexError "list index out of range"
  end.

(** A task that returns the first block. *)
Definition first_block (blocks : list (ndarray combining.pyobj))
  : result (ndarray combining.pyobj) :=
  match blocks with
  | b :: _ => ok b
  | [] => raise IndexError "list index out of range"
  end.

(** A stream of one number per sample. *)
Definition scalar_stream (frequency : combining.attr_value)
  : combining.stream :=
  example_stream (inject_Z 1) "float32" [] 0 frequency.

(** Two streams that differ only in their first sample axis. *)
Definition narrow_stream : combining.stream :=
  example_stream (inject_Z 1) "float32" [1; 2]%nat 0 combining.AttrNone.

Definition wide_stream : combining.stream :=
  example_stream (inject_Z 1) "float32" [3; 2]%nat 100 combining.AttrNone.

(** Their concatenation along axis 1, as [Concatenate] builds it. *)
Definition narrow_and_wide : combining.CombineStreamsBase :=
  combining.MkCombined [narrow_stream; wide_stream] [4; 4; 2]%nat
    combining.AttrNone combining.AttrNone combining.AttrNone 2 None.

(** A stream whose frequencies are a quantity in MHz, one whose
    frequencies are a plain array, and one without frequencies. *)
Definition stream_with_unit : combining.stream :=
  example_stream (inject_Z 1) "float32" [2]%nat 0
    (combining.AttrQuantity (NdArray [2]%nat (Qs [1400; 1500])) MHz).

Definition stream_with_array : combining.stream :=
  example_stream (inject_Z 1) "float32" [2]%nat 0
    (combining.AttrArray
       (NdArray [2]%nat [combining.PNum (inject_Z 1400);
                         combining.PNum (inject_Z 1500)])).

Definition stream_without : combining.stream :=
  example_stream (inject_Z 1) "float32" [2]%nat 100 combining.AttrNone.

(** The table of one polarization with a DAT_FREQ column, the same
    frequencies in every row. *)
Definition subint_hdu_with_frequencies : hdu.HDU :=
  let h := subint_hdu 1 None in
  hdu.MkHDU "SUBINT" (hdu.header h)
    (hdu.Table ("DAT_FREQ" :: hdu.names (hdu.data h))
       (map (insert "DAT_FREQ" (NdArray [2%nat] (Qs [1300; 1500])))
            (hdu.rows (hdu.data h)))
       (hdu.data_dtype (hdu.data h))).

(** The same table with the polarization labels in its header, and the
    reader that [open] builds on it. *)
Definition labelled_subint_hdu : hdu.HDU :=
  let h := subint_hdu_with_frequencies in
  hdu.MkHDU "SUBINT" (<["POL_TYPE" := HStr "AA+BB"]> (hdu.header h))
    (hdu.data h).

Definition labelled_subint : hdu.SubintHDU :=
  hdu.MkSubint hdu.PSRSubintHDU labelled_subint_hdu psr_primary 0.

Definition labelled_reader (weighted : bool) : core.PSRFITSReader :=
  core.MkReader labelled_subint weighted
    (core.MkAttributes
       (Some (MkQuantity (NdArray [2; 1]%nat (Qs [1300; 1500])) MHz))
       None
       (Some (NdArray [1%nat] [["AA+BB"]]))
       np_float).

(** A reader on the table without labels, built with the labels given by
    the caller. *)
Definition example_reader (weighted : bool) : core.PSRFITSReader :=
  core.MkReader (subint 1 None) weighted
    (core.MkAttributes None None (Some (NdArray [1%nat] [["AA+BB"]]))
       np_float).

(** A SUBINT header that names its polarizations. *)
Definition subint_with_labels (npol : Z) (pol_type : string) : hdu.SubintHDU :=
  hdu.MkSubint hdu.PSRSubintHDU
    (hdu.MkHDU "SUBINT"
       (list_to_map [("EXTNAME", HStr "SUBINT  "); ("NPOL", HInt npol);
                     ("POL_TYPE", HStr pol_type)])
       (hdu.Table [] [] int16))
    psr_primary 0.

(** A primary header in search mode, and one whose mode is in lower case. *)
Definition primary_with_mode (m : string) : hdu.PSRFITSPrimaryHDU :=
  hdu.MkPrimary
    (hdu.MkHDU "PRIMARY"
       (list_to_map [("SIMPLE", HBool true); ("FITSTYPE", HStr "PSRFITS");
                     ("OBS_MODE", HStr m)])
       (hdu.Table [] [] int16)).


(** An HDU that [HDU_map] does not know. *)
Definition history_hdu : hdu.HDU :=
  hdu.MkHDU "HISTORY" (list_to_map [("EXTNAME", HStr "HISTORY ")])
    (hdu.Table [] [] int16).

(** A second stream with the sample shape of [narrow_stream]. *)
Definition second_narrow_stream : combining.stream :=
  example_stream (inject_Z 1) "float32" [1; 2]%nat 100 combining.AttrNone.

(** The stack of the two along a new axis 1, as [Stack] builds it. *)
Definition narrow_stack : combining.CombineStreamsBase :=
  combining.MkCombined [narrow_stream; second_narrow_stream] [4; 2; 1; 2]%nat
    combining.AttrNone combining.AttrNone combining.AttrNone 2 None.

(** Two streams with frequencies, concatenated along axis 1 and stacked
    along a new axis 1, as the two classes build them. *)
Definition doubled_frequencies : list combining.pyobj :=
  [combining.PNum (inject_Z 1400); combining.PNum (inject_Z 1500);
   combining.PNum (inject_Z 1400); combining.PNum (inject_Z 1500)].

Definition concatenated_with_frequencies : combining.CombineStreamsBase :=
  combining.MkCombined [stream_with_array; stream_with_array] [4; 4]%nat
    (combining.AttrArray (NdArray [4%nat] doubled_frequencies))
    combining.AttrNone combining.AttrNone 2 None.

Definition stacked_with_frequencies : combining.CombineStreamsBase :=
  combining.MkCombined [stream_with_array; stream_with_array] [4; 2; 2]%nat
    (combining.AttrArray (NdArray [2; 2]%nat doubled_frequencies))
    combining.AttrNone combining.AttrNone 2 None.

(** A paragraph that holds one header card, and a heading. *)
Definition card (text : string) : list psrfits_htm_parser.event :=
  [psrfits_htm_parser.StartTag "p" []; psrfits_htm_parser.Data text;
   psrfits_htm_parser.EndTag "p"].

Definition heading (title : string) : list psrfits_htm_parser.event :=
  [psrfits_htm_parser.StartTag "h3" []; psrfits_htm_parser.Data title;
   psrfits_htm_parser.EndTag "h3"].

(** A document with the primary header, a SUBINT extension, and a last
    section. *)
Definition documentation : list psrfits_htm_parser.event :=
  heading "Primary header"
  ++ card "SIMPLE  =                    T / file does conform to FITS standard"
  ++ card "END"
  ++ heading "Subintegration data"
  ++ card "EXTNAME = SUBINT / name of this binary table extension"
  ++ card "END"
  ++ heading "History"
  ++ card "EXTNAME = HISTORY / name of this binary table extension".

(** * Properties of results and of Python indexing *)

Example float_accepts_examples :
  map float_accepts ["1.5"; " -2e3 "; ".5"; "1."; "1_000"; "NaN"; "+inf"]
    = [true; true; true; true; true; true; true]
  /\ map float_accepts ["*"; ""; "abc"; "1e"; "1__0"; "."; "0x10"; "1 2"]
    = [false; false; false; false; false; false; false; false].
Proof. split; reflexivity. Qed.



Lemma bind_ok_inv {A B} (m : result A) (f : A -> result B) (y : B) :
  bind m f = inr y -> exists x, m = inr x /\ f x = inr y.
Proof. destruct m as [e|x]; simpl; [discriminate | eauto]. Qed.

Lemma bind_ok_eq {A B} (m : result A) (f : A -> result B) (x : A) :
  m = inr x -> bind m f = f x.
Proof. intros ->. reflexivity. Qed.

Lemma mapM_ok_length {A B} (f : A -> result B) (xs : list A) (ys : list B) :
  mapM f xs = inr ys -> length ys = length xs.
Proof.
  revert ys. induction xs as [|x xs IH]; simpl; intros ys H.
  - injection H as <-. reflexivity.
  - apply bind_ok_inv in H as (y & _ & H).
    apply bind_ok_inv in H as (ys' & Hys & H).
    injection H as <-. simpl. f_equal. auto.
Qed.

Lemma mapM_ok_lookup {A B} (f : A -> result B) (xs : list A) (ys : list B)
  (i : nat) (x : A) :
  mapM f xs = inr ys -> xs !! i = Some x ->
  exists y, ys !! i = Some y /\ f x = inr y.
Proof.
  revert ys i. induction xs as [|x0 xs IH]; simpl; intros ys i H Hx.
  - discriminate.
  - apply bind_ok_inv in H as (y & Hy & H).
    apply bind_ok_inv in H as (ys' & Hys & H).
    injection H as <-. destruct i as [|i]; simpl in *.
    + injection Hx as <-. eauto.
    + eauto.
Qed.

Lemma mapM_all_ok {A B} (f : A -> result B) (g : A -> B) (xs : list A) :
  (forall x, In x xs -> f x = inr (g x)) -> mapM f xs = inr (map g xs).
Proof.
  induction xs as [|x xs IH]; simpl; intros H; [reflexivity|].
  rewrite (H x) by auto. simpl. rewrite IH by auto. reflexivity.
Qed.

Lemma mapM_first_error {A B} (f : A -> result B) (xs1 xs2 : list A) (x : A)
  (e : exc) :
  (forall y, In y xs1 -> is_ok (f y) = true) -> f x = inl e ->
  mapM f (xs1 ++ x :: xs2) = inl e.
Proof.
  intros Hok He. induction xs1 as [|y xs1 IH]; simpl.
  - rewrite He. reflexivity.
  - pose proof (Hok y (or_introl eq_refl)) as Hy.
    destruct (f y) as [|v]; [discriminate|]. simpl.
    rewrite IH; [reflexivity|]. intros z Hz. apply Hok. right. exact Hz.
Qed.

Lemma py_getitem_nonneg {A} (l : list A) (i : Z) (what : string) (x : A) :
  0 <= i -> l !! Z.to_nat i = Some x -> py_getitem l i what = ok x.
Proof.
  intros Hi Hx. unfold py_getitem.
  destruct (Z.ltb_spec i 0) as [?|_]; [lia|].
  apply lookup_lt_Some in Hx as Hlt.
  destruct (Z.leb_spec 0 i) as [_|?]; [|lia].
  destruct (Z.ltb_spec i (Z.of_nat (length l))) as [_|?]; [|lia].
  simpl. rewrite Hx. reflexivity.
Qed.


(** * Arrays: blocks, joining and slicing *)

Section ArrayFacts.

Context {A : Type}.
Implicit Types (d : list A) (s t : list nat) (a b : ndarray A).

Lemma ndarray_eq a b : shape a = shape b -> elems a = elems b -> a = b.
Proof. destruct a, b. simpl. intros -> ->. reflexivity. Qed.

Lemma size_of_app s t : size_of (s ++ t) = (size_of s * size_of t)%nat.
Proof.
  induction s as [|n s IH]; simpl; [lia|]. rewrite IH. lia.
Qed.

Lemma size_of_take_drop s k :
  size_of s = (size_of (take k s) * size_of (drop k s))%nat.
Proof. rewrite <- size_of_app, take_drop. reflexivity. Qed.

Lemma size_of_drop s k :
  (k < length s)%nat ->
  size_of (drop k s) = (nth k s 0 * size_of (drop (S k) s))%nat.
Proof.
  revert k. induction s as [|n s IH]; intros k Hk; simpl in Hk; [lia|].
  destruct k as [|k]; simpl; [reflexivity|].
  apply IH. lia.
Qed.

Lemma take_add_drop d (m n : nat) :
  take (m + n) d = take m d ++ take n (drop m d).
Proof.
  revert d. induction m as [|m IH]; intros d; simpl; [reflexivity|].
  destruct d as [|x d]; simpl.
  - rewrite take_nil. reflexivity.
  - rewrite IH. reflexivity.
Qed.

Lemma piece_length len d o :
  (o * len + len <= length d)%nat -> length (piece len d o) = len.
Proof.
  intros H. unfold piece. rewrite length_take, length_drop. lia.
Qed.

(** The first [n] blocks of a list, laid end to end, are its prefix. *)
Lemma flat_map_piece_take len d (n : nat) :
  flat_map (piece len d) (seq 0 n) = take (n * len) d.
Proof.
  induction n as [|n IH]; [reflexivity|].
  rewrite seq_S, flat_map_app, IH. simpl. rewrite app_nil_r.
  unfold piece. rewrite <- take_add_drop. f_equal. lia.
Qed.

Lemma flat_map_piece_all len d (n : nat) :
  length d = (n * len)%nat -> flat_map (piece len d) (seq 0 n) = d.
Proof.
  intros H. rewrite flat_map_piece_take. apply take_ge. lia.
Qed.

Lemma flat_map_ext_in {B} (f g : B -> list A) (l : list B) :
  (forall x, In x l -> f x = g x) -> flat_map f l = flat_map g l.
Proof.
  induction l as [|x l IH]; simpl; intros H; [reflexivity|].
  rewrite (H x), IH by auto. reflexivity.
Qed.

Lemma flat_map_length_uniform {B} (f : B -> list A) (l : list B) (len : nat) :
  (forall x, In x l -> length (f x) = len) ->
  length (flat_map f l) = (length l * len)%nat.
Proof.
  induction l as [|x l IH]; simpl; intros H; [reflexivity|].
  rewrite length_app, IH, (H x) by auto. reflexivity.
Qed.

(** In a list made of [n] blocks of equal length, the [o]-th block is the
    [o]-th one laid down. *)
Lemma piece_flat_map (f : nat -> list A) (len n o start : nat) :
  (forall i, (start <= i < start + n)%nat -> length (f i) = len) ->
  (o < n)%nat ->
  piece len (flat_map f (seq start n)) o = f (start + o)%nat.
Proof.
  revert o start. induction n as [|n IH]; intros o start Hlen Ho; [lia|].
  simpl. destruct o as [|o].
  - unfold piece. simpl. rewrite Nat.add_0_r.
    apply take_app_length'. symmetry. apply Hlen. lia.
  - unfold piece. replace (S o * len)%nat with (length (f start) + o * len)%nat
      by (rewrite (Hlen start) by lia; lia).
    rewrite drop_app_add.
    replace (start + S o)%nat with (S start + o)%nat by lia.
    apply (IH o (S start)); [|lia]. intros i Hi. apply Hlen. lia.
Qed.

Lemma same_except_inv k s t :
  same_except k s t = true ->
  length s = length t /\ take k s = take k t
  /\ drop (S k) s = drop (S k) t.
Proof.
  unfold same_except. intros H. apply bool_decide_eq_true in H.
  split; [|split].
  - rewrite <- (length_insert s k 0%nat), H. apply length_insert.
  - rewrite <- (take_insert_ge s k k 0%nat), H by lia.
    apply take_insert_ge. lia.
  - rewrite <- (drop_insert_lt s (S k) k 0%nat), H by lia.
    apply drop_insert_lt. lia.
Qed.

(** The elements of two arrays joined along axis [k]. *)
Lemma join_axis_pair_elems k a b :
  elems (join_axis k [a; b] (shape a))
  = flat_map
      (fun o => piece (size_of (drop k (shape a))) (elems a) o
                ++ piece (size_of (drop k (shape b))) (elems b) o)
      (seq 0 (size_of (take k (shape a)))).
Proof.
  unfold join_axis. simpl. apply flat_map_ext. intros o.
  rewrite app_nil_r. reflexivity.
Qed.

Section JoinSlice.

Variables (k : nat) (a b : ndarray A).
Hypothesis Ha : well_formed a.
Hypothesis Hb : well_formed b.
Hypothesis Hk : (k < length (shape a))%nat.
Hypothesis Hsame : same_except k (shape a) (shape b) = true.

Let outer := size_of (take k (shape a)).
Let inner := size_of (drop (S k) (shape a)).
Let na := nth k (shape a) 0%nat.
Let nb := nth k (shape b) 0%nat.

Lemma join_blocks_a : size_of (drop k (shape a)) = (na * inner)%nat.
Proof. apply size_of_drop. exact Hk. Qed.

Lemma join_blocks_b : size_of (drop k (shape b)) = (nb * inner)%nat.
Proof.
  destruct (same_except_inv _ _ _ Hsame) as (Hlen & _ & Hdrop).
  unfold inner. rewrite Hdrop. apply size_of_drop. lia.
Qed.

Lemma join_length_a : length (elems a) = (outer * (na * inner))%nat.
Proof.
  rewrite Ha, (size_of_take_drop (shape a) k), join_blocks_a. reflexivity.
Qed.

Lemma join_length_b : length (elems b) = (outer * (nb * inner))%nat.
Proof.
  destruct (same_except_inv _ _ _ Hsame) as (_ & Htake & _).
  rewrite Hb, (size_of_take_drop (shape b) k), join_blocks_b.
  unfold outer. rewrite Htake. reflexivity.
Qed.

Lemma joined_shape :
  shape (join_axis k [a; b] (shape a)) = <[k := (na + nb)%nat]> (shape a).
Proof. unfold join_axis. simpl. rewrite Nat.add_0_r. reflexivity. Qed.

Lemma joined_block (o : nat) :
  (o < outer)%nat ->
  piece ((na + nb) * inner) (elems (join_axis k [a; b] (shape a))) o
  = piece (na * inner) (elems a) o ++ piece (nb * inner) (elems b) o.
Proof.
  intros Ho. rewrite join_axis_pair_elems, join_blocks_a, join_blocks_b.
  fold outer.
  rewrite (piece_flat_map _ ((na + nb) * inner) outer o 0); [reflexivity| |exact Ho].
  intros i Hi. rewrite length_app.
  rewrite !piece_length; [lia| |].
  - rewrite join_length_b. nia.
  - rewrite join_length_a. nia.
Qed.

Lemma joined_geometry :
  size_of (take k (shape (join_axis k [a; b] (shape a)))) = outer
  /\ size_of (drop (S k) (shape (join_axis k [a; b] (shape a)))) = inner
  /\ nth k (shape (join_axis k [a; b] (shape a))) 0%nat = (na + nb)%nat.
Proof.
  rewrite joined_shape. split; [|split].
  - rewrite take_insert_ge by lia. reflexivity.
  - rewrite drop_insert_lt by lia. reflexivity.
  - apply nth_lookup_Some. apply list_lookup_insert_eq. exact Hk.
Qed.

Lemma nth_axis_lookup s i : (i < length s)%nat -> s !! i = Some (nth i s 0%nat).
Proof.
  intros Hi. destruct (nth_lookup_or_length s i 0%nat) as [H|H]; [exact H|lia].
Qed.

(** Cutting the joined array back to the extent of the first array along
    the axis gives back the first array. *)
Lemma join_slice_first :
  slice_axis k 0 na (join_axis k [a; b] (shape a)) = a.
Proof.
  destruct joined_geometry as (Houter & Hinner & Hnth).
  apply ndarray_eq; unfold slice_axis; rewrite ?Houter, ?Hinner, ?Hnth;
    cbn [shape elems].
  - rewrite joined_shape, list_insert_insert_eq, Nat.sub_0_r.
    apply list_insert_id. apply nth_axis_lookup. exact Hk.
  - transitivity (flat_map (piece (na * inner) (elems a)) (seq 0 outer)).
    + apply flat_map_ext_in. intros o Ho. apply in_seq in Ho.
      rewrite joined_block by lia. simpl. rewrite Nat.sub_0_r.
      apply take_app_length'. symmetry. apply piece_length.
      rewrite join_length_a. nia.
    + apply flat_map_piece_all. apply join_length_a.
Qed.

(** Cutting out the rest along the axis gives back the second array. *)
Lemma join_slice_second :
  slice_axis k na (na + nb) (join_axis k [a; b] (shape a)) = b.
Proof.
  destruct joined_geometry as (Houter & Hinner & Hnth).
  destruct (same_except_inv _ _ _ Hsame) as (Hlen & Htake & Hdrop).
  apply ndarray_eq; unfold slice_axis; rewrite ?Houter, ?Hinner, ?Hnth;
    cbn [shape elems]; replace (na + nb - na)%nat with nb by lia.
  - rewrite joined_shape, list_insert_insert_eq.
    rewrite <- (take_drop_middle (shape b) k nb)
      by (apply nth_axis_lookup; lia).
    rewrite insert_take_drop by lia.
    rewrite Htake, Hdrop. reflexivity.
  - transitivity (flat_map (piece (nb * inner) (elems b)) (seq 0 outer)).
    + apply flat_map_ext_in. intros o Ho. apply in_seq in Ho.
      rewrite joined_block by lia.
      assert (Hla : length (piece (na * inner) (elems a) o) = (na * inner)%nat).
      { apply piece_length. rewrite join_length_a. nia. }
      rewrite drop_app_length' by (symmetry; exact Hla).
      apply take_ge. rewrite piece_length; [lia|].
      rewrite join_length_b. nia.
    + apply flat_map_piece_all. apply join_length_b.
Qed.

End JoinSlice.

End ArrayFacts.

(** * Arrays: broadcasting a column over the bins *)

Section ColumnBroadcast.

Context {A : Type}.
Implicit Types (d : list A) (s : list nat).

Lemma flat_map_fmap {B C} (f : C -> list A) (g : B -> C) (l : list B) :
  flat_map f (map g l) = flat_map (fun x => f (g x)) l.
Proof.
  induction l as [|x l IH]; simpl; [reflexivity|]. rewrite IH. reflexivity.
Qed.








End ColumnBroadcast.





(** * io/psrfits/hdu.py: channel frequencies *)

Section PrimaryFrequency.

Import hdu.

Lemma arange_from_1_lookup (n k : Z) :
  1 <= k <= n -> arange_from_1 n !! Z.to_nat (k - 1) = Some k.
Proof.
  intros Hk. unfold arange_from_1.
  rewrite list_lookup_fmap.
  rewrite (lookup_seq_lt 1 (Z.to_nat n) (Z.to_nat (k - 1))) by lia.
  simpl. f_equal. lia.
Qed.

(** C3, as the code has it: the center frequency of channel [k]
    (1-indexed) is [c + (k - floor((n+1)/2)) * (b / n)]; the reference
    channel is the floor, not the ceiling, of [(n+1)/2]. *)
Theorem frequency_channel_floor (self : PSRFITSPrimaryHDU) (n k : Z)
  (cv bv : hval) (c b : Q) :
  header (primary_wrapped self) !! "OBSNCHAN" = Some (HInt n) ->
  header (primary_wrapped self) !! "OBSFREQ" = Some cv ->
  header (primary_wrapped self) !! "OBSBW" = Some bv ->
  as_number cv = Some c ->
  as_number bv = Some b ->
  1 <= k <= n ->
  exists q,
    PSRFITSPrimaryHDU_frequency self = ok (Some q) /\
    q_unit q = MHz /\
    shape (q_value q) = [Z.to_nat n] /\
    elems (q_value q) !! Z.to_nat (k - 1)
      = Some (c + inject_Z (k - (n + 1) / 2) * (b / inject_Z n))%Q.
Proof.
  intros Hn Hc Hb Hcv Hbv Hk.
  unfold PSRFITSPrimaryHDU_frequency. rewrite Hn, Hc, Hb, Hcv, Hbv.
  destruct (Z.eqb_spec n 0) as [->|_]; [lia|].
  eexists. split; [reflexivity|]. simpl. split; [reflexivity|]. split.
  - rewrite length_map. unfold arange_from_1.
    rewrite length_map, length_seq. reflexivity.
  - rewrite list_lookup_fmap, arange_from_1_lookup by assumption.
    reflexivity.
Qed.

Lemma frequency_channel_floor_witness :
  exists q,
    PSRFITSPrimaryHDU_frequency two_channel_primary = ok (Some q) /\
    q_unit q = MHz /\
    shape (q_value q) = [Z.to_nat 2] /\
    elems (q_value q) !! Z.to_nat (2 - 1)
      = Some (inject_Z 1400
              + inject_Z (2 - (2 + 1) / 2) * (inject_Z 200 / inject_Z 2))%Q.
Proof.
  apply (frequency_channel_floor two_channel_primary 2 2
           (HInt 1400) (HInt 200)); try reflexivity. lia.
Defined.

(** C3 as stated, with the ceiling, fails for two channels: the code puts
    channel 1 at the center frequency, the claim one channel width below. *)
Lemma frequency_ceiling_counterexample :
  exists q x,
    PSRFITSPrimaryHDU_frequency two_channel_primary = ok (Some q) /\
    elems (q_value q) !! Z.to_nat (1 - 1) = Some x /\
    ~ (x == inject_Z 1400
            + inject_Z (1 - ceil_div (2 + 1) 2)
              * (inject_Z 200 / inject_Z 2))%Q.
Proof.
  eexists. eexists. split; [vm_compute; reflexivity|].
  split; [vm_compute; reflexivity|].
  vm_compute. discriminate.
Qed.

End PrimaryFrequency.

(** * io/psrfits/hdu.py: reading rows *)

Section ReadDataRow.

Import hdu.

Lemma never_eof_ok {A} (x : A) : never_eof (ok x).
Proof. intros e H. discriminate. Qed.

Lemma never_eof_raise {A} (k : exc_class) (msg : string) :
  k <> EOFError -> never_eof (@raise A k msg).
Proof. intros Hk e H. injection H as <-. exact Hk. Qed.

Lemma never_eof_bind {A B} (m : result A) (f : A -> result B) :
  never_eof m -> (forall x, never_eof (f x)) -> never_eof (bind m f).
Proof.
  intros Hm Hf e H. destruct m as [e'|x]; simpl in H.
  - injection H as <-. apply Hm. reflexivity.
  - eapply Hf. exact H.
Qed.

Lemma never_eof_row_getitem row key : never_eof (row_getitem row key).
Proof.
  unfold row_getitem. destruct (row !! key).
  - apply never_eof_ok.
  - apply never_eof_raise. discriminate.
Qed.

Lemma never_eof_np_binop {A B C} (f : A -> B -> C) a b :
  never_eof (np_binop f a b).
Proof.
  unfold np_binop. destruct (broadcast_shapes _ _).
  - apply never_eof_ok.
  - apply never_eof_raise. discriminate.
Qed.

Lemma never_eof_np_inplace {A B} (f : A -> B -> A) a b :
  never_eof (np_inplace f a b).
Proof.
  unfold np_inplace. destruct (broadcast_shapes _ _).
  - destruct (bool_decide _).
    + apply never_eof_ok.
    + apply never_eof_raise. discriminate.
  - apply never_eof_raise. discriminate.
Qed.

Lemma never_eof_np_sub_scalar dt a v : never_eof (np_sub_scalar dt a v).
Proof.
  unfold np_sub_scalar. destruct (as_number v).
  - apply never_eof_ok.
  - apply never_eof_raise. discriminate.
Qed.

(** Decoding a fetched row never raises the end-of-stream error. *)
Lemma decode_row_never_eof self row weighted :
  never_eof (decode_row self row weighted).
Proof.
  unfold decode_row.
  apply never_eof_bind; [apply never_eof_row_getitem | intros dat_scl].
  apply never_eof_bind; [apply never_eof_row_getitem | intros dat_offs].
  apply never_eof_bind; [apply never_eof_row_getitem | intros raw].
  apply never_eof_bind; [apply never_eof_np_sub_scalar | intros shifted].
  apply never_eof_bind; [apply never_eof_np_binop | intros scaled].
  apply never_eof_bind; [apply never_eof_np_binop | intros res].
  destruct (weighted && _).
  - apply never_eof_bind; [apply never_eof_row_getitem | intros w].
    apply never_eof_np_inplace.
  - apply never_eof_ok.
Qed.

(** Past the bound check, [read_data_row] is the decoding of the row. *)
Lemma read_data_row_in_range self (n i : Z) weighted row :
  nrow self = ok (HInt n) -> 0 <= i < n ->
  rows (data (wrapped self)) !! Z.to_nat i = Some row ->
  read_data_row self i weighted = decode_row self row weighted.
Proof.
  intros Hn Hi Hrow. unfold read_data_row. rewrite Hn. simpl.
  destruct (Z.leb_spec n i) as [?|_]; [lia|].
  rewrite (py_getitem_nonneg _ _ _ row) by (assumption || lia).
  reflexivity.
Qed.

(** Reading at the row count fails with the end-of-stream error, whatever
    the table holds. *)
Lemma read_data_row_at_row_count (self : SubintHDU) (n : Z) (weighted : bool) :
  nrow self = ok (HInt n) ->
  read_data_row self n weighted
    = raise EOFError "cannot read from beyond end of input SUBINT HDU.".
Proof.
  intros Hn. unfold read_data_row. rewrite Hn. simpl.
  destruct (Z.leb_spec n n) as [_|?]; [reflexivity | lia].
Qed.

(** Reading the last row passes the bound check: it is the decoding of
    that row, and never the end-of-stream error. *)
Lemma read_data_row_last_row (self : SubintHDU) (n : Z) (weighted : bool)
  (row : gmap string (ndarray Q)) :
  nrow self = ok (HInt n) ->
  Z.of_nat (length (rows (data (wrapped self)))) = n ->
  last (rows (data (wrapped self))) = Some row ->
  read_data_row self (n - 1) weighted = decode_row self row weighted
  /\ never_eof (read_data_row self (n - 1) weighted).
Proof.
  intros Hn Hlen Hlast.
  assert (Hrow : rows (data (wrapped self)) !! Z.to_nat (n - 1) = Some row).
  { rewrite last_lookup in Hlast. rewrite <- Hlast. f_equal. lia. }
  apply lookup_lt_Some in Hrow as Hlt.
  assert (Heq : read_data_row self (n - 1) weighted
                = decode_row self row weighted).
  { apply (read_data_row_in_range self n); [assumption | lia | assumption]. }
  split; [exact Heq|]. rewrite Heq. apply decode_row_never_eof.
Qed.



End ReadDataRow.

(** * io/psrfits/hdu.py: calibration of a row *)

Section OnePolarization.

Import hdu.













Lemma shifted_float (self : SubintHDU) (z x : Q) :
  data_dtype (data (wrapped self)) = np_float \/
  (exists q, zero_off self = HFloat q) ->
  shifted self z x = (x - z)%Q.
Proof.
  unfold shifted, sub_scalar. intros [->|[q ->]].
  - destruct (zero_off self); reflexivity.
  - reflexivity.
Qed.

(** The zero offset in the three cases of the specification. *)
Lemma zero_offset_cases (h : gmap string hval) :
  (h !! "ZERO_OFF" = None -> zero_offset h = Some (inject_Z 0))
  /\ (forall v, h !! "ZERO_OFF" = Some v -> py_float_ok v = false ->
                zero_offset h = Some (inject_Z 0))
  /\ (forall v z, h !! "ZERO_OFF" = Some v -> as_number v = Some z ->
                  zero_offset h = Some z).
Proof.
  unfold zero_offset. split; [|split].
  - intros ->. reflexivity.
  - intros v -> ->. reflexivity.
  - intros v z -> Hz. destruct v; simpl in *; try discriminate; exact Hz.
Qed.

End OnePolarization.

Section ManyPolarizations.

Import hdu.


End ManyPolarizations.

(** * io/psrfits/hdu.py: calibration at the example tables *)

Section Calibration.

Import hdu.

(** C1 at a table of two polarizations, two channels and two bins that
    passes the checks of [PSRSubintHDU.verify]: the scales of a row hold
    one entry per polarization and channel, [reshape(-1, 1)] turns them into
    a column of four, and the product with the (2, 2, 2) samples raises
    instead of returning [(r - z) * s + o]. *)
Theorem read_data_row_two_polarizations :
  SubintHDU_new (subint_hdu 2 None) psr_primary true = ok (subint 2 None)
  /\ read_data_row (subint 2 None) 0 false
     = raise ValueError
         "operands could not be broadcast together with shapes (2,2,2) (4,1) ".
Proof. split; vm_compute; reflexivity. Qed.

(** C9 at that table, which has two rows: reading at the row count, 2,
    fails with the end-of-stream error, but reading the last row, at index
    2 - 1, fails too, with the broadcasting error of its decoding, where
    the claim has it succeed. *)
Theorem read_data_row_last_row_fails :
  SubintHDU_new (subint_hdu 2 None) psr_primary true = ok (subint 2 None)
  /\ nrow (subint 2 None) = ok (HInt 2)
  /\ length (rows (data (wrapped (subint 2 None)))) = 2%nat
  /\ read_data_row (subint 2 None) 2 false
     = raise EOFError "cannot read from beyond end of input SUBINT HDU."
  /\ read_data_row (subint 2 None) (2 - 1) false
     = raise ValueError
         "operands could not be broadcast together with shapes (2,2,2) (4,1) ".
Proof. repeat split; vm_compute; reflexivity. Qed.

(** With one polarization the last row is read. *)
Example read_data_row_last_row_example :
  read_data_row (subint 1 None) 2 true
    = raise EOFError "cannot read from beyond end of input SUBINT HDU."
  /\ read_data_row (subint 1 None) (2 - 1) true
     = ok (NdArray [1; 2; 2]%nat (Qs [212; 214; 0; 0])).
Proof. split; vm_compute; reflexivity. Qed.

(** A ZERO_OFF keyword whose value is a string that [float()] accepts is
    kept as a string, and the subtraction raises. *)
Lemma read_data_row_numeric_string :
  float_accepts "1.5" = true
  /\ read_data_row (subint 1 (Some (HStr "1.5"))) 0 false
     = raise TypeError
         "ufunc 'subtract' did not contain a loop with signature matching types".
Proof. split; vm_compute; reflexivity. Qed.

(** With one polarization the row decodes; ZERO_OFF absent, or a string
    that is no number, counts as 0, and the weights scale each channel. *)
Example read_data_row_single_polarization :
  read_data_row (subint 1 None) 0 false
    = ok (NdArray [1; 2; 2]%nat (Qs [(1 - 0) * 2 + 10; (2 - 0) * 2 + 10;
                                     (3 - 0) * 3 + 20; (4 - 0) * 3 + 20]))
  /\ read_data_row (subint 1 (Some (HStr "*"))) 0 false
     = read_data_row (subint 1 None) 0 false
  /\ read_data_row (subint 1 (Some (HInt 1))) 0 false
     = ok (NdArray [1; 2; 2]%nat (Qs [(1 - 1) * 2 + 10; (2 - 1) * 2 + 10;
                                      (3 - 1) * 3 + 20; (4 - 1) * 3 + 20]))
  /\ read_data_row (subint 1 None) 0 true
     = ok (NdArray [1; 2; 2]%nat (Qs [12 * 1; 14 * 1; 29 * 0; 32 * 0])).
Proof. repeat split; vm_compute; reflexivity. Qed.

End Calibration.

(** * io/psrfits/hdu.py: start time *)

Section StartTime.

Import hdu.

Lemma primary_start_time_value (p : PSRFITSPrimaryHDU) (mv sv ov : hval)
  (m s o : Q) (location : option EarthLocation) :
  header (primary_wrapped p) !! "STT_IMJD" = Some mv ->
  header (primary_wrapped p) !! "STT_SMJD" = Some sv ->
  header (primary_wrapped p) !! "STT_OFFS" = Some ov ->
  as_number mv = Some m -> as_number sv = Some s -> as_number ov = Some o ->
  PSRFITSPrimaryHDU_location p = ok location ->
  PSRFITSPrimaryHDU_start_time p
    = ok (Time_add (MkTime m (inject_Z 0) location) (s + o)%Q).
Proof.
  intros Hm Hs Ho Hmv Hsv Hov Hloc.
  unfold PSRFITSPrimaryHDU_start_time, header_get, Time_mjd, TimeDelta_sec.
  rewrite Hm. simpl. rewrite Hloc. simpl. rewrite Hmv. simpl.
  rewrite Hs. simpl. rewrite Ho. simpl.
  rewrite Hsv, Hov. reflexivity.
Qed.

(** The antenna position is [None] when one of the three keywords is
    missing, and a position when the three hold numbers. *)
Lemma location_cases (p : PSRFITSPrimaryHDU) :
  let h := header (primary_wrapped p) in
  ((h !! "ANT_X" = None \/ h !! "ANT_Y" = None \/ h !! "ANT_Z" = None) ->
   PSRFITSPrimaryHDU_location p = ok None)
  /\ (forall xv yv zv x y z,
        h !! "ANT_X" = Some xv -> h !! "ANT_Y" = Some yv ->
        h !! "ANT_Z" = Some zv ->
        as_number xv = Some x -> as_number yv = Some y ->
        as_number zv = Some z ->
        PSRFITSPrimaryHDU_location p = ok (Some (MkLocation x y z))).
Proof.
  unfold PSRFITSPrimaryHDU_location. simpl. split.
  - intros [H|[H|H]]; rewrite H;
      repeat match goal with
             | |- context [match ?m !! ?k with _ => _ end] =>
                 destruct (m !! k)
             end; reflexivity.
  - intros xv yv zv x y z -> -> -> Hx Hy Hz.
    unfold EarthLocation_new. rewrite Hx, Hy, Hz. reflexivity.
Qed.

(** C7, amended: for a primary header whose antenna position is absent or
    numeric ([location] returns), with an OFFS_SUB column whose first row
    holds [T0], the start time is the epoch of the primary header, day [M]
    and second [F], plus [T0] minus half of [samples_per_frame] over the
    sample rate; without the column it is the primary epoch unchanged. *)
Theorem start_time_half_sample (self : SubintHDU) (mv sv ov : hval)
  (M S O : Q) (location : option EarthLocation)
  (cells : list (ndarray Q)) (first : ndarray Q) (T0 rate : Q) :
  header (primary_wrapped (primary_hdu self)) !! "STT_IMJD" = Some mv ->
  header (primary_wrapped (primary_hdu self)) !! "STT_SMJD" = Some sv ->
  header (primary_wrapped (primary_hdu self)) !! "STT_OFFS" = Some ov ->
  as_number mv = Some M -> as_number sv = Some S -> as_number ov = Some O ->
  PSRFITSPrimaryHDU_location (primary_hdu self) = ok location ->
  (has_column (data (wrapped self)) "OFFS_SUB" = true ->
   column (data (wrapped self)) "OFFS_SUB" = ok (first :: cells)
   /\ as_scalar first = ok T0
   /\ sample_rate self = ok rate) ->
  let F := (S + O)%Q in
  let epoch := Time_add (MkTime M (inject_Z 0) location) F in
  let half_period := (inject_Z (samples_per_frame self) / 2 / rate)%Q in
  let t := if has_column (data (wrapped self)) "OFFS_SUB"
           then Time_add epoch (T0 - half_period)%Q
           else epoch in
  PSRFITSPrimaryHDU_start_time (primary_hdu self) = ok epoch
  /\ PSRSubintHDU_start_time self = ok t
  /\ (time_day t == M)%Q
  /\ (time_sec t ==
        if has_column (data (wrapped self)) "OFFS_SUB"
        then F + T0 - half_period else F)%Q.
Proof.
  intros Hm Hs Ho Hmv Hsv Hov Hloc Hcolumn F epoch half_period t.
  assert (Hp : PSRFITSPrimaryHDU_start_time (primary_hdu self) = ok epoch).
  { apply (primary_start_time_value _ mv sv ov); assumption. }
  split; [exact Hp|].
  unfold PSRSubintHDU_start_time, SubintHDU_start_time. rewrite Hp. simpl.
  subst t. destruct (has_column (data (wrapped self)) "OFFS_SUB").
  - destruct (Hcolumn eq_refl) as (Hcells & Hfirst & Hrate).
    rewrite Hcells. simpl. rewrite Hfirst. simpl. rewrite Hrate. simpl.
    split; [reflexivity|]. split; [reflexivity|]. unfold F. ring.
  - split; [reflexivity|]. split; [reflexivity|]. simpl. unfold F. ring.
Qed.

Lemma start_time_half_sample_witness :
  let self := subint_at parkes_primary in
  let F := (inject_Z 3600 + (1 # 4))%Q in
  let epoch :=
    Time_add (MkTime (inject_Z 58000) (inject_Z 0) (Some parkes)) F in
  let half_period :=
    (inject_Z (samples_per_frame self) / 2 / (1 / (inject_Z 20 / inject_Z 2)))%Q in
  let t := if has_column (data (wrapped self)) "OFFS_SUB"
           then Time_add epoch (inject_Z 5 - half_period)%Q
           else epoch in
  PSRFITSPrimaryHDU_start_time (primary_hdu self) = ok epoch
  /\ PSRSubintHDU_start_time self = ok t
  /\ (time_day t == inject_Z 58000)%Q
  /\ (time_sec t ==
        if has_column (data (wrapped self)) "OFFS_SUB"
        then F + inject_Z 5 - half_period else F)%Q.
Proof.
  apply (start_time_half_sample (subint_at parkes_primary)
           (HInt 58000) (HInt 3600) (HFloat (1 # 4))
           (inject_Z 58000) (inject_Z 3600) (1 # 4) (Some parkes)
           [NdArray [] (Qs [1005])] (NdArray [] (Qs [5]))
           (inject_Z 5) (1 / (inject_Z 20 / inject_Z 2))%Q);
    try reflexivity.
  intros _. repeat split; vm_compute; reflexivity.
Defined.

(** C7 as stated fails: the primary header below records the day and the
    seconds and the table has the offset column, but the values of ANT_X,
    ANT_Y and ANT_Z are the placeholder [*]; [location] catches only the
    [KeyError] of a missing keyword, so the start time is an error, not a
    time. *)
Lemma start_time_antenna_counterexample :
  let self :=
    subint_at (antenna_primary (HStr "*") (HStr "*") (HStr "*")) in
  let h := header (primary_wrapped (primary_hdu self)) in
  h !! "STT_IMJD" = Some (HInt 58000)
  /\ h !! "STT_SMJD" = Some (HInt 3600)
  /\ h !! "STT_OFFS" = Some (HFloat (1 # 4))
  /\ column (data (wrapped self)) "OFFS_SUB"
     = ok [NdArray [] (Qs [5]); NdArray [] (Qs [1005])]
  /\ sample_rate self = ok (1 / (inject_Z 20 / inject_Z 2))%Q
  /\ PSRSubintHDU_start_time self
     = raise TypeError
         "Coordinates could not be parsed as either geocentric or geodetic"
  /\ ~ (exists t, PSRSubintHDU_start_time self = ok t).
Proof.
  repeat split; try (vm_compute; reflexivity).
  intros (t & H). vm_compute in H. discriminate.
Qed.

(** The start time of the example table, whose header has no antenna
    position: the offset of the first row, 5 s, less half of the 10 s
    sub-integration, leaves the primary epoch. *)
Example start_time_example :
  sample_rate (subint 1 None) = ok (1 / (inject_Z 20 / inject_Z 2))%Q
  /\ PSRFITSPrimaryHDU_location psr_primary = ok None
  /\ PSRSubintHDU_start_time (subint 1 None)
     = ok (Time_add (Time_add (MkTime (inject_Z 58000) (inject_Z 0) None)
                              (inject_Z 3600 + (1 # 4))%Q)
                    (inject_Z 5 - inject_Z 1 / 2 / (1 / (inject_Z 20 / inject_Z 2)))%Q).
Proof. repeat split; vm_compute; reflexivity. Qed.

End StartTime.

(** * io/psrfits/core.py: opening a file *)

Section Open.

Import hdu core.

Ltac invert_binds :=
  repeat match goal with
         | H : bind _ _ = inr _ |- _ =>
             let x := fresh "x" in
             let Hx := fresh "Hx" in
             apply bind_ok_inv in H as (x & Hx & H)
         | H : bind _ _ = ok _ |- _ =>
             let x := fresh "x" in
             let Hx := fresh "Hx" in
             apply bind_ok_inv in H as (x & Hx & H)
         end.

Lemma py_assert_msg_ok cond msg : py_assert_msg cond msg = inr tt -> cond = true.
Proof. destruct cond; [reflexivity | discriminate]. Qed.

Lemma buffer_fold_other (l : list HDU) (b : gmap string (list HDU)) (k : string) :
  existsb (String.eqb k) HDU_map_keys = false ->
  fold_left
    (fun buffers hdu =>
       if existsb (String.eqb (name hdu)) HDU_map_keys
       then <[name hdu := default [] (buffers !! name hdu) ++ [hdu]]> buffers
       else buffers) l b !! k = b !! k.
Proof.
  intros Hk. revert b.
  induction l as [|h l IH]; intros b; cbn [fold_left]; [reflexivity|].
  rewrite IH. destruct (existsb (String.eqb (name h)) HDU_map_keys) eqn:Hh;
    [|reflexivity].
  apply lookup_insert_ne. intros Heq. rewrite Heq in Hh. congruence.
Qed.

Lemma buffer_fold_key (l : list HDU) (b : gmap string (list HDU)) (k : string) :
  existsb (String.eqb k) HDU_map_keys = true ->
  fold_left
    (fun buffers hdu =>
       if existsb (String.eqb (name hdu)) HDU_map_keys
       then <[name hdu := default [] (buffers !! name hdu) ++ [hdu]]> buffers
       else buffers) l b !! k
  = match hdus_named k l with
    | [] => b !! k
    | f => Some (default [] (b !! k) ++ f)
    end.
Proof.
  intros Hk. revert b.
  induction l as [|h l IH]; intros b; cbn [fold_left]; [reflexivity|].
  rewrite IH. unfold hdus_named at 2. cbn [List.filter]. fold (hdus_named k l).
  destruct (String.eqb_spec (name h) k) as [->|Hne].
  - rewrite Hk. rewrite lookup_insert_eq. simpl.
    destruct (hdus_named k l) as [|h' f]; [reflexivity|].
    rewrite <- app_assoc. reflexivity.
  - destruct (existsb (String.eqb (name h)) HDU_map_keys).
    + rewrite lookup_insert_ne by assumption. reflexivity.
    + reflexivity.
Qed.

Lemma buffers_primary (l : list HDU) :
  default [] (buffer_hdus l !! "PRIMARY") = hdus_named "PRIMARY" l.
Proof.
  unfold buffer_hdus. rewrite buffer_fold_key by reflexivity.
  rewrite lookup_empty. destruct (hdus_named "PRIMARY" l); reflexivity.
Qed.

Lemma buffers_rest (l : list HDU) :
  map_to_list (delete "PRIMARY" (buffer_hdus l))
  = match hdus_named "SUBINT" l with
    | [] => []
    | f => [("SUBINT", f)]
    end.
Proof.
  assert (H : delete "PRIMARY" (buffer_hdus l)
              = match hdus_named "SUBINT" l with
                | [] => ∅
                | f => {["SUBINT" := f]}
                end).
  { apply map_eq. intros k.
    destruct (String.eqb_spec k "PRIMARY") as [->|Hp].
    - rewrite lookup_delete_eq.
      destruct (hdus_named "SUBINT" l); [rewrite lookup_empty; reflexivity|].
      rewrite lookup_singleton_ne by discriminate. reflexivity.
    - rewrite lookup_delete_ne by congruence. unfold buffer_hdus.
      destruct (String.eqb_spec k "SUBINT") as [->|Hs].
      + rewrite buffer_fold_key by reflexivity. rewrite lookup_empty.
        destruct (hdus_named "SUBINT" l); [rewrite lookup_empty; reflexivity|].
        rewrite lookup_singleton_eq. reflexivity.
      + rewrite buffer_fold_other.
        * rewrite lookup_empty.
          destruct (hdus_named "SUBINT" l); [rewrite lookup_empty; reflexivity|].
          rewrite lookup_singleton_ne by congruence. reflexivity.
        * simpl. destruct (String.eqb_spec k "PRIMARY"); [congruence|].
          destruct (String.eqb_spec k "SUBINT"); [congruence|]. reflexivity. }
  rewrite H. destruct (hdus_named "SUBINT" l).
  - apply map_to_list_empty.
  - apply map_to_list_singleton.
Qed.

Lemma mapM_map {A B C} (g : A -> B) (f : B -> result C) (xs : list A) :
  mapM f (map g xs) = mapM (fun x => f (g x)) xs.
Proof.
  induction xs as [|x xs IH]; simpl; [reflexivity|]. rewrite IH. reflexivity.
Qed.

(** [get_readers] on a file with one primary HDU that verifies: one
    reader per SUBINT HDU, in file order. *)
Lemma get_readers_wrappers (l : list HDU) (weighted : bool) (p : HDU)
  (primary : PSRFITSPrimaryHDU) :
  hdus_named "PRIMARY" l = [p] ->
  PSRFITSPrimaryHDU_init p true = ok primary ->
  get_readers l weighted
  = (let* wrappers := mapM (fun h => SubintHDU_new h primary true)
                           (hdus_named "SUBINT" l) in
     mapM (fun w => PSRFITSReader_init w None None None None weighted)
          wrappers).
Proof.
  intros Hp Hinit. unfold get_readers.
  rewrite buffers_primary, Hp, Hinit. simpl.
  rewrite buffers_rest.
  assert (Hflat :
    flat_map (fun '(k, v) => map (fun hdu : HDU => (k, hdu)) v)
      match hdus_named "SUBINT" l with
      | [] => []
      | f => [("SUBINT", f)]
      end
    = map (fun hdu => ("SUBINT", hdu)) (hdus_named "SUBINT" l)).
  { destruct (hdus_named "SUBINT" l); simpl; [reflexivity|].
    rewrite app_nil_r. reflexivity. }
  rewrite Hflat, mapM_map. reflexivity.
Qed.

(** A reader that [PSRFITSReader.__init__] returns holds the HDU and the
    option it was given, and the attributes that the base class took. *)
Lemma PSRFITSReader_init_ok (s : SubintHDU) frequency sideband polarization
  dtype (w : bool) (r : PSRFITSReader) :
  PSRFITSReader_init s frequency sideband polarization dtype w = ok r ->
  ih r = s /\ weighted r = w
  /\ BaseTaskBase_init s frequency sideband polarization dtype
     = ok (attributes r).
Proof.
  unfold PSRFITSReader_init. intros H.
  apply bind_ok_inv in H as (a & Ha & H). injection H as <-. auto.
Qed.


Lemma SubintHDU_new_ok (h : HDU) (primary : PSRFITSPrimaryHDU) (s : SubintHDU) :
  SubintHDU_new h primary true = ok s ->
  wrapped s = h /\ primary_hdu s = primary /\ PSRSubintHDU_verify s = ok tt.
Proof.
  unfold SubintHDU_new. intros H.
  apply bind_ok_inv in H as (m & _ & H).
  destruct (subint_map m) as [c|]; [|discriminate].
  apply bind_ok_inv in H as ([] & Hv & H).
  injection H as <-. auto.
Qed.




End Open.



(** Files without a SUBINT table and with two of them, and the reader on a
    file with one. *)
Example open_examples :
  core.open (fun _ => ok [psr_primary_hdu]) "observation.fits" "r" true
    = raise RuntimeError "Current reader can only read one SUBINT HDU."
  /\ core.open
       (fun _ => ok [psr_primary_hdu; labelled_subint_hdu; labelled_subint_hdu])
       "observation.fits" "r" true
     = raise RuntimeError "Current reader can only read one SUBINT HDU."
  /\ core.open (fun _ => ok [psr_primary_hdu; labelled_subint_hdu])
       "observation.fits" "r" true
     = ok (labelled_reader true)
  /\ core.reader_shape (labelled_reader true)
     = ok (HInt 2, HInt 2, HInt 2, HInt 1).
Proof. repeat split; vm_compute; reflexivity. Qed.

(** The caller's arguments bypass the inference from the HDU: with the
    polarization labels given, a reader is built on the table whose header
    has none. *)
Example reader_with_given_labels :
  core.PSRFITSReader_init (subint 1 None) None None
    (Some (NdArray [1%nat] [["AA+BB"]])) None false
  = ok (example_reader false).
Proof. vm_compute. reflexivity. Qed.

(** * combining.py: construction *)

Section Construction.

Import combining.

Variable uninitialised : list nat -> string -> nat -> pyobj.

Lemma check_stream_cases (ih0 ih : stream) :
  (check_stream ih0 ih = ok tt /\ ~ differs ih ih0)
  \/ (check_stream ih0 ih = inl (Exc AssertionError []) /\ differs ih ih0).
Proof.
  unfold check_stream, differs, py_assert.
  destruct (Qeq_bool (sample_rate ih) (sample_rate ih0)) eqn:Hr; simpl.
  2:{ right. split; [reflexivity|]. left. intros H.
      apply Qeq_bool_iff in H. congruence. }
  apply Qeq_bool_iff in Hr.
  destruct (String.eqb_spec (dtype ih) (dtype ih0)) as [Hd|Hd]; simpl.
  2:{ right. split; [reflexivity|]. right. left. exact Hd. }
  destruct (Qeq_bool (start_time ih) (start_time ih0)) eqn:Ht; simpl.
  2:{ right. split; [reflexivity|]. right. right. left. intros H.
      apply Qeq_bool_iff in H. congruence. }
  apply Qeq_bool_iff in Ht.
  destruct (Nat.eqb_spec (nsample ih) (nsample ih0)) as [Hn|Hn].
  - left. split; [reflexivity|]. intros [H|[H|[H|H]]]; contradiction.
  - right. split; [reflexivity|]. right. right. right. exact Hn.
Qed.

Lemma checks_fail (ih0 : stream) (rest : list stream) :
  Exists (fun ih => differs ih ih0) rest ->
  mapM (check_stream ih0) rest = inl (Exc AssertionError []).
Proof.
  induction rest as [|ih rest IH]; intros H; [inversion H|].
  simpl. destruct (check_stream_cases ih0 ih) as [[Hok Hsame]|[Herr _]].
  - rewrite Hok. simpl. rewrite IH; [reflexivity|].
    inversion H; subst; [contradiction | assumption].
  - rewrite Herr. reflexivity.
Qed.

Lemma checks_pass (ih0 : stream) (rest : list stream) (us : list unit) :
  mapM (check_stream ih0) rest = ok us ->
  Forall (fun ih => ~ differs ih ih0) rest.
Proof.
  revert us. induction rest as [|ih rest IH]; intros us H; [constructor|].
  simpl in H. apply bind_ok_inv in H as (u & Hu & H).
  apply bind_ok_inv in H as (us' & Hus & _).
  constructor; [|eapply IH; exact Hus].
  destruct (check_stream_cases ih0 ih) as [[_ Hsame]|[Herr _]];
    [exact Hsame | congruence].
Qed.

(** C4, as the code has it: a group in which some stream differs from
    the first in sample rate, dtype, start time or length fails to
    construct, with a bare assertion error that carries no argument. *)
Theorem init_rejects_mismatch (c : combiner) (ih0 : stream)
  (rest : list stream) :
  Exists (fun ih => differs ih ih0) rest ->
  CombineStreamsBase_init uninitialised c (ih0 :: rest)
    = inl (Exc AssertionError []).
Proof.
  intros H. unfold CombineStreamsBase_init.
  rewrite (checks_fail ih0 rest H). reflexivity.
Qed.

End Construction.

Lemma init_rejects_mismatch_witness :
  combining.CombineStreamsBase_init zero_memory (combining.Concatenate 1)
    [example_stream (inject_Z 1) "float32" [2%nat] 0 combining.AttrNone;
     example_stream (inject_Z 2) "float32" [2%nat] 0 combining.AttrNone]
  = inl (Exc AssertionError []).
Proof.
  apply (init_rejects_mismatch zero_memory (combining.Concatenate 1)).
  apply Exists_cons_hd. left. vm_compute. discriminate.
Defined.

(** C4 as stated fails: the error raised for a mismatch of sample rates
    names none of the compared attributes, and it is the very error that a
    mismatch of dtypes raises. *)
Lemma init_mismatch_counterexample :
  let ih0 := example_stream (inject_Z 1) "float32" [2%nat] 0 combining.AttrNone in
  let other_rate :=
    example_stream (inject_Z 2) "float32" [2%nat] 0 combining.AttrNone in
  let other_dtype :=
    example_stream (inject_Z 1) "int8" [2%nat] 0 combining.AttrNone in
  ~ (combining.sample_rate other_rate == combining.sample_rate ih0)%Q
  /\ ~ (exists e,
         combining.CombineStreamsBase_init zero_memory (combining.Concatenate 1)
           [ih0; other_rate] = inl e
         /\ existsb (mentions e) compared_attributes = true)
  /\ combining.CombineStreamsBase_init zero_memory (combining.Concatenate 1)
       [ih0; other_rate]
     = combining.CombineStreamsBase_init zero_memory (combining.Concatenate 1)
         [ih0; other_dtype].
Proof.
  split; [vm_compute; discriminate|]. split.
  - intros (e & He & Hm). vm_compute in He. injection He as <-.
    vm_compute in Hm. discriminate.
  - vm_compute. reflexivity.
Qed.

Section CombinedShape.

Import combining.

Variable uninitialised : list nat -> string -> nat -> pyobj.

Lemma add_note_ok_inv {A} (m : result A) (msg : string) (x : A) :
  add_note m msg = inr x -> m = inr x.
Proof. destruct m; simpl; [discriminate | auto]. Qed.

Lemma shape0_head (s : list nat) (n : nat) :
  shape0 s = inr n <-> head s = Some n.
Proof.
  destruct s as [|m s]; simpl; split; intros H; try discriminate;
    injection H as <-; reflexivity.
Qed.

(** What an accepted construction went through. *)
Lemma init_ok_inv (c : combiner) (group : list stream)
  (self : CombineStreamsBase) :
  CombineStreamsBase_init uninitialised c group = ok self ->
  exists ih0 rest a,
    group = ih0 :: rest
    /\ Forall (fun ih => ~ differs ih ih0) rest
    /\ task c None (probe_blocks uninitialised group) = ok a
    /\ head (shape a) = Some 7%nat
    /\ ihs self = group
    /\ combined_shape self = nsample ih0 :: tail (shape a)
    /\ _samples_per_frame self = samples_per_frame ih0
    /\ _frame self = None.
Proof.
  unfold CombineStreamsBase_init. destruct group as [|ih0 rest]; [discriminate|].
  intros H.
  apply bind_ok_inv in H as (us & Hchecks & H).
  apply bind_ok_inv in H as (a & Ha & H).
  apply bind_ok_inv in H as (lead & Hlead & H).
  destruct (Nat.eqb_spec lead 7) as [->|Hne]; [|discriminate].
  simpl in H.
  apply bind_ok_inv in H as (f & _ & H).
  apply bind_ok_inv in H as (sb & _ & H).
  apply bind_ok_inv in H as (pol & _ & H).
  unfold TaskBase_init in H. injection H as <-.
  exists ih0, rest, a. simpl.
  split; [reflexivity|].
  split; [eapply checks_pass; exact Hchecks|].
  split; [eapply add_note_ok_inv; exact Ha|].
  split; [apply shape0_head; exact Hlead|].
  repeat split.
Qed.

(** C2: when the task turns the synthetic blocks into [a], a construction
    that is accepted had [a] of axis-0 length 7, every stream of the group
    has the axis-0 length of the combined stream, and the combined sample
    shape is the shape of [a] without its axis 0; when the axis-0 length of
    [a] is not 7 the construction fails, for a consistent group with the
    error that names the sample axis. *)
Theorem combined_shape_from_probe (c : combiner) (group : list stream)
  (a : ndarray pyobj) :
  task c None (probe_blocks uninitialised group) = ok a ->
  (forall self,
     CombineStreamsBase_init uninitialised c group = ok self ->
     head (shape a) = Some 7%nat
     /\ (exists n, Forall (fun ih => head (stream_shape ih) = Some n) group
                   /\ head (combined_shape self) = Some n)
     /\ tail (combined_shape self) = tail (shape a))
  /\ (head (shape a) <> Some 7%nat ->
      is_ok (CombineStreamsBase_init uninitialised c group) = false
      /\ forall ih0 rest n,
           group = ih0 :: rest ->
           Forall (fun ih => ~ differs ih ih0) rest ->
           head (shape a) = Some n ->
           CombineStreamsBase_init uninitialised c group
             = raise ValueError
                 "stream combination affected the sample axis (0).").
Proof.
  intros Ha. split.
  - intros self Hself.
    apply init_ok_inv in Hself
      as (ih0 & rest & a' & -> & Hsame & Ha' & Hhead & _ & Hshape & _).
    rewrite Ha in Ha'. injection Ha' as <-.
    split; [exact Hhead|]. rewrite Hshape. simpl. split; [|reflexivity].
    exists (nsample ih0). split; [|reflexivity].
    constructor; [reflexivity|].
    eapply Forall_impl; [exact Hsame|]. intros ih Hih. simpl.
    f_equal. destruct (Nat.eq_dec (nsample ih) (nsample ih0)) as [E|E];
      [exact E|]. exfalso. apply Hih. right. right. right. exact E.
  - intros Hhead. split.
    + destruct (CombineStreamsBase_init uninitialised c group) as [e|self] eqn:E;
        [reflexivity|].
      apply init_ok_inv in E
        as (ih0 & rest & a' & _ & _ & Ha' & Hhead' & _).
      rewrite Ha in Ha'. injection Ha' as <-. contradiction.
    + intros ih0 rest n -> Hsame Hn. unfold CombineStreamsBase_init.
      assert (Hchecks : mapM (check_stream ih0) rest = ok (map (fun _ => tt) rest)).
      { apply mapM_all_ok. intros ih Hin.
        rewrite List.Forall_forall in Hsame. specialize (Hsame ih Hin).
        destruct (check_stream_cases ih0 ih) as [[Hok _]|[_ Hd]];
          [exact Hok | contradiction]. }
      rewrite Hchecks. cbn [bind ok]. rewrite Ha. cbn [bind ok add_note].
      apply shape0_head in Hn. rewrite Hn. cbn [bind ok].
      destruct (Nat.eqb_spec n 7) as [->|_]; [|reflexivity].
      exfalso. apply Hhead. apply shape0_head. exact Hn.
Qed.

End CombinedShape.

Lemma combined_shape_from_probe_witness :
  let group := [narrow_stream; wide_stream] in
  let c := combining.Concatenate 1 in
  let a := NdArray [7; 4; 2]%nat (repeat (combining.PNum (inject_Z 0)) 56) in
  (forall self,
     combining.CombineStreamsBase_init zero_memory c group = ok self ->
     head (shape a) = Some 7%nat
     /\ (exists n,
           Forall (fun ih => head (combining.stream_shape ih) = Some n) group
           /\ head (combining.combined_shape self) = Some n)
     /\ tail (combining.combined_shape self) = tail (shape a))
  /\ (head (shape a) <> Some 7%nat ->
      is_ok (combining.CombineStreamsBase_init zero_memory c group) = false
      /\ forall ih0 rest n,
           group = ih0 :: rest ->
           Forall (fun ih => ~ differs ih ih0) rest ->
           head (shape a) = Some n ->
           combining.CombineStreamsBase_init zero_memory c group
             = raise ValueError
                 "stream combination affected the sample axis (0).").
Proof.
  apply (combined_shape_from_probe zero_memory (combining.Concatenate 1)
           [narrow_stream; wide_stream]).
  vm_compute. reflexivity.
Defined.

(** An accepted group, and a task that changes the time axis. *)
Example construction_examples :
  combining.CombineStreamsBase_init zero_memory (combining.Concatenate 1)
    [narrow_stream; wide_stream] = ok narrow_and_wide
  /\ combining.CombineStreamsBase_init zero_memory
       (combining.CombineStreams drop_last_sample)
       [narrow_stream; wide_stream]
     = raise ValueError "stream combination affected the sample axis (0)."
  /\ combining.CombineStreamsBase_init zero_memory (combining.Concatenate 0)
       [narrow_stream; wide_stream]
     = inl (Exc ValueError
              ["all the input array dimensions except for the concatenation axis must match exactly";
               "streams with sample shapes [(1, 2), (3, 2)] cannot be combined as required"])
  /\ combining.CombineStreamsBase_init zero_memory (combining.Concatenate 0)
       [narrow_stream; narrow_stream]
     = raise ValueError "stream combination affected the sample axis (0).".
Proof. repeat split; vm_compute; reflexivity. Qed.

(** * combining.py: metadata attributes *)

Section CombineAttr.

Import combining.

Lemma prefix_append (n q : string) : String.prefix n (n +:+ q) = true.
Proof.
  induction n as [|c n IH]; simpl; [destruct q; reflexivity|].
  destruct (ascii_dec c c); [exact IH | contradiction].
Qed.

Lemma contains_here (n hay : string) :
  String.prefix n hay = true -> contains n hay = true.
Proof. intros H. destruct hay; cbn [contains]; rewrite H; reflexivity. Qed.

Lemma contains_append (p n q : string) : contains n (p +:+ n +:+ q) = true.
Proof.
  induction p as [|c p IH].
  - change ("" +:+ n +:+ q) with (n +:+ q).
    apply contains_here, prefix_append.
  - change (String c p +:+ n +:+ q) with (String c (p +:+ n +:+ q)).
    cbn [contains]. rewrite IH. apply orb_true_r.
Qed.

(** An attribute that is [None] on every stream combines to [None]. *)
Lemma combine_attr_all_None (c : combiner) (group : list stream)
  (attr : string) :
  Forall (fun ih => getattr_or_None ih attr = AttrNone) group ->
  _combine_attr c group attr = ok AttrNone.
Proof.
  intros H. unfold _combine_attr.
  assert (Hall : forallb is_None (map (fun ih => getattr_or_None ih attr) group)
                 = true).
  { induction H as [|ih l Hih _ IH]; simpl; [reflexivity|].
    rewrite Hih, IH. reflexivity. }
  rewrite Hall. reflexivity.
Qed.

(** A failure of the task itself is reported with the attribute named. *)
Lemma add_note_mentions {A} (m : result A) (p attr q : string) (e : exc) :
  add_note m (p +:+ attr +:+ q) = inl e -> mentions e attr = true.
Proof.
  destruct m as [e0|x]; simpl; [|discriminate].
  intros H. injection H as <-. unfold mentions. simpl.
  rewrite existsb_app. simpl. rewrite contains_append.
  rewrite orb_true_l. apply orb_true_r.
Qed.

(** C5 at a group whose first stream has frequencies with a unit and
    whose second stream has none: the unit is stripped from every value
    before the guarded call of the task, [None] has no [to_value], and the
    error that comes out does not name the attribute. *)
Theorem combine_attr_unit_and_None :
  getattr_or_None stream_with_unit "frequency"
    = AttrQuantity (NdArray [2]%nat (Qs [1400; 1500])) MHz
  /\ getattr_or_None stream_without "frequency" = AttrNone
  /\ _combine_attr (Concatenate 1) [stream_with_unit; stream_without]
       "frequency"
     = raise AttributeError "'NoneType' object has no attribute 'to_value'"
  /\ mentions
       (Exc AttributeError ["'NoneType' object has no attribute 'to_value'"])
       "frequency" = false.
Proof. repeat split; vm_compute; reflexivity. Qed.

(** The same group fails to construct with that error. *)
Example init_unit_and_None :
  CombineStreamsBase_init zero_memory (Concatenate 1)
    [stream_with_unit; stream_without]
  = raise AttributeError "'NoneType' object has no attribute 'to_value'".
Proof. vm_compute. reflexivity. Qed.

(** Attributes that combine: [None] everywhere; quantities of one
    dimension; a plain array next to [None], where the entries of the
    stream without the attribute stay [None]. *)
Example combine_attr_examples :
  _combine_attr (Concatenate 1) [stream_without; stream_without] "frequency"
    = ok AttrNone
  /\ _combine_attr (Concatenate 1) [stream_with_unit; stream_with_unit]
       "frequency"
     = ok (AttrQuantity
             (NdArray [4]%nat
                (map (fun x => (inject_Z x * (inject_Z 1000000 / inject_Z 1000000))%Q)
                     [1400; 1500; 1400; 1500]))
             MHz)
  /\ _combine_attr (Concatenate 1) [stream_with_array; stream_without]
       "frequency"
     = ok (AttrArray
             (NdArray [4]%nat [PNum (inject_Z 1400); PNum (inject_Z 1500);
                               PNone; PNone])).
Proof. repeat split; vm_compute; reflexivity. Qed.

End CombineAttr.

Section AttributeDefect.

Import combining.

Lemma to_value_cases (u : Unit) (v : attr_value) :
  match v with
  | AttrQuantity _ u' =>
      unit_dim u' = unit_dim u -> is_ok (to_value u v) = true
  | AttrNone =>
      to_value u v
      = raise AttributeError "'NoneType' object has no attribute 'to_value'"
  | AttrScalar _ => is_ok (to_value u v) = false
  | AttrArray _ =>
      to_value u v
      = raise AttributeError
          "'numpy.ndarray' object has no attribute 'to_value'"
  end.
Proof.
  destruct v as [|x|a|a u']; simpl; try reflexivity.
  intros ->. rewrite String.eqb_refl. reflexivity.
Qed.

Lemma to_value_failure (u : Unit) (values1 values2 : list attr_value)
  (v : attr_value) :
  Forall (fun w => match w with
                   | AttrQuantity _ u' => unit_dim u' = unit_dim u
                   | _ => False
                   end) values1 ->
  unit_or_None v = None ->
  exists e, mapM (to_value u) (values1 ++ v :: values2) = inl e /\ unnamed e.
Proof.
  intros H1 Hv.
  assert (Hfail : exists e, to_value u v = inl e /\ unnamed e).
  { destruct v as [|[|q|t]|a|a u']; simpl in Hv; try discriminate;
      eexists; (split; [reflexivity|]); split; try reflexivity;
      intros attr [<-|[<-|[<-|[]]]]; reflexivity. }
  destruct Hfail as (e & He & Hun). exists e. split; [|exact Hun].
  apply mapM_first_error; [|exact He].
  intros w Hw. rewrite List.Forall_forall in H1. specialize (H1 w Hw).
  pose proof (to_value_cases u w) as Hc.
  destruct w; try contradiction. apply Hc. exact H1.
Qed.

(** When the first stream of a group carries the attribute with a unit
    and a later stream carries it without one, or not at all, the streams
    before that one agreeing in dimension, [_combine_attr] fails with an
    [AttributeError] that does not name the attribute. *)
Lemma combine_attr_unit_then_missing (c : combiner) (ih0 : stream)
  (before after : list stream) (ih : stream) (attr : string)
  (a : ndarray Q) (u : Unit) :
  getattr_or_None ih0 attr = AttrQuantity a u ->
  Forall (fun w => match getattr_or_None w attr with
                   | AttrQuantity _ u' => unit_dim u' = unit_dim u
                   | _ => False
                   end) before ->
  unit_or_None (getattr_or_None ih attr) = None ->
  exists e,
    _combine_attr c (ih0 :: before ++ ih :: after) attr = inl e /\ unnamed e.
Proof.
  intros H0 Hbefore Hih. unfold _combine_attr.
  cbn [map forallb]. rewrite H0. cbn [is_None andb].
  rewrite (py_getitem_nonneg _ 0 _ (AttrQuantity a u)) by (reflexivity || lia).
  cbn [bind ok unit_or_None].
  rewrite map_app. cbn [map].
  destruct (to_value_failure u
              (AttrQuantity a u :: map (fun w => getattr_or_None w attr) before)
              (map (fun w => getattr_or_None w attr) after)
              (getattr_or_None ih attr)) as (e & He & Hun).
  - constructor; [reflexivity|].
    induction Hbefore as [|w l Hw _ IH]; constructor; assumption.
  - exact Hih.
  - exists e. split; [|exact Hun].
    cbn [app] in He. rewrite He. reflexivity.
Qed.

End AttributeDefect.

(** * combining.py: concatenation and its round trip *)

Section ConcatenateRoundTrip.

Import combining.

Variable uninitialised : list nat -> string -> nat -> pyobj.

Lemma normalize_axis_lt (ndim : nat) (axis : Z) (k : nat) :
  normalize_axis ndim axis = ok k -> (k < ndim)%nat.
Proof.
  unfold normalize_axis.
  destruct (Z.leb_spec 0 axis), (Z.ltb_spec axis (Z.of_nat ndim)); simpl;
    try (intros E; injection E as <-; lia);
    destruct (Z.leb_spec (- Z.of_nat ndim) axis), (Z.ltb_spec axis 0); simpl;
    try discriminate; intros E; injection E as <-; lia.
Qed.

Lemma np_concatenate_pair_inv {A} (x y res : ndarray A) (axis : Z) :
  np_concatenate [x; y] axis None = ok res ->
  exists k,
    normalize_axis (length (shape x)) axis = ok k
    /\ length (shape y) = length (shape x)
    /\ same_except k (shape x) (shape y) = true
    /\ res = join_axis k [x; y] (shape x).
Proof.
  unfold np_concatenate.
  destruct (Nat.eqb_spec (length (shape x)) 0) as [|_]; [discriminate|].
  intros H. apply bind_ok_inv in H as (k & Hk & H).
  apply bind_ok_inv in H as (us & Hus & H).
  exists k. split; [exact Hk|].
  cbn [mapM] in Hus.
  destruct (Nat.eqb_spec (length (shape y)) (length (shape x))) as [Hlen|];
    [|discriminate].
  simpl in Hus.
  destruct (same_except k (shape x) (shape y)); [|discriminate].
  injection H as <-. auto.
Qed.

Lemma np_concatenate_pair {A} (x y : ndarray A) (axis : Z) (k : nat)
  (out : option (ndarray A)) :
  normalize_axis (length (shape x)) axis = ok k ->
  length (shape y) = length (shape x) ->
  same_except k (shape x) (shape y) = true ->
  fits out (shape (join_axis k [x; y] (shape x))) ->
  np_concatenate [x; y] axis out = ok (join_axis k [x; y] (shape x)).
Proof.
  intros Hk Hlen Hsame Hout. unfold np_concatenate.
  apply normalize_axis_lt in Hk as Hlt.
  destruct (Nat.eqb_spec (length (shape x)) 0) as [|_]; [lia|].
  rewrite Hk. cbn [bind ok mapM].
  rewrite Hlen, Nat.eqb_refl, Hsame. cbn [negb bind ok].
  destruct out as [buffer|]; [|reflexivity].
  simpl in Hout. rewrite bool_decide_eq_true_2 by exact Hout. reflexivity.
Qed.

(** Reading rows [lo, hi) of a well-formed array. *)
Lemma slice_rows {A} (x : ndarray A) (n lo hi : nat) (s : list nat) :
  shape x = n :: s -> well_formed x -> (lo <= hi <= n)%nat ->
  shape (slice_axis 0 lo hi x) = (hi - lo)%nat :: s
  /\ well_formed (slice_axis 0 lo hi x).
Proof.
  intros Hs Hwf Hle. unfold well_formed, slice_axis in *.
  rewrite Hs in *. simpl in *. split; [reflexivity|].
  rewrite app_nil_r. unfold piece. simpl. rewrite !drop_0.
  rewrite length_take, length_drop, length_take, Hwf. nia.
Qed.

Lemma same_except_rows (k n m : nat) (s t : list nat) :
  k <> 0%nat ->
  same_except k (n :: s) (n :: t) = true ->
  same_except k (m :: s) (m :: t) = true.
Proof.
  unfold same_except. intros Hk H. apply bool_decide_eq_true in H.
  apply bool_decide_eq_true. destruct k as [|k]; [contradiction|].
  simpl in *. injection H as H. rewrite H. reflexivity.
Qed.

Lemma reuse_frame_fits (d : ndarray pyobj) (ds : list (ndarray pyobj))
  (n : nat) (s t : list nat) (buffer : option (ndarray pyobj)) :
  shape d = n :: s -> fits buffer (n :: t) ->
  exists out, reuse_frame buffer (d :: ds) = ok out /\ fits out (n :: t).
Proof.
  intros Hs Hfit. unfold reuse_frame. destruct buffer as [f|]; simpl in Hfit.
  - rewrite Hfit. cbn [shape0 bind ok]. rewrite Hs. cbn [shape0 bind ok].
    rewrite Z.eqb_refl.
    exists (Some f). split; [reflexivity | exact Hfit].
  - cbn [bind ok]. rewrite Hs. cbn [shape0 bind ok].
    exists None. split; [destruct (-1 =? Z.of_nat n)%Z; reflexivity | exact I].
Qed.

(** C8: for two streams that [Concatenate] accepts along a non-time
    axis, every frame of the combined stream, cut back along that axis
    into the extents of the two streams, gives the frames read from the
    two streams; this holds with no frame buffer and with a buffer that
    has the shape of a combined frame. *)
Theorem concatenate_round_trip (a b : stream) (axis : Z) (k : nat)
  (self : CombineStreamsBase) (i : nat) (buffer : option (ndarray pyobj)) :
  stream_ok a -> stream_ok b ->
  CombineStreamsBase_init uninitialised (Concatenate axis) [a; b] = ok self ->
  normalize_axis (length (stream_shape a)) axis = ok k ->
  k <> 0%nat ->
  (i * samples_per_frame a + samples_per_frame a <= nsample a)%nat ->
  fits buffer (samples_per_frame a :: tail (combined_shape self)) ->
  let lo := (i * samples_per_frame a)%nat in
  let hi := (lo + samples_per_frame a)%nat in
  let frame_a := slice_axis 0 lo hi (content a) in
  let frame_b := slice_axis 0 lo hi (content b) in
  let extent_a := nth k (stream_shape a) 0%nat in
  let extent_b := nth k (stream_shape b) 0%nat in
  exists frame self',
    _read_frame (Concatenate axis) (with_frame self buffer) i
      = ok (frame, self')
    /\ slice_axis k 0 extent_a frame = frame_a
    /\ slice_axis k extent_a (extent_a + extent_b) frame = frame_b.
Proof.
  intros [Hsa Hwa] [Hsb Hwb] Hinit Hk Hk0 Hrange Hbuffer lo hi frame_a frame_b
    extent_a extent_b.
  apply init_ok_inv in Hinit
    as (ih0 & rest & pr & Hgroup & Hsame & Hprobe & _ & Hihs & Hshape & Hspf & _).
  injection Hgroup as <- <-.
  apply Forall_inv in Hsame.
  assert (Hn : nsample b = nsample a).
  { destruct (Nat.eq_dec (nsample b) (nsample a)) as [E|E]; [exact E|].
    exfalso. apply Hsame. right. right. right. exact E. }
  (* the probe fixes the geometry *)
  cbn [task probe_blocks map] in Hprobe.
  destruct (reuse_frame_fits (np_empty uninitialised (7%nat :: sample_shape a) (dtype a))
              [np_empty uninitialised (7%nat :: sample_shape b) (dtype b)]
              7%nat (sample_shape a) [] None eq_refl I)
    as (out0 & Hout0 & _).
  assert (Hnone : out0 = None).
  { unfold reuse_frame in Hout0. cbn [bind ok np_empty shape shape0] in Hout0.
    destruct (-1 =? Z.of_nat 7)%Z; injection Hout0 as <-; reflexivity. }
  subst out0. rewrite Hout0 in Hprobe. cbn [bind ok] in Hprobe.
  apply np_concatenate_pair_inv in Hprobe as (k' & Hk' & Hlen & Hexc & Hpr).
  cbn [np_empty shape] in Hk', Hlen, Hexc.
  unfold stream_shape in Hk. cbn [length] in Hk, Hk'.
  rewrite Hk in Hk'. injection Hk' as <-.
  destruct k as [|k0]; [contradiction|].
  (* the frames of the two streams *)
  destruct (slice_rows (content a) (nsample a) lo hi (sample_shape a) Hsa Hwa)
    as [Hfa Hwfa]; [unfold hi, lo; lia|].
  destruct (slice_rows (content b) (nsample b) lo hi (sample_shape b) Hsb Hwb)
    as [Hfb Hwfb]; [unfold hi, lo; lia|].
  fold frame_a in Hfa, Hwfa. fold frame_b in Hfb, Hwfb.
  replace (hi - lo)%nat with (samples_per_frame a) in Hfa, Hfb
    by (unfold hi; lia).
  assert (Hexc' : same_except (S k0) (shape frame_a) (shape frame_b) = true).
  { rewrite Hfa, Hfb. eapply same_except_rows; [discriminate | exact Hexc]. }
  assert (Hklt : (S k0 < length (shape frame_a))%nat).
  { rewrite Hfa. apply normalize_axis_lt in Hk. exact Hk. }
  (* the combined frame has the shape the buffer was promised *)
  assert (Hres : shape (join_axis (S k0) [frame_a; frame_b] (shape frame_a))
                 = samples_per_frame a :: tail (combined_shape self)).
  { rewrite Hshape, Hpr. unfold join_axis. cbn [shape map np_empty].
    rewrite Hfa, Hfb. reflexivity. }
  destruct (reuse_frame_fits frame_a [frame_b] (samples_per_frame a)
              (sample_shape a) (tail (combined_shape self)) buffer Hfa Hbuffer)
    as (out & Hout & Hfit).
  assert (Hcat : np_concatenate [frame_a; frame_b] axis out
                 = ok (join_axis (S k0) [frame_a; frame_b] (shape frame_a))).
  { apply np_concatenate_pair.
    - rewrite Hfa. exact Hk.
    - rewrite Hfa, Hfb. cbn [length] in *. lia.
    - exact Hexc'.
    - rewrite Hres. exact Hfit. }
  assert (Hea : extent_a = nth (S k0) (shape frame_a) 0%nat).
  { unfold extent_a, stream_shape. rewrite Hfa. reflexivity. }
  assert (Heb : extent_b = nth (S k0) (shape frame_b) 0%nat).
  { unfold extent_b, stream_shape. rewrite Hfb. reflexivity. }
  eexists. eexists. split; [|split].
  - unfold _read_frame, with_frame. cbn [ihs _samples_per_frame _frame].
    rewrite Hihs, Hspf. cbn [mapM].
    unfold read. cbn [seek position nsample content].
    rewrite Hn. fold lo.
    destruct (Nat.leb_spec (lo + samples_per_frame a) (nsample a)) as [_|?];
      [|unfold lo in *; lia].
    cbn [bind ok map fst snd task].
    fold hi. fold frame_a. fold frame_b.
    rewrite Hout. cbn [bind ok]. rewrite Hcat. cbn [bind ok]. reflexivity.
  - rewrite Hea. apply join_slice_first; assumption.
  - rewrite Hea, Heb. apply join_slice_second; assumption.
Qed.

End ConcatenateRoundTrip.

(** Reading frame 1 into the buffer that holds frame 0: the frame is the
    same as without a buffer, and the buffer then holds it. *)
Example concatenate_buffer_example :
  exists frame0 self0 frame1 self1,
    combining._read_frame (combining.Concatenate 1) narrow_and_wide 0
      = ok (frame0, self0)
    /\ combining._read_frame (combining.Concatenate 1)
         (combining.with_frame self0 (Some frame0)) 1 = ok (frame1, self1)
    /\ combining._frame self1 = Some frame1
    /\ frame1 = NdArray [2; 4; 2]%nat
                  (ramp 2 4 ++ ramp 6 112 ++ ramp 2 6 ++ ramp 6 118).
Proof.
  do 4 eexists. split; [vm_compute; reflexivity|].
  split; [vm_compute; reflexivity|].
  split; vm_compute; reflexivity.
Qed.

Lemma concatenate_round_trip_witness :
  let a := narrow_stream in
  let b := wide_stream in
  let lo := (1 * combining.samples_per_frame a)%nat in
  let hi := (lo + combining.samples_per_frame a)%nat in
  let frame_a := slice_axis 0 lo hi (combining.content a) in
  let frame_b := slice_axis 0 lo hi (combining.content b) in
  let extent_a := nth 1 (combining.stream_shape a) 0%nat in
  let extent_b := nth 1 (combining.stream_shape b) 0%nat in
  exists frame self',
    combining._read_frame (combining.Concatenate 1)
      (combining.with_frame narrow_and_wide None) 1
      = ok (frame, self')
    /\ slice_axis 1 0 extent_a frame = frame_a
    /\ slice_axis 1 extent_a (extent_a + extent_b) frame = frame_b.
Proof.
  apply (concatenate_round_trip zero_memory narrow_stream wide_stream 1 1
           narrow_and_wide 1 None).
  - split; vm_compute; reflexivity.
  - split; vm_compute; reflexivity.
  - vm_compute. reflexivity.
  - reflexivity.
  - discriminate.
  - vm_compute. lia.
  - exact I.
Defined.

(** The frame of the example and its two parts. *)
Example concatenate_example :
  (exists self',
     combining._read_frame (combining.Concatenate 1) narrow_and_wide 1
     = ok (NdArray [2; 4; 2]%nat
             (ramp 2 4 ++ ramp 6 112 ++ ramp 2 6 ++ ramp 6 118), self'))
  /\ slice_axis 0 2 4 (combining.content narrow_stream)
     = NdArray [2; 1; 2]%nat (ramp 4 4)
  /\ slice_axis 0 2 4 (combining.content wide_stream)
     = NdArray [2; 3; 2]%nat (ramp 12 112).
Proof.
  split; [eexists; vm_compute; reflexivity|].
  split; vm_compute; reflexivity.
Qed.

(** * io/psrfits/hdu.py: rows below the range, and rows that decode *)

Section RowAccess.

Import hdu.

(** X1: an index below [-n_rows] passes the bound check of [read_data_row],
    which only looks upwards, and fails in the table lookup with an index
    error, not with the end-of-stream error. *)
Theorem read_data_row_below_range (self : SubintHDU) (n i : Z)
  (weighted : bool) :
  nrow self = ok (HInt n) ->
  Z.of_nat (length (rows (data (wrapped self)))) = n ->
  i < - n ->
  exists e,
    read_data_row self i weighted = inl e /\ exc_kind e = IndexError.
Proof.
  intros Hn Hlen Hi. unfold read_data_row. rewrite Hn. simpl.
  destruct (Z.leb_spec n i) as [?|_]; [lia|].
  unfold py_getitem. rewrite Hlen.
  destruct (Z.ltb_spec i 0) as [_|?]; [|lia].
  destruct (Z.leb_spec 0 (i + n)) as [?|_]; [lia|].
  simpl. eexists. split; reflexivity.
Qed.

Lemma read_data_row_below_range_witness :
  exists e,
    read_data_row (subint 1 None) (-3) true = inl e
    /\ exc_kind e = IndexError.
Proof.
  apply (read_data_row_below_range (subint 1 None) 2 (-3) true);
    [reflexivity | reflexivity | lia].
Defined.



(** In a column of 16-bit integers with ZERO_OFF = -1, the sample 32767
    less the offset wraps around to -32768, and the calibrated sample is
    -32768 * 2 + 10; the sample 100 is calibrated to (100 + 1) * 2 + 10.
    With the floating-point offset -1.0 nothing wraps. *)
Example read_data_row_wraps_around :
  read_data_row wrapping_subint 0 false
    = ok (NdArray [1; 1; 2]%nat (Qs [-65526; 212]))
  /\ read_data_row
       (MkSubint PSRSubintHDU
          (MkHDU "SUBINT"
             (<["ZERO_OFF" := HFloat (inject_Z (-1))]>
                (header (wrapped wrapping_subint)))
             (data (wrapped wrapping_subint)))
          psr_primary 0) 0 false
     = ok (NdArray [1; 1; 2]%nat (Qs [65546; 212])).
Proof. split; vm_compute; reflexivity. Qed.



End RowAccess.

(** * io/psrfits/hdu.py: the class of a SUBINT wrapper *)

Section SubintClass.

Import hdu.

Ltac invert_binds :=
  repeat match goal with
         | H : bind _ _ = inr _ |- _ =>
             let x := fresh "x" in
             let Hx := fresh "Hx" in
             apply bind_ok_inv in H as (x & Hx & H)
         | H : bind _ _ = ok _ |- _ =>
             let x := fresh "x" in
             let Hx := fresh "Hx" in
             apply bind_ok_inv in H as (x & Hx & H)
         end.

Lemma subint_map_PSR (m : hval) (c : subint_class) :
  subint_map m = Some c -> m = HStr "PSR".
Proof.
  destruct m as [| | |s|]; simpl; try discriminate.
  destruct (String.eqb_spec s "PSR") as [->|]; [reflexivity | discriminate].
Qed.

(** X4: a SUBINT wrapper is built only when OBS_MODE is exactly the string
    'PSR', and it then wraps the HDUs it was given at offset 0; any other
    string, 'psr' in lower case included, is refused with a value error
    that names it, whether or not verification is asked for. *)
Theorem SubintHDU_new_requires_PSR (h : HDU) (primary : PSRFITSPrimaryHDU)
  (verify : bool) :
  (forall s, SubintHDU_new h primary verify = ok s ->
             PSRFITSPrimaryHDU_obs_mode primary = ok (HStr "PSR")
             /\ s = MkSubint PSRSubintHDU h primary 0)
  /\ (forall m, PSRFITSPrimaryHDU_obs_mode primary = ok (HStr m) ->
                m <> "PSR" ->
                SubintHDU_new h primary verify
                = raise ValueError ("'" +:+ m +:+ "' is not a valid mode.")).
Proof.
  split.
  - intros s H. unfold SubintHDU_new in H.
    apply bind_ok_inv in H as (m & Hm & H).
    destruct (subint_map m) as [c|] eqn:Hc; [|discriminate].
    apply subint_map_PSR in Hc as ->. split; [exact Hm|].
    destruct c. destruct verify.
    + apply bind_ok_inv in H as (u & _ & H). injection H as <-. reflexivity.
    + injection H as <-. reflexivity.
  - intros m Hm Hne. unfold SubintHDU_new. rewrite Hm. cbn [bind ok].
    simpl. destruct (String.eqb_spec m "PSR") as [|_]; [contradiction|].
    reflexivity.
Qed.

(** The modes 'psr' and 'SEARCH' at the example table. *)
Example SubintHDU_new_modes :
  SubintHDU_new (subint_hdu 1 None) (primary_with_mode "psr") true
    = raise ValueError "'psr' is not a valid mode."
  /\ SubintHDU_new (subint_hdu 1 None) (primary_with_mode "SEARCH") false
     = raise ValueError "'SEARCH' is not a valid mode."
  /\ SubintHDU_new (subint_hdu 1 None) (primary_with_mode "PSR") true
     = ok (MkSubint PSRSubintHDU (subint_hdu 1 None) (primary_with_mode "PSR") 0).
Proof. repeat split; vm_compute; reflexivity. Qed.

Lemma never_raises_ok {A} bad (x : A) : never_raises bad (ok x).
Proof. intros e H. discriminate. Qed.

Lemma never_raises_kind {A} bad (k : exc_class) (msg : string) :
  k <> exc_kind bad -> never_raises bad (@raise A k msg).
Proof. intros Hk e H Hbad. injection H as <-. subst bad. apply Hk. reflexivity. Qed.

Lemma never_raises_message {A} bad (k : exc_class) (msg : string) :
  exc_args bad <> [msg] -> never_raises bad (@raise A k msg).
Proof. intros Hk e H Hbad. injection H as <-. subst bad. apply Hk. reflexivity. Qed.

Lemma never_raises_bind {A B} bad (m : result A) (f : A -> result B) :
  never_raises bad m -> (forall x, never_raises bad (f x)) ->
  never_raises bad (bind m f).
Proof.
  intros Hm Hf e H. destruct m as [e'|x]; simpl in H.
  - injection H as <-. apply Hm. reflexivity.
  - eapply Hf. exact H.
Qed.

Lemma never_raises_mapM {A B} bad (f : A -> result B) (xs : list A) :
  (forall x, never_raises bad (f x)) -> never_raises bad (mapM f xs).
Proof.
  intros Hf. induction xs as [|x xs IH]; cbn [mapM].
  - apply never_raises_ok.
  - apply never_raises_bind; [apply Hf | intros y].
    apply never_raises_bind; [exact IH | intros ys]. apply never_raises_ok.
Qed.

Section Assertion.

Variable bad : exc.
Hypothesis bad_kind : exc_kind bad = AssertionError.

Ltac other_kind := apply never_raises_kind; rewrite bad_kind; discriminate.

Lemma never_raises_header_get h key : never_raises bad (header_get h key).
Proof.
  unfold header_get. destruct (h !! key); [apply never_raises_ok | other_kind].
Qed.

Lemma never_raises_str_method f meth v :
  never_raises bad (str_method f meth v).
Proof. destruct v; simpl; (apply never_raises_ok || other_kind). Qed.

Lemma never_raises_py_int v : never_raises bad (py_int v).
Proof.
  destruct v; cbn [py_int]; try (apply never_raises_ok || other_kind).
  destruct (digitpart _) as [[|]|]; (apply never_raises_ok || other_kind).
Qed.

Lemma never_raises_row_getitem row key :
  never_raises bad (row_getitem row key).
Proof.
  unfold row_getitem. destruct (row !! key); [apply never_raises_ok | other_kind].
Qed.

Lemma never_raises_column t key : never_raises bad (column t key).
Proof.
  unfold column. destruct (has_column t key); [|other_kind].
  apply never_raises_mapM. intros row. apply never_raises_row_getitem.
Qed.

Lemma never_raises_py_getitem {A} (l : list A) i what :
  never_raises bad (py_getitem l i what).
Proof.
  unfold py_getitem.
  match goal with
  | |- context [match ?x with Some _ => _ | None => _ end] => destruct x
  end; [apply never_raises_ok | other_kind].
Qed.

Lemma never_raises_as_scalar {A} (a : ndarray A) :
  never_raises bad (as_scalar a).
Proof.
  unfold as_scalar. destruct (elems a) as [|x [|y l]];
    (apply never_raises_ok || other_kind).
Qed.

Lemma never_raises_assert cond msg :
  exc_args bad <> [msg] -> never_raises bad (py_assert_msg cond msg).
Proof.
  intros H. unfold py_assert_msg. destruct cond;
    [apply never_raises_ok | apply never_raises_message; exact H].
Qed.

End Assertion.

(** X5: the check of [PSRSubintHDU.verify] that the header is in folding
    mode cannot fail in a construction: [__new__] has already refused
    every mode but 'PSR', so no construction ends in that assertion. *)
Theorem folding_mode_check_unreachable (h : HDU)
  (primary : PSRFITSPrimaryHDU) (verify : bool) :
  never_raises
    (Exc AssertionError ["Header HDU is not in the folding mode."])
    (SubintHDU_new h primary verify).
Proof.
  set (bad := Exc AssertionError ["Header HDU is not in the folding mode."]).
  assert (Hk : exc_kind bad = AssertionError) by reflexivity.
  unfold SubintHDU_new.
  destruct (PSRFITSPrimaryHDU_obs_mode primary) as [e|m] eqn:Hm.
  { intros e' H. injection H as <-. unfold PSRFITSPrimaryHDU_obs_mode in Hm.
    eapply never_raises_header_get; [exact Hk | exact Hm]. }
  cbn [bind ok].
  destruct (subint_map m) as [c|] eqn:Hc.
  2:{ apply never_raises_kind. discriminate. }
  apply subint_map_PSR in Hc as ->.
  destruct verify; [|apply never_raises_ok].
  apply never_raises_bind; [|intros u; apply never_raises_ok].
  unfold PSRSubintHDU_verify, SubintHDU_verify, mode.
  cbn [primary_hdu wrapped]. rewrite Hm.
  apply never_raises_bind.
  { apply never_raises_bind; [apply never_raises_header_get, Hk | intros x].
    apply never_raises_bind; [apply never_raises_str_method, Hk | intros y].
    apply never_raises_assert. discriminate. }
  intros _. cbn [bind ok str_method].
  change (String.eqb (py_upper "PSR") "PSR") with true.
  cbn [py_assert_msg bind ok].
  apply never_raises_bind; [apply never_raises_header_get, Hk | intros nb].
  apply never_raises_bind; [apply never_raises_py_int, Hk | intros nbi].
  apply never_raises_bind; [apply never_raises_assert; discriminate | intros _].
  apply never_raises_bind.
  { destruct (has_column _ "DAT_FREQ"); [|apply never_raises_ok].
    apply never_raises_bind; [apply never_raises_column, Hk | intros fs].
    apply never_raises_bind; [apply never_raises_py_getitem, Hk | intros f0].
    apply never_raises_assert. discriminate. }
  intros _.
  apply never_raises_bind; [apply never_raises_column, Hk | intros ts].
  apply never_raises_bind.
  { apply never_raises_mapM. intros a. apply never_raises_as_scalar, Hk. }
  intros tsub.
  apply never_raises_bind; [apply never_raises_py_getitem, Hk | intros t0].
  apply never_raises_bind; [apply never_raises_assert; discriminate | intros _].
  apply never_raises_bind; [apply never_raises_column, Hk | intros cells].
  unfold nbin, nchan, npol, nrow.
  apply never_raises_bind; [apply never_raises_header_get, Hk | intros nb'].
  apply never_raises_bind; [apply never_raises_header_get, Hk | intros nc].
  apply never_raises_bind; [apply never_raises_header_get, Hk | intros np].
  apply never_raises_bind; [apply never_raises_header_get, Hk | intros nr].
  apply never_raises_assert. discriminate.
Qed.

End SubintClass.

(** * io/psrfits/hdu.py: frequencies, polarization labels, sample rate *)

Section SubintAttributes.

Import hdu.

Ltac invert_binds :=
  repeat match goal with
         | H : bind _ _ = inr _ |- _ =>
             let x := fresh "x" in
             let Hx := fresh "Hx" in
             apply bind_ok_inv in H as (x & Hx & H)
         | H : bind _ _ = ok _ |- _ =>
             let x := fresh "x" in
             let Hx := fresh "Hx" in
             apply bind_ok_inv in H as (x & Hx & H)
         end.

Lemma py_getitem_0_inv {A} (l : list A) (what : string) (x : A) :
  py_getitem l 0 what = ok x -> l !! 0%nat = Some x.
Proof.
  unfold py_getitem. simpl.
  destruct (0 <? Z.of_nat (length l))%Z; [|discriminate].
  simpl. destruct l as [|y l]; [discriminate|].
  intros H. injection H as <-. reflexivity.
Qed.

Lemma forallb_lookup {A} (f : A -> bool) (l : list A) (i : nat) (x : A) :
  forallb f l = true -> l !! i = Some x -> f x = true.
Proof.
  revert i. induction l as [|y l IH]; intros i H Hx; [discriminate|].
  simpl in H. apply andb_prop in H as [Hy Hl].
  destruct i as [|i]; simpl in Hx.
  - injection Hx as <-. exact Hy.
  - eapply IH; eassumption.
Qed.

(** X6: on a table that passed [PSRSubintHDU.verify]: with a DAT_FREQ column,
    [frequency] is the cell of the first row, as a column of one frequency
    per entry in MHz, and every row holds these frequencies; without the
    column the lookup on [super()] fails with an attribute error, and no
    frequency of the primary header is used. *)
Theorem frequency_of_verified (s : SubintHDU) :
  PSRSubintHDU_verify s = ok tt ->
  if has_column (data (wrapped s)) "DAT_FREQ"
  then exists row f0,
         rows (data (wrapped s)) !! 0%nat = Some row
         /\ row !! "DAT_FREQ" = Some f0
         /\ SubintHDU_frequency s
            = ok (Some (MkQuantity
                          (NdArray [length (elems f0); 1%nat] (elems f0)) MHz))
         /\ forall i r, rows (data (wrapped s)) !! i = Some r ->
                        exists f, r !! "DAT_FREQ" = Some f
                                  /\ Qlist_eqb (elems f0) (elems f) = true
  else exists e,
         SubintHDU_frequency s = inl e /\ exc_kind e = AttributeError.
Proof.
  intros H. unfold SubintHDU_frequency.
  destruct (has_column (data (wrapped s)) "DAT_FREQ") eqn:Hcol.
  - unfold PSRSubintHDU_verify in H. rewrite Hcol in H. invert_binds.
    match goal with
    | Hc : column _ "DAT_FREQ" = inr ?cells,
      Hg : py_getitem ?cells 0 _ = inr ?f0,
      Ha : py_assert_msg (forallb _ ?cells) _ = inr _ |- _ =>
        rename Hc into Hcells; rename Hg into Hfirst; rename Ha into Hsame;
        rename cells into freqs; rename f0 into first
    end.
    match type of Hsame with _ = inr ?u => destruct u end.
    apply py_assert_msg_ok in Hsame.
    apply py_getitem_0_inv in Hfirst as Hlook.
    assert (Hrows : forall i r, rows (data (wrapped s)) !! i = Some r ->
              exists f, freqs !! i = Some f /\ r !! "DAT_FREQ" = Some f).
    { intros i r Hr. unfold column in Hcells. rewrite Hcol in Hcells.
      destruct (mapM_ok_lookup _ _ _ i r Hcells Hr) as (f & Hf & Hrf).
      exists f. split; [exact Hf|]. unfold row_getitem in Hrf.
      destruct (r !! "DAT_FREQ"); [|discriminate].
      injection Hrf as <-. reflexivity. }
    destruct (rows (data (wrapped s)) !! 0%nat) as [row|] eqn:Hrow.
    2:{ exfalso. apply lookup_ge_None in Hrow.
        unfold column in Hcells. rewrite Hcol in Hcells.
        apply mapM_ok_length in Hcells.
        apply lookup_lt_Some in Hlook. lia. }
    destruct (Hrows 0%nat row Hrow) as (f & Hf & Hrf).
    rewrite Hlook in Hf. injection Hf as <-.
    exists row, first. split; [reflexivity|]. split; [exact Hrf|]. split.
    + rewrite Hcells. cbn [bind ok]. rewrite Hfirst. reflexivity.
    + intros i r Hr. destruct (Hrows i r Hr) as (f & Hf & Hrf').
      exists f. split; [exact Hrf'|].
      exact (forallb_lookup _ _ _ _ Hsame Hf).
  - eexists. split; reflexivity.
Qed.

Lemma frequency_of_verified_witness :
  exists row f0,
    rows (data subint_hdu_with_frequencies) !! 0%nat = Some row
    /\ row !! "DAT_FREQ" = Some f0
    /\ SubintHDU_frequency
         (MkSubint PSRSubintHDU subint_hdu_with_frequencies psr_primary 0)
       = ok (Some (MkQuantity
                     (NdArray [length (elems f0); 1%nat] (elems f0)) MHz))
    /\ forall i r, rows (data subint_hdu_with_frequencies) !! i = Some r ->
                   exists f, r !! "DAT_FREQ" = Some f
                             /\ Qlist_eqb (elems f0) (elems f) = true.
Proof.
  apply (frequency_of_verified
           (MkSubint PSRSubintHDU subint_hdu_with_frequencies psr_primary 0)).
  vm_compute. reflexivity.
Defined.

(** The table without the column, and the frequencies of the primary
    header that are not used. *)
Example frequency_without_column :
  PSRSubintHDU_verify (subint 1 None) = ok tt
  /\ SubintHDU_frequency (subint 1 None)
     = raise AttributeError "'super' object has no attribute 'frequency'"
  /\ is_ok (PSRFITSPrimaryHDU_frequency (primary_hdu (subint 1 None))) = true.
Proof. repeat split; vm_compute; reflexivity. Qed.

Lemma length_list_ascii (s : string) :
  length (list_ascii_of_string s) = String.length s.
Proof. induction s as [|c s IH]; simpl; [reflexivity | f_equal; exact IH]. Qed.

Lemma string_of_list_ascii_app (l1 l2 : list ascii) :
  string_of_list_ascii (l1 ++ l2)
  = string_of_list_ascii l1 +:+ string_of_list_ascii l2.
Proof.
  induction l1 as [|c l1 IH]; simpl; [reflexivity|]. rewrite IH. reflexivity.
Qed.

Lemma join_empty_fold (ls : list (list ascii)) (a : list ascii) :
  fold_left (fun acc s => acc +:+ "" +:+ s) (map string_of_list_ascii ls)
    (string_of_list_ascii a)
  = string_of_list_ascii (a ++ concat ls).
Proof.
  revert a. induction ls as [|l ls IH]; intros a; cbn [map fold_left concat].
  - rewrite app_nil_r. reflexivity.
  - change ("" +:+ string_of_list_ascii l) with (string_of_list_ascii l).
    rewrite <- string_of_list_ascii_app, IH, app_assoc. reflexivity.
Qed.

Lemma join_empty_chunks (ls : list (list ascii)) :
  py_join "" (map string_of_list_ascii ls)
  = string_of_list_ascii (concat ls).
Proof.
  unfold py_join, join. destruct ls as [|l ls]; [reflexivity|].
  cbn [map]. apply join_empty_fold.
Qed.

(** X7: when the POL_TYPE string has [k] characters for each of the [p]
    polarizations, [polarization] is an array of shape (1,) whose single
    entry yields [p] labels of [k] characters each that, joined, give
    POL_TYPE back. *)
Theorem polarization_labels (self : SubintHDU) (s : string) (p k : Z) :
  header (wrapped self) !! "POL_TYPE" = Some (HStr s) ->
  header (wrapped self) !! "NPOL" = Some (HInt p) ->
  0 < p -> 0 < k ->
  Z.of_nat (String.length s) = k * p ->
  exists labels,
    polarization self = ok (NdArray [1%nat] [labels])
    /\ length labels = Z.to_nat p
    /\ Forall (fun l => String.length l = Z.to_nat k) labels
    /\ py_join "" labels = s.
Proof.
  intros Hs Hp Hp0 Hk0 Hlen.
  unfold polarization, npol, header_get. rewrite Hs, Hp. cbn [bind ok].
  unfold floordiv_len. destruct (Z.eqb_spec p 0) as [?|_]; [lia|].
  cbn [bind ok]. rewrite Hlen, Z.div_mul by lia.
  eexists. split; [reflexivity|].
  unfold zip_chunks. destruct (Z.leb_spec k 0) as [?|_]; [lia|].
  assert (Hl : length (list_ascii_of_string s) = (Z.to_nat p * Z.to_nat k)%nat).
  { rewrite length_list_ascii. lia. }
  rewrite Hl, Nat.div_mul by lia.
  split; [|split].
  - unfold pieces. rewrite !length_map, length_seq. reflexivity.
  - apply List.Forall_forall. intros l Hin.
    apply in_map_iff in Hin as (cs & <- & Hin).
    unfold pieces in Hin. apply in_map_iff in Hin as (o & <- & Hin).
    apply in_seq in Hin.
    rewrite <- length_list_ascii, list_ascii_of_string_of_list_ascii.
    apply piece_length. rewrite Hl. nia.
  - rewrite join_empty_chunks. unfold pieces.
    rewrite <- flat_map_concat_map, flat_map_piece_all by exact Hl.
    apply string_of_list_ascii_of_string.
Qed.

Lemma polarization_labels_witness :
  exists labels,
    polarization (subint_with_labels 2 "AABB") = ok (NdArray [1%nat] [labels])
    /\ length labels = Z.to_nat 2
    /\ Forall (fun l => String.length l = Z.to_nat 2) labels
    /\ py_join "" labels = "AABB".
Proof.
  apply (polarization_labels (subint_with_labels 2 "AABB") "AABB" 2 2);
    try reflexivity; lia.
Defined.

(** Labels at the edges: more polarizations than characters, characters
    left over, and no polarization at all. *)
Example polarization_edges :
  polarization (subint_with_labels 2 "AABB") = ok (NdArray [1%nat] [["AA"; "BB"]])
  /\ polarization (subint_with_labels 4 "IQU") = ok (NdArray [1%nat] [[]])
  /\ polarization (subint_with_labels 3 "AABBC")
     = ok (NdArray [1%nat] [["A"; "A"; "B"; "B"; "C"]])
  /\ polarization (subint_with_labels 0 "AABB")
     = raise ZeroDivisionError "integer division or modulo by zero".
Proof. repeat split; vm_compute; reflexivity. Qed.

End SubintAttributes.

Section SampleRate.

Import hdu.

Lemma Qsum_uniform (l : list Q) (T : Q) :
  Forall (fun x => (x == T)%Q) l ->
  (Qsum l == inject_Z (Z.of_nat (length l)) * T)%Q.
Proof.
  induction 1 as [|x l Hx _ IH].
  - simpl. ring.
  - cbn [Qsum fold_right length]. fold (Qsum l). rewrite IH, Hx.
    rewrite Nat2Z.inj_succ, <- Z.add_1_r, inject_Z_plus. ring.
Qed.

Lemma uniform_column (key : string) (T : Q)
  (rs : list (gmap string (ndarray Q))) :
  Forall (fun row => exists cell x,
            row !! key = Some cell /\ elems cell = [x] /\ (x == T)%Q) rs ->
  exists cells,
    mapM (fun row => row_getitem row key) rs = ok cells
    /\ Forall (fun x => (x == T)%Q) (flat_map elems cells)
    /\ length (flat_map elems cells) = length rs.
Proof.
  induction 1 as [|row rs (cell & x & Hcell & Hx & HT) _ (cells & Hm & Hall & Hlen)].
  - exists []. repeat split. constructor.
  - exists (cell :: cells). cbn [mapM]. unfold row_getitem at 1.
    rewrite Hcell. cbn [bind ok]. rewrite Hm. cbn [bind ok].
    split; [reflexivity|]. cbn [flat_map]. rewrite Hx. simpl.
    split; [constructor; assumption | f_equal; exact Hlen].
Qed.

(** X8: when every row holds the same sub-integration length [T], the sample
    rate is the inverse of [T]: one sample, a row, per [T] seconds. *)
Theorem sample_rate_uniform (self : SubintHDU) (T : Q) :
  has_column (data (wrapped self)) "TSUBINT" = true ->
  rows (data (wrapped self)) <> [] ->
  Forall (fun row => exists cell x,
            row !! "TSUBINT" = Some cell /\ elems cell = [x] /\ (x == T)%Q)
         (rows (data (wrapped self))) ->
  ~ (T == 0)%Q ->
  exists r, sample_rate self = ok r /\ (r * T == 1)%Q.
Proof.
  intros Hcol Hne Hrows HT.
  destruct (uniform_column "TSUBINT" T _ Hrows) as (cells & Hm & Hall & Hlen).
  unfold sample_rate, column. rewrite Hcol, Hm. cbn [bind ok].
  eexists. split; [reflexivity|].
  unfold np_mean. rewrite (Qsum_uniform _ T Hall), Hlen.
  assert (Hn : ~ (inject_Z (Z.of_nat (length (rows (data (wrapped self))))) == 0)%Q).
  { destruct (rows (data (wrapped self))) as [|r0 rs]; [contradiction|].
    unfold Qeq. simpl. lia. }
  field. split; assumption.
Qed.

Lemma sample_rate_uniform_witness :
  exists r, sample_rate (subint 1 None) = ok r /\ (r * inject_Z 10 == 1)%Q.
Proof.
  apply (sample_rate_uniform (subint 1 None) (inject_Z 10)).
  - reflexivity.
  - discriminate.
  - repeat constructor; eexists; eexists;
      (split; [reflexivity | split; reflexivity]).
  - vm_compute. discriminate.
Defined.

End SampleRate.

(** * io/psrfits/core.py: the HDUs of a file and the reader *)

Section Readers.

Import hdu core.

Lemma buffer_fold_filter (l : list HDU) (b : gmap string (list HDU)) :
  fold_left
    (fun buffers hdu =>
       if existsb (String.eqb (name hdu)) HDU_map_keys
       then <[name hdu := default [] (buffers !! name hdu) ++ [hdu]]> buffers
       else buffers) l b
  = fold_left
      (fun buffers hdu =>
         if existsb (String.eqb (name hdu)) HDU_map_keys
         then <[name hdu := default [] (buffers !! name hdu) ++ [hdu]]> buffers
         else buffers)
      (List.filter (fun h => existsb (String.eqb (name h)) HDU_map_keys) l) b.
Proof.
  revert b. induction l as [|h l IH]; intros b; [reflexivity|].
  cbn [fold_left List.filter].
  destruct (existsb (String.eqb (name h)) HDU_map_keys) eqn:Hh.
  - cbn [fold_left]. rewrite Hh. apply IH.
  - apply IH.
Qed.

(** X9: HDUs that are neither the primary HDU nor a SUBINT table have no
    effect on the readers: on the file without them [get_readers] returns
    the same readers or fails alike, with the same error, except that the
    value error for a file without a primary HDU, or with several, shows
    the HDU list it was given. *)
Theorem get_readers_skips_unsupported (hdu_list : list HDU)
  (weighted : bool) :
  match
    get_readers hdu_list weighted,
    get_readers
      (List.filter (fun h => existsb (String.eqb (name h)) HDU_map_keys)
                   hdu_list)
      weighted
  with
  | inr readers, inr readers' => readers = readers'
  | inl e, inl e' =>
      exc_kind e = exc_kind e'
      /\ (e = e'
          \/ (length (hdus_named "PRIMARY" hdu_list) <> 1%nat
              /\ exc_kind e = ValueError))
  | _, _ => False
  end.
Proof.
  unfold get_readers.
  assert (Hb : buffer_hdus
                 (List.filter
                    (fun h => existsb (String.eqb (name h)) HDU_map_keys)
                    hdu_list)
               = buffer_hdus hdu_list).
  { unfold buffer_hdus. symmetry. apply buffer_fold_filter. }
  rewrite Hb.
  pose proof (buffers_primary hdu_list) as Hp.
  destruct (default [] (buffer_hdus hdu_list !! "PRIMARY")) as [|p [|p' ps]].
  - cbn. split; [reflexivity|]. right. rewrite <- Hp. split; [|reflexivity].
    discriminate.
  - match goal with |- match ?t with _ => _ end => destruct t as [e|readers] end.
    + split; [reflexivity|]. left. reflexivity.
    + reflexivity.
  - cbn. split; [reflexivity|]. right. rewrite <- Hp. split; [|reflexivity].
    discriminate.
Qed.

(** A file with a table that is not supported, and the two errors for a
    file without a primary HDU. *)
Example get_readers_history :
  get_readers
    [psr_primary_hdu; history_hdu; labelled_subint_hdu; history_hdu] true
  = ok [labelled_reader true]
  /\ get_readers [history_hdu; subint_hdu 1 None] true
     = raise ValueError
         ("HDUList `[<HISTORY HDU>, <SUBINT HDU>]` does not have a header HDU"
          +:+ " or have more than one header HDU.")
  /\ get_readers [subint_hdu 1 None] true
     = raise ValueError
         ("HDUList `[<SUBINT HDU>]` does not have a header HDU"
          +:+ " or have more than one header HDU.").
Proof. repeat split; vm_compute; reflexivity. Qed.

(** X10: a file without a primary HDU, or with several, is refused with a
    value error whatever its tables hold: no SUBINT table is looked at. *)
Theorem get_readers_one_primary (hdu_list : list HDU) (weighted : bool) :
  length (hdus_named "PRIMARY" hdu_list) <> 1%nat ->
  exists e,
    get_readers hdu_list weighted = inl e /\ exc_kind e = ValueError.
Proof.
  intros H. unfold get_readers. rewrite buffers_primary.
  destruct (hdus_named "PRIMARY" hdu_list) as [|p [|p' ps]];
    [| simpl in H; lia |]; eexists; split; reflexivity.
Qed.

Lemma get_readers_one_primary_witness :
  exists e,
    get_readers [subint_hdu 2 None; history_hdu] true = inl e
    /\ exc_kind e = ValueError.
Proof.
  apply (get_readers_one_primary [subint_hdu 2 None; history_hdu] true).
  vm_compute. discriminate.
Defined.

(** What a successful [get_readers] went through. *)
Lemma get_readers_ok_inv (l : list HDU) (w : bool)
  (readers : list PSRFITSReader) :
  get_readers l w = ok readers ->
  exists p primary ws,
    hdus_named "PRIMARY" l = [p]
    /\ PSRFITSPrimaryHDU_init p true = ok primary
    /\ mapM (fun h => SubintHDU_new h primary true) (hdus_named "SUBINT" l)
       = ok ws
    /\ mapM (fun s => PSRFITSReader_init s None None None None w) ws
       = ok readers.
Proof.
  intros H.
  destruct (hdus_named "PRIMARY" l) as [|p [|p' ps]] eqn:Hp.
  - unfold get_readers in H. rewrite buffers_primary, Hp in H. discriminate.
  - destruct (PSRFITSPrimaryHDU_init p true) as [e|primary] eqn:Hinit.
    + unfold get_readers in H. rewrite buffers_primary, Hp, Hinit in H.
      discriminate.
    + rewrite (get_readers_wrappers l w p primary Hp Hinit) in H.
      apply bind_ok_inv in H as (ws & Hws & H).
      exists p, primary, ws. auto.
  - unfold get_readers in H. rewrite buffers_primary, Hp in H. discriminate.
Qed.

(** X11: whenever [open] returns a reader, the mode was 'r', the file has
    exactly one primary HDU, which verifies, and exactly one SUBINT
    table; the reader wraps that table together with that primary HDU,
    the table has passed [PSRSubintHDU.verify], and the reader carries the
    [weighted] option it was given. *)
Theorem open_returns_verified_reader
  (fits_open : string -> result (list HDU)) (filename mode : string)
  (w : bool) (reader : PSRFITSReader) :
  open fits_open filename mode w = ok reader ->
  mode = "r"
  /\ exists hdu_list p primary,
       fits_open filename = ok hdu_list
       /\ hdus_named "PRIMARY" hdu_list = [p]
       /\ PSRFITSPrimaryHDU_init p true = ok primary
       /\ hdus_named "SUBINT" hdu_list = [wrapped (ih reader)]
       /\ primary_hdu (ih reader) = primary
       /\ PSRSubintHDU_verify (ih reader) = ok tt
       /\ weighted reader = w.
Proof.
  unfold open. destruct (String.eqb_spec mode "r") as [->|_]; [|discriminate].
  intros H. split; [reflexivity|].
  apply bind_ok_inv in H as (l & Hl & H).
  apply bind_ok_inv in H as (readers & Hr & H).
  destruct readers as [|r0 [|r1 rs]]; try discriminate.
  injection H as ->.
  apply get_readers_ok_inv in Hr as (p & primary & ws & Hp & Hinit & Hws & Hrs).
  apply mapM_ok_length in Hrs as Hlen'.
  destruct ws as [|s [|s' ws]]; try discriminate.
  cbn [mapM] in Hrs. apply bind_ok_inv in Hrs as (r & Hr & Hrs).
  cbn [bind ok] in Hrs. injection Hrs as ->.
  apply PSRFITSReader_init_ok in Hr as (Hih & Hweighted & _).
  apply mapM_ok_length in Hws as Hlen.
  destruct (hdus_named "SUBINT" l) as [|h [|h' hs]] eqn:Hsub;
    try discriminate.
  cbn [mapM] in Hws. apply bind_ok_inv in Hws as (s0 & Hs0 & Hws).
  cbn [bind ok] in Hws. injection Hws as ->.
  apply SubintHDU_new_ok in Hs0 as (Hw & Hprim & Hv).
  exists l, p, primary. rewrite Hih, Hweighted, Hw.
  repeat split; assumption.
Qed.

Lemma open_returns_verified_reader_witness :
  "r" = "r"
  /\ exists hdu_list p primary,
       (fun _ : string =>
          ok [psr_primary_hdu; history_hdu; labelled_subint_hdu])
         "observation.fits" = ok hdu_list
       /\ hdus_named "PRIMARY" hdu_list = [p]
       /\ PSRFITSPrimaryHDU_init p true = ok primary
       /\ hdus_named "SUBINT" hdu_list
          = [wrapped (ih (labelled_reader false))]
       /\ primary_hdu (ih (labelled_reader false)) = primary
       /\ PSRSubintHDU_verify (ih (labelled_reader false)) = ok tt
       /\ weighted (labelled_reader false) = false.
Proof.
  apply (open_returns_verified_reader
           (fun _ => ok [psr_primary_hdu; history_hdu; labelled_subint_hdu])
           "observation.fits" "r" false (labelled_reader false)).
  vm_compute. reflexivity.
Defined.

(** The modes that are refused, 'read' among them; the file is not
    opened. *)
Example open_modes :
  open (fun _ => ok [psr_primary_hdu; subint_hdu 1 None]) "observation.fits"
    "read" true
  = raise ValueError
      "Unknown mode 'read'. Currently only 'r' mode are supported."
  /\ open (fun _ => raise RuntimeError "not reached") "observation.fits"
       "w" true
     = raise ValueError
         "Unknown mode 'w'. Currently only 'r' mode are supported.".
Proof. split; vm_compute; reflexivity. Qed.

End Readers.

(** * io/psrfits/core.py: the frame of a reader *)

Section Transposition.

Context {A : Type}.
Implicit Types (d : list A) (ls : list (list A)) (s : list nat).

Lemma lookup_piece len d (o p : nat) :
  (p < len)%nat -> piece len d o !! p = d !! (o * len + p)%nat.
Proof.
  intros Hp. unfold piece. rewrite lookup_take_lt by exact Hp.
  apply lookup_drop.
Qed.

(** Entry [p] of the column of the [q]-th elements. *)
Lemma column_lookup ls (q p : nat) :
  Forall (fun l => (q < length l)%nat) ls ->
  flat_map (fun l => take 1 (drop q l)) ls !! p = ls !! p ≫= (.!! q).
Proof.
  intros H. revert p. induction H as [|l ls Hl _ IH]; intros p; [reflexivity|].
  cbv beta in Hl. cbn [flat_map].
  destruct (drop q l) as [|x t] eqn:Hd.
  { apply (f_equal length) in Hd. rewrite length_drop in Hd. simpl in Hd. lia. }
  assert (Hx : l !! q = Some x).
  { rewrite <- (Nat.add_0_r q), <- lookup_drop, Hd. reflexivity. }
  simpl. destruct p as [|p]; simpl.
  - rewrite Hx. reflexivity.
  - apply IH.
Qed.

Lemma column_length ls (q : nat) :
  Forall (fun l => (q < length l)%nat) ls ->
  length (flat_map (fun l => take 1 (drop q l)) ls) = length ls.
Proof.
  induction 1 as [|l ls Hl _ IH]; [reflexivity|].
  cbv beta in Hl.
  cbn [flat_map]. rewrite length_app, IH, length_take, length_drop.
  cbn [length]. lia.
Qed.

(** Reading [n] lists of [m] elements column by column: the entry at
    [q * n + p] is element [q] of list [p]. *)
Lemma interleave_lookup (m : nat) ls (q p : nat) :
  Forall (fun l => length l = m) ls ->
  (q < m)%nat -> (p < length ls)%nat ->
  interleave m ls !! (q * length ls + p)%nat = ls !! p ≫= (.!! q).
Proof.
  intros Hls Hq Hp. unfold interleave.
  assert (Hall : forall q', (q' < m)%nat ->
            Forall (fun l => (q' < length l)%nat) ls).
  { intros q' Hq'. eapply Forall_impl; [exact Hls|].
    intros l Hl. simpl in Hl. lia. }
  rewrite <- (lookup_piece (length ls) _ q p Hp).
  rewrite (piece_flat_map _ (length ls) m q 0).
  - simpl. apply column_lookup. apply Hall. exact Hq.
  - intros i Hi. apply column_length. apply Hall. lia.
  - exact Hq.
Qed.

Lemma interleave_length (m : nat) ls :
  Forall (fun l => length l = m) ls ->
  length (interleave m ls) = (m * length ls)%nat.
Proof.
  intros Hls. unfold interleave.
  rewrite (flat_map_length_uniform _ _ (length ls)).
  - rewrite length_seq. reflexivity.
  - intros q Hq. apply in_seq in Hq. apply column_length.
    eapply Forall_impl; [exact Hls|]. intros l Hl. simpl in Hl. lia.
Qed.

Lemma pieces_lengths (len n : nat) d :
  length d = (n * len)%nat ->
  Forall (fun l => length l = len) (pieces len n d).
Proof.
  intros Hd. apply List.Forall_forall. intros l Hin.
  unfold pieces in Hin. apply in_map_iff in Hin as (o & <- & Hin).
  apply in_seq in Hin. apply piece_length. nia.
Qed.

(** Transposition keeps the number of elements. *)
Lemma transpose_elems_length s d :
  length d = size_of s -> length (transpose_elems s d) = length d.
Proof.
  revert d. induction s as [|n s IH]; intros d Hd; [reflexivity|].
  cbn [transpose_elems]. simpl in Hd.
  rewrite interleave_length.
  - rewrite length_map. unfold pieces. rewrite length_map, length_seq. lia.
  - apply List.Forall_forall. intros l Hin.
    apply in_map_iff in Hin as (x & <- & Hin).
    pose proof (pieces_lengths (size_of s) n d Hd) as Hp.
    rewrite List.Forall_forall in Hp. rewrite IH; apply Hp; exact Hin.
Qed.

(** The outermost axis becomes the innermost one. *)
Lemma transpose_elems_lookup (n : nat) s d (q p : nat) :
  length d = (n * size_of s)%nat ->
  (q < size_of s)%nat -> (p < n)%nat ->
  transpose_elems (n :: s) d !! (q * n + p)%nat
  = transpose_elems s (piece (size_of s) d p) !! q.
Proof.
  intros Hd Hq Hp. cbn [transpose_elems].
  pose proof (pieces_lengths (size_of s) n d Hd) as Hpieces.
  assert (Hn : length (map (transpose_elems s) (pieces (size_of s) n d)) = n).
  { rewrite length_map. unfold pieces. rewrite length_map, length_seq.
    reflexivity. }
  set (ls := map (transpose_elems s) (pieces (size_of s) n d)) in *.
  replace (q * n + p)%nat with (q * length ls + p)%nat
    by (rewrite Hn; reflexivity).
  rewrite (interleave_lookup (size_of s)); subst ls.
  - rewrite list_lookup_fmap. unfold pieces.
    rewrite list_lookup_fmap, lookup_seq_lt by exact Hp. reflexivity.
  - apply List.Forall_forall. intros l Hin.
    apply in_map_iff in Hin as (x & <- & Hin).
    rewrite List.Forall_forall in Hpieces.
    rewrite transpose_elems_length; apply Hpieces; exact Hin.
  - exact Hq.
  - rewrite Hn. exact Hp.
Qed.

(** The transpose of an array of three axes, entry by entry. *)
Lemma transpose_3d (P C B : nat) d (b c p : nat) :
  length d = (P * (C * B))%nat ->
  (b < B)%nat -> (c < C)%nat -> (p < P)%nat ->
  transpose_elems [P; C; B] d !! ((b * C + c) * P + p)%nat
  = d !! ((p * C + c) * B + b)%nat.
Proof.
  intros Hd Hb Hc Hp.
  assert (HCB : size_of [C; B] = (C * B)%nat) by (simpl; lia).
  assert (HB : size_of [B] = B) by (simpl; lia).
  rewrite (transpose_elems_lookup P [C; B] d (b * C + c) p);
    [| rewrite HCB; exact Hd | rewrite HCB; nia | exact Hp].
  rewrite HCB.
  assert (H1 : length (piece (C * B) d p) = (C * size_of [B])%nat).
  { rewrite HB. apply piece_length. nia. }
  rewrite (transpose_elems_lookup C [B]); [|exact H1 | rewrite HB; exact Hb | exact Hc].
  rewrite HB.
  assert (H2 : length (piece B (piece (C * B) d p) c) = (B * size_of [])%nat).
  { simpl. rewrite Nat.mul_1_r. apply piece_length. rewrite H1, HB. nia. }
  replace b with (0 * B + b)%nat at 1 by lia.
  rewrite (transpose_elems_lookup B []); [|exact H2 | simpl; lia | exact Hb].
  cbn [transpose_elems size_of fold_right].
  rewrite !lookup_piece by nia.
  f_equal. nia.
Qed.

End Transposition.

Section ReaderFrame.

Import hdu core.

(** X12: a frame of the reader holds the samples of the row it read with the
    axes reversed: sample (bin [b], channel [c], polarization [p]) of the
    frame is sample (polarization [p], channel [c], bin [b]) of the row,
    and the frame has shape (1, nbin, nchan, npol). *)
Theorem read_frame_transposes (r : PSRFITSReader) (i : Z) (row : ndarray Q)
  (P C B : nat) :
  read_data_row (ih r) i (weighted r) = ok row ->
  shape row = [P; C; B] ->
  well_formed row ->
  sample_shape (ih r)
    = ok (HInt (Z.of_nat B), HInt (Z.of_nat C), HInt (Z.of_nat P)) ->
  exists frame,
    _read_frame r i = ok frame
    /\ shape frame = [1; B; C; P]%nat
    /\ forall b c p,
         (b < B)%nat -> (c < C)%nat -> (p < P)%nat ->
         elems frame !! ((b * C + c) * P + p)%nat
         = elems row !! ((p * C + c) * B + b)%nat.
Proof.
  intros Hrow Hshape Hwf Hss.
  unfold well_formed in Hwf. rewrite Hshape in Hwf.
  assert (Hlen : length (elems row) = (P * (C * B))%nat).
  { rewrite Hwf. simpl. lia. }
  unfold _read_frame. rewrite Hrow. cbn [bind ok]. rewrite Hss.
  cbn [bind ok mapM py_index]. unfold reader_samples_per_frame, samples_per_frame.
  unfold np_reshape, np_T. cbn [elems shape]. rewrite Hshape.
  rewrite transpose_elems_length by (rewrite Hwf; reflexivity).
  assert (Hneg : existsb (fun n => (n <? -1)%Z)
                   [1; Z.of_nat B; Z.of_nat C; Z.of_nat P] = false).
  { cbn [existsb].
    repeat match goal with
           | |- context [(?x <? -1)%Z] =>
               destruct (Z.ltb_spec x (-1)); [lia|]
           end.
    reflexivity. }
  rewrite Hneg.
  assert (Hknown : List.filter (fun n => (0 <=? n)%Z)
                     [1; Z.of_nat B; Z.of_nat C; Z.of_nat P]
                   = [1; Z.of_nat B; Z.of_nat C; Z.of_nat P]).
  { cbn [List.filter].
    repeat match goal with
           | |- context [(0 <=? ?x)%Z] =>
               destruct (Z.leb_spec 0 x); [|lia]
           end.
    reflexivity. }
  rewrite Hknown. cbn [length Nat.sub map].
  rewrite !Nat2Z.id.
  replace (size_of [Z.to_nat 1; B; C; P]) with (length (elems row))
    by (rewrite Hlen; simpl; lia).
  rewrite Nat.eqb_refl.
  eexists. split; [reflexivity|]. split; [reflexivity|].
  intros b c p Hb Hc Hp. cbn [elems].
  apply transpose_3d; assumption.
Qed.

Lemma read_frame_transposes_witness :
  exists frame,
    _read_frame (labelled_reader false) 0 = ok frame
    /\ shape frame = [1; 2; 2; 1]%nat
    /\ forall b c p,
         (b < 2)%nat -> (c < 2)%nat -> (p < 1)%nat ->
         elems frame !! ((b * 2 + c) * 1 + p)%nat
         = elems (NdArray [1; 2; 2]%nat (Qs [12; 14; 29; 32]))
             !! ((p * 2 + c) * 2 + b)%nat.
Proof.
  apply (read_frame_transposes (labelled_reader false) 0
           (NdArray [1; 2; 2]%nat (Qs [12; 14; 29; 32])) 1 2 2);
    vm_compute; reflexivity.
Defined.

(** The frame of the example table: the bins of a channel, adjacent in
    the row, are a channel apart in the frame. *)
Example read_frame_example :
  read_data_row labelled_subint 0 false
    = ok (NdArray [1; 2; 2]%nat (Qs [12; 14; 29; 32]))
  /\ _read_frame (labelled_reader false) 0
     = ok (NdArray [1; 2; 2; 1]%nat (Qs [12; 29; 14; 32]))
  /\ _read_frame (labelled_reader false) 2
     = raise EOFError "cannot read from beyond end of input SUBINT HDU.".
Proof. repeat split; vm_compute; reflexivity. Qed.

End ReaderFrame.

(** * Arrays: stacking along a new axis *)

Section StackArrays.

Context {A : Type}.
Implicit Types (d : list A) (s : list nat) (a : ndarray A).

(** In a list made of blocks of equal length, one for each entry of
    [l], block [j] is the block of entry [j]. *)
Lemma piece_flat_map_list {B} (g : B -> list A) (l : list B) (len j : nat)
  (x : B) :
  Forall (fun y => length (g y) = len) l -> l !! j = Some x ->
  piece len (flat_map g l) j = g x.
Proof.
  intros H. revert j. induction H as [|y l Hy _ IH]; intros j Hj;
    [discriminate|].
  cbv beta in Hy. cbn [flat_map]. destruct j as [|j]; simpl in Hj.
  - injection Hj as <-. unfold piece. simpl. rewrite drop_0.
    apply take_app_length'. symmetry. exact Hy.
  - unfold piece. replace (S j * len)%nat with (len + j * len)%nat by lia.
    rewrite <- drop_drop, drop_app_length' by (symmetry; exact Hy).
    apply IH. exact Hj.
Qed.

Lemma sum_nat_ones {B} (f : B -> nat) (l : list B) :
  Forall (fun x => f x = 1%nat) l -> sum_nat (map f l) = length l.
Proof.
  induction 1 as [|x l Hx _ IH]; [reflexivity|].
  cbn [map sum_nat fold_right length]. fold (sum_nat (map f l)).
  rewrite Hx, IH. reflexivity.
Qed.

Variables (s : list nat) (k : nat) (arrays : list (ndarray A)).
Hypothesis Hk : (k <= length s)%nat.
Hypothesis Hshapes : Forall (fun x => shape x = s) arrays.
Hypothesis Hwf : Forall well_formed arrays.

Let expanded :=
  map (fun x => NdArray (take k (shape x) ++ 1%nat :: drop k (shape x))
                        (elems x))
      arrays.
Let outer := size_of (take k s).
Let inner := size_of (drop k s).

Lemma stacked_shape :
  shape (join_axis k expanded (take k s ++ 1%nat :: drop k s))
  = take k s ++ length arrays :: drop k s.
Proof.
  unfold join_axis. cbn [shape]. unfold expanded. rewrite map_map.
  rewrite sum_nat_ones.
  - rewrite insert_app_r_alt by (rewrite length_take; lia).
    rewrite length_take, Nat.min_l, Nat.sub_diag by exact Hk. reflexivity.
  - eapply Forall_impl; [exact Hshapes|]. intros x Hx. cbn [shape].
    cbv beta in Hx. rewrite Hx. rewrite app_nth2 by (rewrite length_take; lia).
    rewrite length_take, Nat.min_l, Nat.sub_diag by exact Hk. reflexivity.
Qed.

Lemma stacked_elems :
  elems (join_axis k expanded (take k s ++ 1%nat :: drop k s))
  = flat_map (fun o => flat_map (fun x => piece inner (elems x) o) arrays)
             (seq 0 outer).
Proof.
  unfold join_axis. cbn [elems].
  rewrite take_app_length' by (rewrite length_take; lia). fold outer.
  apply flat_map_ext. intros o. unfold expanded.
  rewrite flat_map_fmap. apply flat_map_ext_in. intros x Hx.
  rewrite List.Forall_forall in Hshapes. pose proof (Hshapes x Hx) as Hs.
  cbn [shape elems]. rewrite Hs.
  rewrite drop_app_length' by (rewrite length_take; lia).
  f_equal. unfold inner. simpl. lia.
Qed.

Lemma array_length a : In a arrays -> length (elems a) = (outer * inner)%nat.
Proof.
  intros Ha. rewrite List.Forall_forall in Hshapes, Hwf.
  pose proof (Hshapes a Ha) as Hs. pose proof (Hwf a Ha) as Hw.
  unfold well_formed in Hw. rewrite Hw, Hs. apply size_of_take_drop.
Qed.

(** Taking entry [j] along the new axis of the stack gives back array
    [j]. *)
Lemma stack_index (j : nat) a :
  arrays !! j = Some a ->
  index_axis k j (join_axis k expanded (take k s ++ 1%nat :: drop k s)) = a.
Proof.
  intros Hj.
  assert (Hin : In a arrays).
  { apply list_elem_of_In. eapply list_elem_of_lookup_2. exact Hj. }
  assert (Hshape : shape a = s).
  { rewrite List.Forall_forall in Hshapes. apply (Hshapes a Hin). }
  assert (Htake : take k (take k s ++ length arrays :: drop k s) = take k s).
  { apply take_app_length'. rewrite length_take. lia. }
  assert (Hdrop : drop (S k) (take k s ++ length arrays :: drop k s)
                  = drop k s).
  { rewrite drop_app_ge by (rewrite length_take; lia).
    rewrite length_take, Nat.min_l by exact Hk.
    replace (S k - k)%nat with 1%nat by lia. reflexivity. }
  assert (Hnth : nth k (take k s ++ length arrays :: drop k s) 0%nat
                 = length arrays).
  { rewrite app_nth2 by (rewrite length_take; lia).
    rewrite length_take, Nat.min_l, Nat.sub_diag by exact Hk. reflexivity. }
  apply ndarray_eq; unfold index_axis, slice_axis; cbn [shape elems];
    rewrite stacked_shape, Htake, Hdrop, ?Hnth.
  - rewrite take_drop. symmetry. exact Hshape.
  - fold outer inner. rewrite stacked_elems.
    transitivity (flat_map (piece inner (elems a)) (seq 0 outer)).
    + apply flat_map_ext_in. intros o Ho. apply in_seq in Ho.
      assert (Hblocks : Forall (fun x => length (piece inner (elems x) o) = inner)
                          arrays).
      { apply List.Forall_forall. intros x Hx. apply piece_length.
        rewrite (array_length x Hx). nia. }
      rewrite (piece_flat_map _ (length arrays * inner) outer o 0).
      * replace (S j - j)%nat with 1%nat by lia. rewrite Nat.mul_1_l.
        simpl. exact (piece_flat_map_list _ arrays inner j a Hblocks Hj).
      * intros i Hi. apply flat_map_length_uniform.
        intros x Hx. apply piece_length. rewrite (array_length x Hx). nia.
      * lia.
    + apply flat_map_piece_all. apply array_length. exact Hin.
Qed.

End StackArrays.

(** * combining.py: the combined shape of a stack and of a concatenation *)

Section StackShape.

Import combining.

Variable uninitialised : list nat -> string -> nat -> pyobj.

Lemma normalize_axis_nat (ndim k : nat) :
  (k < ndim)%nat -> normalize_axis ndim (Z.of_nat k) = ok k.
Proof.
  intros Hk. unfold normalize_axis.
  destruct (Z.leb_spec 0 (Z.of_nat k)) as [_|?]; [|lia].
  destruct (Z.ltb_spec (Z.of_nat k) (Z.of_nat ndim)) as [_|?]; [|lia].
  simpl. rewrite Nat2Z.id. reflexivity.
Qed.

Lemma mapM_ok_Forall {A B} (f : A -> result B) (xs : list A) (ys : list B) :
  mapM f xs = ok ys -> Forall (fun x => is_ok (f x) = true) xs.
Proof.
  revert ys. induction xs as [|x xs IH]; intros ys H; [constructor|].
  cbn [mapM] in H. apply bind_ok_inv in H as (y & Hy & H).
  apply bind_ok_inv in H as (ys' & Hys & _).
  constructor; [rewrite Hy; reflexivity | eapply IH; exact Hys].
Qed.

(** What a successful [np.concatenate] went through. *)
Lemma np_concatenate_inv {A} (a0 : ndarray A) (rest : list (ndarray A))
  (axis : Z) (out : option (ndarray A)) (res : ndarray A) :
  np_concatenate (a0 :: rest) axis out = ok res ->
  exists k,
    normalize_axis (length (shape a0)) axis = ok k
    /\ Forall (fun a => length (shape a) = length (shape a0)
                        /\ same_except k (shape a0) (shape a) = true) rest
    /\ res = join_axis k (a0 :: rest) (shape a0).
Proof.
  unfold np_concatenate.
  destruct (Nat.eqb_spec (length (shape a0)) 0) as [|_]; [discriminate|].
  intros H. apply bind_ok_inv in H as (k & Hk & H).
  apply bind_ok_inv in H as (us & Hus & H).
  exists k. split; [exact Hk|]. split.
  - apply mapM_ok_Forall in Hus. eapply Forall_impl; [exact Hus|].
    intros a Ha. cbv beta in Ha.
    destruct (Nat.eqb_spec (length (shape a)) (length (shape a0))) as [Hl|];
      [|discriminate].
    simpl in Ha. destruct (same_except k (shape a0) (shape a));
      [auto | discriminate].
  - destruct out as [buffer|].
    + destruct (bool_decide _); [|discriminate]. injection H as <-. reflexivity.
    + injection H as <-. reflexivity.
Qed.

Lemma np_concatenate_ok {A} (a0 : ndarray A) (rest : list (ndarray A))
  (axis : Z) (k : nat) (out : option (ndarray A)) :
  normalize_axis (length (shape a0)) axis = ok k ->
  Forall (fun a => length (shape a) = length (shape a0)
                   /\ same_except k (shape a0) (shape a) = true) rest ->
  fits out (shape (join_axis k (a0 :: rest) (shape a0))) ->
  np_concatenate (a0 :: rest) axis out
  = ok (join_axis k (a0 :: rest) (shape a0)).
Proof.
  intros Hk Hrest Hout. unfold np_concatenate.
  apply normalize_axis_lt in Hk as Hlt.
  destruct (Nat.eqb_spec (length (shape a0)) 0) as [|_]; [lia|].
  rewrite Hk. cbn [bind ok].
  rewrite (mapM_all_ok _ (fun _ => tt)).
  - cbn [bind ok]. destruct out as [buffer|]; [|reflexivity].
    simpl in Hout. rewrite bool_decide_eq_true_2 by exact Hout. reflexivity.
  - intros a Ha. rewrite List.Forall_forall in Hrest.
    destruct (Hrest a Ha) as [Hl Hs]. rewrite Hl, Nat.eqb_refl, Hs.
    reflexivity.
Qed.

Lemma same_except_refl (k : nat) (s : list nat) : same_except k s s = true.
Proof. unfold same_except. apply bool_decide_eq_true_2. reflexivity. Qed.

Lemma forallb_Forall_shape {A} (a0 : ndarray A) (rest : list (ndarray A)) :
  forallb (fun a => bool_decide (shape a = shape a0)) rest = true
  <-> Forall (fun a => shape a = shape a0) rest.
Proof.
  induction rest as [|a rest IH]; simpl.
  - split; [constructor | reflexivity].
  - rewrite andb_true_iff, IH, bool_decide_eq_true. split.
    + intros [Ha Hr]. constructor; assumption.
    + intros H. split; [apply (Forall_inv H) | apply (Forall_inv_tail H)].
Qed.

Lemma expanded_rest {A} (a0 : ndarray A) (rest : list (ndarray A)) (k : nat) :
  Forall (fun a => shape a = shape a0) rest ->
  Forall (fun a => length (shape a)
                   = length (take k (shape a0) ++ 1%nat :: drop k (shape a0))
                   /\ same_except k
                        (take k (shape a0) ++ 1%nat :: drop k (shape a0))
                        (shape a) = true)
    (map (fun a => NdArray (take k (shape a) ++ 1%nat :: drop k (shape a))
                           (elems a)) rest).
Proof.
  intros H. apply List.Forall_forall. intros e He.
  apply in_map_iff in He as (a & <- & Ha).
  rewrite List.Forall_forall in H. rewrite (H a Ha). cbn [shape].
  split; [reflexivity | apply same_except_refl].
Qed.

(** What a successful [np.stack] went through. *)
Lemma np_stack_inv {A} (a0 : ndarray A) (rest : list (ndarray A))
  (axis : Z) (out : option (ndarray A)) (res : ndarray A) :
  np_stack (a0 :: rest) axis out = ok res ->
  Forall (fun a => shape a = shape a0) rest
  /\ exists k,
       normalize_axis (length (shape a0) + 1) axis = ok k
       /\ res = join_axis k
                  (map (fun a => NdArray (take k (shape a) ++ 1%nat
                                          :: drop k (shape a)) (elems a))
                       (a0 :: rest))
                  (take k (shape a0) ++ 1%nat :: drop k (shape a0)).
Proof.
  unfold np_stack.
  destruct (forallb _ rest) eqn:Hall; [|discriminate]. cbn [negb].
  apply forallb_Forall_shape in Hall. intros H.
  apply bind_ok_inv in H as (k & Hk & H).
  split; [exact Hall|]. exists k. split; [exact Hk|].
  cbn [map] in H. apply np_concatenate_inv in H as (k' & Hk' & _ & ->).
  cbn [shape] in *. apply normalize_axis_lt in Hk as Hlt.
  rewrite normalize_axis_nat in Hk'.
  - injection Hk' as <-. reflexivity.
  - rewrite length_app, length_take. simpl. rewrite length_drop. lia.
Qed.

Lemma np_stack_ok {A} (a0 : ndarray A) (rest : list (ndarray A))
  (axis : Z) (k : nat) (out : option (ndarray A)) :
  Forall (fun a => shape a = shape a0) rest ->
  normalize_axis (length (shape a0) + 1) axis = ok k ->
  fits out
    (shape (join_axis k
              (map (fun a => NdArray (take k (shape a) ++ 1%nat
                                      :: drop k (shape a)) (elems a))
                   (a0 :: rest))
              (take k (shape a0) ++ 1%nat :: drop k (shape a0)))) ->
  np_stack (a0 :: rest) axis out
  = ok (join_axis k
          (map (fun a => NdArray (take k (shape a) ++ 1%nat
                                  :: drop k (shape a)) (elems a))
               (a0 :: rest))
          (take k (shape a0) ++ 1%nat :: drop k (shape a0))).
Proof.
  intros Hall Hk Hout. unfold np_stack.
  rewrite (proj2 (forallb_Forall_shape a0 rest) Hall). cbn [negb].
  rewrite Hk. cbn [bind ok map].
  apply normalize_axis_lt in Hk as Hlt.
  apply np_concatenate_ok.
  - cbn [shape]. apply normalize_axis_nat.
    rewrite length_app, length_take. simpl. rewrite length_drop. lia.
  - apply expanded_rest. exact Hall.
  - exact Hout.
Qed.

(** The streams of a group that [Stack] accepts share their sample
    shape, and the probe is their stack. *)
Lemma stack_probe_inv (axis : Z) (ih0 : stream) (rest : list stream)
  (a : ndarray pyobj) :
  task (Stack axis) None (probe_blocks uninitialised (ih0 :: rest)) = ok a ->
  Forall (fun ih => sample_shape ih = sample_shape ih0) (ih0 :: rest)
  /\ exists k,
       normalize_axis (S (S (length (sample_shape ih0)))) axis = ok k
       /\ shape a = take k (7%nat :: sample_shape ih0)
                    ++ S (length rest) :: drop k (7%nat :: sample_shape ih0).
Proof.
  intros H. cbn [task] in H. apply bind_ok_inv in H as (out & _ & H).
  cbn [probe_blocks map] in H.
  apply np_stack_inv in H as (Hall & k & Hk & ->).
  cbn [np_empty shape length] in Hk.
  replace (S (length (sample_shape ih0)) + 1)%nat
    with (S (S (length (sample_shape ih0)))) in Hk by lia.
  assert (Hshapes : Forall (fun ih => sample_shape ih = sample_shape ih0)
                      (ih0 :: rest)).
  { constructor; [reflexivity|]. apply List.Forall_forall. intros ih Hin.
    rewrite List.Forall_forall in Hall.
    specialize (Hall (np_empty uninitialised (7%nat :: sample_shape ih) (dtype ih))).
    cbn [np_empty shape] in Hall.
    assert (E : 7%nat :: sample_shape ih = 7%nat :: sample_shape ih0).
    { apply Hall. apply in_map_iff. exists ih. split; [reflexivity | exact Hin]. }
    injection E as E. exact E. }
  split; [exact Hshapes|]. exists k. split; [exact Hk|].
  apply normalize_axis_lt in Hk as Hlt.
  change (np_empty uninitialised (7%nat :: sample_shape ih0) (dtype ih0)
          :: map (fun ih => np_empty uninitialised (7%nat :: sample_shape ih) (dtype ih))
               rest)
    with (probe_blocks uninitialised (ih0 :: rest)).
  cbn [np_empty shape].
  rewrite (stacked_shape (7%nat :: sample_shape ih0) k
             (probe_blocks uninitialised (ih0 :: rest))).
  - unfold probe_blocks. rewrite length_map. reflexivity.
  - simpl. lia.
  - apply List.Forall_forall. intros p Hp.
    apply in_map_iff in Hp as (ih & <- & Hin).
    rewrite List.Forall_forall in Hshapes.
    cbn [np_empty shape]. rewrite (Hshapes ih Hin). reflexivity.
Qed.

(** X13: a group that [Stack] accepts shares one sample shape, and the
    combined sample shape is that shape with the number of streams
    inserted at the new axis.  The time axis is not refused as the new
    axis: along it a group is accepted exactly when it has as many streams
    as the probe has samples, seven, and the combined shape then carries
    the length of the probe. *)
Theorem stack_combined_shape (axis : Z) (group : list stream)
  (self : CombineStreamsBase) :
  CombineStreamsBase_init uninitialised (Stack axis) group = ok self ->
  exists ih0 k,
    head group = Some ih0
    /\ Forall (fun ih => sample_shape ih = sample_shape ih0) group
    /\ normalize_axis (S (S (length (sample_shape ih0)))) axis = ok k
    /\ match k with
       | O => length group = 7%nat
              /\ combined_shape self
                 = nsample ih0 :: 7%nat :: sample_shape ih0
       | S k0 => combined_shape self
                 = nsample ih0 :: take k0 (sample_shape ih0)
                                  ++ length group :: drop k0 (sample_shape ih0)
       end.
Proof.
  intros H. apply init_ok_inv in H
    as (ih0 & rest & a & -> & _ & Hprobe & Hhead & _ & Hshape & _).
  apply stack_probe_inv in Hprobe as (Hshapes & k & Hk & Ha).
  exists ih0, k. split; [reflexivity|]. split; [exact Hshapes|].
  split; [exact Hk|]. rewrite Hshape, Ha. rewrite Ha in Hhead.
  destruct k as [|k0]; simpl in *.
  - injection Hhead as Hn. rewrite Hn. split; reflexivity.
  - reflexivity.
Qed.

End StackShape.

Lemma stack_combined_shape_witness :
  exists ih0 k,
    head (repeat narrow_stream 7) = Some ih0
    /\ Forall (fun ih => combining.sample_shape ih = combining.sample_shape ih0)
              (repeat narrow_stream 7)
    /\ normalize_axis (S (S (length (combining.sample_shape ih0)))) 0 = ok k
    /\ match k with
       | O => length (repeat narrow_stream 7) = 7%nat
              /\ combining.combined_shape
                   (combining.MkCombined (repeat narrow_stream 7) [4; 7; 1; 2]%nat
                      combining.AttrNone combining.AttrNone combining.AttrNone 2 None)
                 = combining.nsample ih0 :: 7%nat :: combining.sample_shape ih0
       | S k0 => combining.combined_shape
                   (combining.MkCombined (repeat narrow_stream 7) [4; 7; 1; 2]%nat
                      combining.AttrNone combining.AttrNone combining.AttrNone 2 None)
                 = combining.nsample ih0 :: take k0 (combining.sample_shape ih0)
                                  ++ length (repeat narrow_stream 7)
                                     :: drop k0 (combining.sample_shape ih0)
       end.
Proof.
  apply (stack_combined_shape zero_memory 0 (repeat narrow_stream 7)
           (combining.MkCombined (repeat narrow_stream 7) [4; 7; 1; 2]%nat
              combining.AttrNone combining.AttrNone combining.AttrNone 2 None)).
  vm_compute. reflexivity.
Defined.

Section ConcatenateShape.

Import combining.

Variable uninitialised : list nat -> string -> nat -> pyobj.

Lemma sum_nat_constant {B} (f : B -> nat) (l : list B) (n : nat) :
  Forall (fun x => f x = n) l -> sum_nat (map f l) = (length l * n)%nat.
Proof.
  induction 1 as [|x l Hx _ IH]; [reflexivity|].
  cbn [map sum_nat fold_right length]. fold (sum_nat (map f l)).
  rewrite Hx, IH. lia.
Qed.

(** X14: the combined sample shape of a group that [Concatenate] accepts is
    the sample shape of the first stream with, at the axis of
    concatenation, the sum of the extents of all streams, which agree on
    every other axis.  The time axis is not refused: along it a group is
    accepted exactly when it holds a single stream. *)
Theorem concatenate_combined_shape (axis : Z) (group : list stream)
  (self : CombineStreamsBase) :
  CombineStreamsBase_init uninitialised (Concatenate axis) group = ok self ->
  exists ih0 k,
    head group = Some ih0
    /\ normalize_axis (S (length (sample_shape ih0))) axis = ok k
    /\ match k with
       | O => group = [ih0] /\ combined_shape self = stream_shape ih0
       | S k0 =>
           Forall (fun ih => length (sample_shape ih)
                             = length (sample_shape ih0)
                             /\ same_except k0 (sample_shape ih0)
                                  (sample_shape ih) = true) group
           /\ combined_shape self
              = nsample ih0
                :: <[k0 := sum_nat (map (fun ih => nth k0 (sample_shape ih) 0%nat)
                                        group)]> (sample_shape ih0)
       end.
Proof.
  intros H. apply init_ok_inv in H
    as (ih0 & rest & a & -> & _ & Hprobe & Hhead & _ & Hshape & _).
  cbn [task] in Hprobe. apply bind_ok_inv in Hprobe as (out & _ & Hprobe).
  cbn [probe_blocks map] in Hprobe.
  apply np_concatenate_inv in Hprobe as (k & Hk & Hrest & ->).
  cbn [np_empty shape length] in Hk, Hrest.
  exists ih0, k. split; [reflexivity|]. split; [exact Hk|].
  assert (Hstreams : forall ih, In ih rest ->
            length (7%nat :: sample_shape ih) = length (7%nat :: sample_shape ih0)
            /\ same_except k (7%nat :: sample_shape ih0)
                 (7%nat :: sample_shape ih) = true).
  { intros ih Hin. rewrite List.Forall_forall in Hrest.
    apply (Hrest (np_empty uninitialised (7%nat :: sample_shape ih) (dtype ih))).
    apply in_map_iff. exists ih. split; [reflexivity | exact Hin]. }
  rewrite Hshape. unfold join_axis in *. cbn [shape np_empty map] in *.
  rewrite map_map in *. cbn [shape] in *.
  destruct k as [|k0].
  - cbn [nth] in Hhead. simpl in Hhead. injection Hhead as Hsum.
    rewrite (sum_nat_constant (fun _ => 7%nat) rest 7%nat) in Hsum
      by (apply List.Forall_forall; reflexivity).
    destruct rest as [|ih rest]; [|simpl in Hsum; lia].
    split; reflexivity.
  - split.
    + constructor.
      * split; [reflexivity | apply same_except_refl].
      * apply List.Forall_forall. intros ih Hin.
        destruct (Hstreams ih Hin) as [Hl Hs]. simpl in Hl.
        split; [lia|].
        unfold same_except in *. apply bool_decide_eq_true in Hs.
        apply bool_decide_eq_true. simpl in Hs. injection Hs as Hs. exact Hs.
    + reflexivity.
Qed.

End ConcatenateShape.

Lemma concatenate_combined_shape_witness :
  exists ih0 k,
    head [narrow_stream; wide_stream] = Some ih0
    /\ normalize_axis (S (length (combining.sample_shape ih0))) 1 = ok k
    /\ match k with
       | O => [narrow_stream; wide_stream] = [ih0]
              /\ combining.combined_shape narrow_and_wide
                 = combining.stream_shape ih0
       | S k0 =>
           Forall (fun ih => length (combining.sample_shape ih)
                             = length (combining.sample_shape ih0)
                             /\ same_except k0 (combining.sample_shape ih0)
                                  (combining.sample_shape ih) = true)
                  [narrow_stream; wide_stream]
           /\ combining.combined_shape narrow_and_wide
              = combining.nsample ih0
                :: <[k0 := sum_nat
                             (map (fun ih => nth k0 (combining.sample_shape ih) 0%nat)
                                  [narrow_stream; wide_stream])]>
                     (combining.sample_shape ih0)
       end.
Proof.
  apply (concatenate_combined_shape zero_memory 1 [narrow_stream; wide_stream]
           narrow_and_wide).
  vm_compute. reflexivity.
Defined.

(** Concatenation along the time axis: one stream is accepted, two are
    refused. *)
Example concatenate_time_axis :
  is_ok (combining.CombineStreamsBase_init zero_memory (combining.Concatenate 0)
           [narrow_stream]) = true
  /\ combining.CombineStreamsBase_init zero_memory (combining.Concatenate 0)
       [narrow_stream; second_narrow_stream]
     = raise ValueError "stream combination affected the sample axis (0).".
Proof. split; vm_compute; reflexivity. Qed.

(** * combining.py: stacking and its round trip *)

Section StackFrames.

Import combining.

Variable uninitialised : list nat -> string -> nat -> pyobj.

Lemma read_frames (group : list stream) (lo count n : nat) :
  Forall (fun ih => nsample ih = n) group ->
  (lo + count <= n)%nat ->
  mapM (fun ih => read (seek ih lo) count) group
  = ok (map (fun ih => (slice_axis 0 lo (lo + count) (content ih),
                        seek (seek ih lo) (lo + count))) group).
Proof.
  intros Hn Hle. apply mapM_all_ok. intros ih Hin.
  rewrite List.Forall_forall in Hn. specialize (Hn ih Hin).
  unfold read. cbn [seek position nsample content]. rewrite Hn.
  destruct (Nat.leb_spec (lo + count) n) as [_|?]; [reflexivity | lia].
Qed.

(** X15: for a group of any number of streams that [Stack] accepts along a
    new axis other than the time axis, every frame of the combined
    stream, indexed along the new axis at [j], is the frame read from
    stream [j]; this holds with no frame buffer and with a buffer that has
    the shape of a combined frame. *)
Theorem stack_round_trip (group : list stream) (ih0 : stream) (axis : Z)
  (k : nat) (self : CombineStreamsBase) (i : nat)
  (buffer : option (ndarray pyobj)) :
  Forall stream_ok group ->
  CombineStreamsBase_init uninitialised (Stack axis) group = ok self ->
  head group = Some ih0 ->
  normalize_axis (S (length (stream_shape ih0))) axis = ok k ->
  k <> 0%nat ->
  (i * samples_per_frame ih0 + samples_per_frame ih0 <= nsample ih0)%nat ->
  fits buffer (samples_per_frame ih0 :: tail (combined_shape self)) ->
  let lo := (i * samples_per_frame ih0)%nat in
  let hi := (lo + samples_per_frame ih0)%nat in
  exists frame self',
    _read_frame (Stack axis) (with_frame self buffer) i = ok (frame, self')
    /\ forall j ih, group !! j = Some ih ->
                    index_axis k j frame = slice_axis 0 lo hi (content ih).
Proof.
  intros Hok Hinit Hhead Hk Hk0 Hrange Hbuffer lo hi.
  apply init_ok_inv in Hinit
    as (ih0' & rest & pr & -> & Hsame & Hprobe & _ & Hihs & Hshape & Hspf & _).
  injection Hhead as ->.
  apply stack_probe_inv in Hprobe as (Hshapes & k' & Hk' & Hpr).
  unfold stream_shape in Hk. cbn [length] in Hk.
  rewrite Hk in Hk'. injection Hk' as <-.
  destruct k as [|k0]; [contradiction|]. clear Hk0.
  set (ss := sample_shape ih0) in *.
  set (spf := samples_per_frame ih0) in *.
  set (group := ih0 :: rest) in *.
  (* every stream has the length of the first *)
  assert (Hn : Forall (fun ih => nsample ih = nsample ih0) group).
  { constructor; [reflexivity|]. eapply Forall_impl; [exact Hsame|].
    intros ih Hd. cbv beta in Hd.
    destruct (Nat.eq_dec (nsample ih) (nsample ih0)) as [E|E]; [exact E|].
    exfalso. apply Hd. right. right. right. exact E. }
  (* the frames of the streams *)
  set (frame_of := fun ih : stream => slice_axis 0 lo hi (content ih)).
  assert (Hframe : forall ih, In ih group ->
            shape (frame_of ih) = spf :: ss /\ well_formed (frame_of ih)).
  { intros ih Hin. rewrite List.Forall_forall in Hok, Hn, Hshapes.
    destruct (Hok ih Hin) as [Hs Hwf].
    unfold stream_shape in Hs. rewrite (Hshapes ih Hin) in Hs.
    destruct (slice_rows (content ih) (nsample ih) lo hi ss Hs Hwf)
      as [Hfs Hfw].
    { rewrite (Hn ih Hin). unfold hi, lo. lia. }
    split; [|exact Hfw]. unfold frame_of. rewrite Hfs. f_equal.
    unfold hi. lia. }
  assert (Hfshapes : Forall (fun x => shape x = spf :: ss)
                       (map frame_of group)).
  { apply List.Forall_forall. intros x Hx.
    apply in_map_iff in Hx as (ih & <- & Hin). apply (Hframe ih Hin). }
  assert (Hfwf : Forall well_formed (map frame_of group)).
  { apply List.Forall_forall. intros x Hx.
    apply in_map_iff in Hx as (ih & <- & Hin). apply (Hframe ih Hin). }
  assert (Hkle : (S k0 <= length (spf :: ss))%nat).
  { apply normalize_axis_lt in Hk. cbn [length]. lia. }
  (* the shape of the stack of the frames *)
  pose proof (stacked_shape (spf :: ss) (S k0) (map frame_of group)
                Hkle Hfshapes) as Hstack.
  rewrite length_map in Hstack.
  assert (Hcombined : spf :: tail (combined_shape self)
                      = take (S k0) (spf :: ss)
                        ++ length group :: drop (S k0) (spf :: ss)).
  { rewrite Hshape, Hpr. reflexivity. }
  (* the frame buffer *)
  assert (Hhead : shape (frame_of ih0) = spf :: ss).
  { apply (Hframe ih0). left. reflexivity. }
  destruct (reuse_frame_fits (frame_of ih0) (map frame_of rest) spf ss
              (tail (combined_shape self)) buffer Hhead Hbuffer)
    as (out & Hout & Hfit).
  assert (Hrest : Forall (fun a => shape a = shape (frame_of ih0))
                    (map frame_of rest)).
  { rewrite Hhead. exact (Forall_inv_tail Hfshapes). }
  assert (Hstacked :
    np_stack (map frame_of group) axis out
    = ok (join_axis (S k0)
            (map (fun a => NdArray (take (S k0) (shape a) ++ 1%nat
                                    :: drop (S k0) (shape a)) (elems a))
                 (map frame_of group))
            (take (S k0) (spf :: ss) ++ 1%nat :: drop (S k0) (spf :: ss)))).
  { unfold group. cbn [map]. rewrite <- Hhead.
    apply np_stack_ok.
    - exact Hrest.
    - rewrite Hhead. cbn [length].
      replace (S (length ss) + 1)%nat with (S (S (length ss))) by lia.
      exact Hk.
    - rewrite Hhead. change (frame_of ih0 :: map frame_of rest)
        with (map frame_of group).
      rewrite Hstack, <- Hcombined. exact Hfit. }
  eexists. eexists. split.
  - unfold _read_frame, with_frame. cbn [ihs _samples_per_frame _frame].
    rewrite Hihs, Hspf. fold spf. fold lo.
    rewrite (read_frames group lo spf (nsample ih0) Hn)
      by (unfold lo, spf; lia).
    cbn [bind ok]. rewrite map_map. cbn [fst]. fold hi.
    change (map (fun ih => slice_axis 0 lo hi (content ih)) group)
      with (map frame_of group).
    cbn [task]. unfold group at 1. cbn [map]. rewrite Hout. cbn [bind ok].
    change (frame_of ih0 :: map frame_of rest) with (map frame_of group).
    rewrite Hstacked. cbn [bind ok]. reflexivity.
  - intros j ih Hj.
    apply (stack_index (spf :: ss) (S k0) (map frame_of group) Hkle
             Hfshapes Hfwf).
    rewrite list_lookup_fmap, Hj. reflexivity.
Qed.

End StackFrames.

Lemma stack_round_trip_witness :
  let lo := (1 * combining.samples_per_frame narrow_stream)%nat in
  let hi := (lo + combining.samples_per_frame narrow_stream)%nat in
  exists frame self',
    combining._read_frame (combining.Stack 1)
      (combining.with_frame narrow_stack None) 1 = ok (frame, self')
    /\ forall j ih,
         [narrow_stream; second_narrow_stream] !! j = Some ih ->
         index_axis 1 j frame = slice_axis 0 lo hi (combining.content ih).
Proof.
  apply (stack_round_trip zero_memory [narrow_stream; second_narrow_stream]
           narrow_stream 1 1 narrow_stack 1 None).
  - repeat constructor; vm_compute; reflexivity.
  - vm_compute. reflexivity.
  - reflexivity.
  - reflexivity.
  - discriminate.
  - vm_compute. lia.
  - exact I.
Defined.

(** The stacked frame of the example and its two entries. *)
Example stack_example :
  (exists self',
     combining._read_frame (combining.Stack 1) narrow_stack 1
     = ok (NdArray [2; 2; 1; 2]%nat
             (ramp 2 4 ++ ramp 2 104 ++ ramp 2 6 ++ ramp 2 106), self'))
  /\ slice_axis 0 2 4 (combining.content narrow_stream)
     = NdArray [2; 1; 2]%nat (ramp 4 4)
  /\ slice_axis 0 2 4 (combining.content second_narrow_stream)
     = NdArray [2; 1; 2]%nat (ramp 4 104).
Proof.
  split; [eexists; vm_compute; reflexivity|].
  split; vm_compute; reflexivity.
Qed.

(** * Arrays: joining any number of arrays *)

Section JoinMany.

Context {A : Type}.

Variables (k : nat) (s0 : list nat) (arrays : list (ndarray A)).
Hypothesis Hk : (k < length s0)%nat.
Hypothesis Harrays :
  Forall (fun x => well_formed x
                   /\ length (shape x) = length s0
                   /\ same_except k s0 (shape x) = true) arrays.

Let outer := size_of (take k s0).
Let inner := size_of (drop (S k) s0).
Let extent := fun x : ndarray A => nth k (shape x) 0%nat.

Lemma member_geometry (x : ndarray A) :
  In x arrays ->
  size_of (drop k (shape x)) = (extent x * inner)%nat
  /\ length (elems x) = (outer * (extent x * inner))%nat
  /\ shape x = <[k := extent x]> s0.
Proof.
  intros Hx. rewrite List.Forall_forall in Harrays.
  destruct (Harrays x Hx) as (Hwf & Hlen & Hsame).
  destruct (same_except_inv _ _ _ Hsame) as (_ & Htake & Hdrop).
  assert (Hblock : size_of (drop k (shape x)) = (extent x * inner)%nat).
  { unfold inner. rewrite Hdrop. apply size_of_drop. lia. }
  split; [exact Hblock|]. split.
  - unfold well_formed in Hwf.
    rewrite Hwf, (size_of_take_drop (shape x) k), Hblock.
    unfold outer. rewrite Htake. reflexivity.
  - assert (Hnth : shape x !! k = Some (extent x)).
    { destruct (nth_lookup_or_length (shape x) k 0%nat) as [H|H];
        [exact H | lia]. }
    rewrite <- (take_drop_middle (shape x) k (extent x) Hnth).
    rewrite insert_take_drop by lia. rewrite Htake, Hdrop. reflexivity.
Qed.

Lemma joined_many_elems :
  elems (join_axis k arrays s0)
  = flat_map (fun o => flat_map
                         (fun x => piece (extent x * inner) (elems x) o) arrays)
             (seq 0 outer).
Proof.
  unfold join_axis. cbn [elems]. fold outer.
  apply flat_map_ext. intros o. apply flat_map_ext_in. intros x Hx.
  destruct (member_geometry x Hx) as (-> & _). reflexivity.
Qed.

Lemma blocks_length (o : nat) (l : list (ndarray A)) :
  (o < outer)%nat -> (forall x, In x l -> In x arrays) ->
  length (flat_map (fun x => piece (extent x * inner) (elems x) o) l)
  = (sum_nat (map extent l) * inner)%nat.
Proof.
  intros Ho. induction l as [|x l IH]; intros Hl; [reflexivity|].
  cbn [flat_map map sum_nat fold_right]. fold (sum_nat (map extent l)).
  rewrite length_app, IH by (intros y Hy; apply Hl; right; exact Hy).
  rewrite piece_length.
  - lia.
  - destruct (member_geometry x (Hl x (or_introl eq_refl))) as (_ & -> & _).
    nia.
Qed.

(** Cutting the joined array at the extent of one of its members along
    the axis gives back that member. *)
Lemma join_slice_many (before after : list (ndarray A)) (x : ndarray A) :
  arrays = before ++ x :: after ->
  slice_axis k (sum_nat (map extent before))
    (sum_nat (map extent before) + extent x) (join_axis k arrays s0)
  = x.
Proof.
  intros Hsplit.
  assert (Hx : In x arrays).
  { rewrite Hsplit. apply in_elt. }
  destruct (member_geometry x Hx) as (_ & Hlen & Hshape).
  set (lo := sum_nat (map extent before)).
  set (total := sum_nat (map extent arrays)).
  assert (Hjs : shape (join_axis k arrays s0) = <[k := total]> s0)
    by reflexivity.
  apply ndarray_eq; unfold slice_axis; rewrite Hjs; cbn [shape elems];
    replace (lo + extent x - lo)%nat with (extent x) by lia.
  - rewrite list_insert_insert_eq. symmetry. exact Hshape.
  - rewrite take_insert_ge by lia. rewrite drop_insert_lt by lia.
    fold outer inner.
    replace (nth k (<[k:=total]> s0) 0%nat) with total.
    2:{ symmetry. apply nth_lookup_Some. apply list_lookup_insert_eq.
        exact Hk. }
    transitivity (flat_map (piece (extent x * inner) (elems x)) (seq 0 outer)).
    + apply flat_map_ext_in. intros o Ho. apply in_seq in Ho.
      rewrite joined_many_elems.
      rewrite (piece_flat_map _ (total * inner) outer o 0).
      * simpl. rewrite Hsplit, flat_map_app. cbn [flat_map].
        assert (Hb : length (flat_map
                               (fun y => piece (extent y * inner) (elems y) o)
                               before) = (lo * inner)%nat).
        { apply blocks_length; [lia|]. intros y Hy. rewrite Hsplit.
          apply in_or_app. left. exact Hy. }
        rewrite drop_app_length' by (symmetry; exact Hb).
        apply take_app_length'. symmetry. apply piece_length.
        rewrite Hlen. nia.
      * intros i Hi. apply blocks_length; [lia | auto].
      * lia.
    + apply flat_map_piece_all. exact Hlen.
Qed.

End JoinMany.

(** * combining.py: concatenation of any number of streams *)

Section ConcatenateMany.

Import combining.

Variable uninitialised : list nat -> string -> nat -> pyobj.

Lemma sum_nat_ext_in {B} (f g : B -> nat) (l : list B) :
  (forall x, In x l -> f x = g x) ->
  sum_nat (map f l) = sum_nat (map g l).
Proof.
  induction l as [|x l IH]; intros H; [reflexivity|].
  cbn [map sum_nat fold_right]. fold (sum_nat (map f l)) (sum_nat (map g l)).
  rewrite (H x) by (left; reflexivity).
  rewrite IH by (intros y Hy; apply H; right; exact Hy). reflexivity.
Qed.

(** X16: for a group of any number of streams that [Concatenate] accepts
    along an axis other than the time axis, every frame of the combined
    stream, cut along that axis at the extents of the streams one after
    the other, gives back the frame read from each stream; this holds with
    no frame buffer and with a buffer that has the shape of a combined
    frame. *)
Theorem concatenate_round_trip_many (group : list stream) (ih0 : stream)
  (axis : Z) (k : nat) (self : CombineStreamsBase) (i : nat)
  (buffer : option (ndarray pyobj)) :
  Forall stream_ok group ->
  CombineStreamsBase_init uninitialised (Concatenate axis) group = ok self ->
  head group = Some ih0 ->
  normalize_axis (length (stream_shape ih0)) axis = ok k ->
  k <> 0%nat ->
  (i * samples_per_frame ih0 + samples_per_frame ih0 <= nsample ih0)%nat ->
  fits buffer (samples_per_frame ih0 :: tail (combined_shape self)) ->
  let lo := (i * samples_per_frame ih0)%nat in
  let hi := (lo + samples_per_frame ih0)%nat in
  let extent := fun ih : stream => nth k (stream_shape ih) 0%nat in
  exists frame self',
    _read_frame (Concatenate axis) (with_frame self buffer) i
      = ok (frame, self')
    /\ forall before ih after,
         group = before ++ ih :: after ->
         slice_axis k (sum_nat (map extent before))
           (sum_nat (map extent before) + extent ih) frame
         = slice_axis 0 lo hi (content ih).
Proof.
  intros Hok Hinit Hhead Hk Hk0 Hrange Hbuffer lo hi extent.
  apply init_ok_inv in Hinit
    as (ih0' & rest & pr & -> & Hsame & Hprobe & _ & Hihs & Hshape & Hspf & _).
  injection Hhead as ->.
  cbn [task] in Hprobe. apply bind_ok_inv in Hprobe as (out0 & _ & Hprobe).
  cbn [probe_blocks map] in Hprobe.
  apply np_concatenate_inv in Hprobe as (k' & Hk' & Hprobes & Hpr).
  cbn [np_empty shape length] in Hk', Hprobes.
  unfold stream_shape in Hk. cbn [length] in Hk.
  rewrite Hk in Hk'. injection Hk' as <-.
  destruct k as [|k0]; [contradiction|]. clear Hk0.
  set (ss := sample_shape ih0) in *.
  set (spf := samples_per_frame ih0) in *.
  set (group := ih0 :: rest) in *.
  assert (Hn : Forall (fun ih => nsample ih = nsample ih0) group).
  { constructor; [reflexivity|]. eapply Forall_impl; [exact Hsame|].
    intros ih Hd. cbv beta in Hd.
    destruct (Nat.eq_dec (nsample ih) (nsample ih0)) as [E|E]; [exact E|].
    exfalso. apply Hd. right. right. right. exact E. }
  (* the sample shapes agree off the axis *)
  assert (Hgeom : forall ih, In ih group ->
            length (sample_shape ih) = length ss
            /\ same_except k0 ss (sample_shape ih) = true).
  { intros ih [<-|Hin]; [split; [reflexivity | apply same_except_refl]|].
    rewrite List.Forall_forall in Hprobes.
    destruct (Hprobes (np_empty uninitialised (7%nat :: sample_shape ih) (dtype ih)))
      as [Hl Hs].
    { apply in_map_iff. exists ih. split; [reflexivity | exact Hin]. }
    cbn [np_empty shape length] in Hl, Hs. split; [lia|].
    unfold same_except in *. apply bool_decide_eq_true in Hs.
    apply bool_decide_eq_true. simpl in Hs. injection Hs as Hs. exact Hs. }
  (* the frames of the streams *)
  set (frame_of := fun ih : stream => slice_axis 0 lo hi (content ih)).
  assert (Hframe : forall ih, In ih group ->
            shape (frame_of ih) = spf :: sample_shape ih
            /\ well_formed (frame_of ih)).
  { intros ih Hin. rewrite List.Forall_forall in Hok, Hn.
    destruct (Hok ih Hin) as [Hs Hwf]. unfold stream_shape in Hs.
    destruct (slice_rows (content ih) (nsample ih) lo hi (sample_shape ih)
                Hs Hwf) as [Hfs Hfw].
    { rewrite (Hn ih Hin). unfold hi, lo. lia. }
    split; [|exact Hfw]. unfold frame_of. rewrite Hfs. f_equal.
    unfold hi. lia. }
  assert (Hframes :
    Forall (fun x => well_formed x
                     /\ length (shape x) = length (spf :: ss)
                     /\ same_except (S k0) (spf :: ss) (shape x) = true)
           (map frame_of group)).
  { apply List.Forall_forall. intros x Hx.
    apply in_map_iff in Hx as (ih & <- & Hin).
    destruct (Hframe ih Hin) as [Hs Hwf]. destruct (Hgeom ih Hin) as [Hl Hse].
    rewrite Hs. split; [exact Hwf|]. split; [simpl; lia|].
    unfold same_except in *. apply bool_decide_eq_true in Hse.
    apply bool_decide_eq_true. simpl. rewrite Hse. reflexivity. }
  assert (Hklt : (S k0 < length (spf :: ss))%nat).
  { apply normalize_axis_lt in Hk. cbn [length]. lia. }
  assert (Hextent : forall ih, In ih group ->
            nth (S k0) (shape (frame_of ih)) 0%nat = extent ih).
  { intros ih Hin. destruct (Hframe ih Hin) as [-> _]. reflexivity. }
  (* the shape of the combined frame *)
  assert (Hcombined :
    shape (join_axis (S k0) (map frame_of group) (spf :: ss))
    = spf :: tail (combined_shape self)).
  { transitivity (spf :: <[k0 := sum_nat (map extent group)]> ss).
    - unfold join_axis. cbn [shape]. rewrite map_map.
      rewrite (sum_nat_ext_in _ extent group) by exact Hextent. reflexivity.
    - rewrite Hshape, Hpr. unfold join_axis. cbn [shape tail].
      change (np_empty uninitialised (7%nat :: ss) (dtype ih0)
              :: map (fun ih => np_empty uninitialised
                                  (7%nat :: sample_shape ih) (dtype ih)) rest)
        with (map (fun ih => np_empty uninitialised
                               (7%nat :: sample_shape ih) (dtype ih)) group).
      rewrite map_map.
      rewrite (sum_nat_ext_in
                 (fun ih => nth (S k0)
                              (shape (np_empty uninitialised
                                        (7%nat :: sample_shape ih) (dtype ih)))
                              0%nat)
                 extent group) by reflexivity.
      reflexivity. }
  assert (Hhead : shape (frame_of ih0) = spf :: ss).
  { apply (Hframe ih0). left. reflexivity. }
  destruct (reuse_frame_fits (frame_of ih0) (map frame_of rest) spf ss
              (tail (combined_shape self)) buffer Hhead Hbuffer)
    as (out & Hout & Hfit).
  assert (Hcat :
    np_concatenate (map frame_of group) axis out
    = ok (join_axis (S k0) (map frame_of group) (spf :: ss))).
  { unfold group. cbn [map]. rewrite <- Hhead. apply np_concatenate_ok.
    - rewrite Hhead. exact Hk.
    - rewrite Hhead. apply Forall_inv_tail in Hframes.
      eapply Forall_impl; [exact Hframes|]. intros x (_ & Hl & Hs). auto.
    - rewrite Hhead. change (frame_of ih0 :: map frame_of rest)
        with (map frame_of group).
      rewrite Hcombined. exact Hfit. }
  eexists. eexists. split.
  - unfold _read_frame, with_frame. cbn [ihs _samples_per_frame _frame].
    rewrite Hihs, Hspf. fold spf. fold lo.
    rewrite (read_frames group lo spf (nsample ih0) Hn)
      by (unfold lo, spf; lia).
    cbn [bind ok]. rewrite map_map. cbn [fst]. fold hi.
    change (map (fun ih => slice_axis 0 lo hi (content ih)) group)
      with (map frame_of group).
    cbn [task]. unfold group at 1. cbn [map]. rewrite Hout. cbn [bind ok].
    change (frame_of ih0 :: map frame_of rest) with (map frame_of group).
    rewrite Hcat. cbn [bind ok]. reflexivity.
  - intros before ih after Hsplit.
    assert (Hin : In ih group) by (rewrite Hsplit; apply in_elt).
    assert (Hbefore : sum_nat (map extent before)
                      = sum_nat (map (fun x => nth (S k0) (shape x) 0%nat)
                                     (map frame_of before))).
    { rewrite map_map. apply sum_nat_ext_in. intros x Hx. symmetry.
      apply Hextent. rewrite Hsplit. apply in_or_app. left. exact Hx. }
    rewrite Hbefore, <- (Hextent ih Hin).
    apply (join_slice_many (S k0) (spf :: ss) (map frame_of group) Hklt
             Hframes (map frame_of before) (map frame_of after) (frame_of ih)).
    rewrite Hsplit, map_app. reflexivity.
Qed.

End ConcatenateMany.

Lemma concatenate_round_trip_many_witness :
  let lo := (1 * combining.samples_per_frame narrow_stream)%nat in
  let hi := (lo + combining.samples_per_frame narrow_stream)%nat in
  let extent := fun ih => nth 1 (combining.stream_shape ih) 0%nat in
  exists frame self',
    combining._read_frame (combining.Concatenate 1)
      (combining.with_frame
         (combining.MkCombined [narrow_stream; wide_stream; second_narrow_stream]
            [4; 5; 2]%nat combining.AttrNone combining.AttrNone
            combining.AttrNone 2 None)
         None) 1
      = ok (frame, self')
    /\ forall before ih after,
         [narrow_stream; wide_stream; second_narrow_stream]
         = before ++ ih :: after ->
         slice_axis 1 (sum_nat (map extent before))
           (sum_nat (map extent before) + extent ih) frame
         = slice_axis 0 lo hi (combining.content ih).
Proof.
  apply (concatenate_round_trip_many zero_memory
           [narrow_stream; wide_stream; second_narrow_stream] narrow_stream
           1 1
           (combining.MkCombined
              [narrow_stream; wide_stream; second_narrow_stream]
              [4; 5; 2]%nat combining.AttrNone combining.AttrNone
              combining.AttrNone 2 None)
           1 None).
  - repeat constructor; vm_compute; reflexivity.
  - vm_compute. reflexivity.
  - reflexivity.
  - reflexivity.
  - discriminate.
  - vm_compute. lia.
  - exact I.
Defined.

(** * combining.py: the blocks behind a combined attribute *)

Section AttributeBlocks.

Import combining.

Lemma first_row_shape {A} (a : ndarray A) (first : item A) :
  first_row a = ok first -> item_shape first = tail (shape a).
Proof.
  unfold first_row. destruct (shape a) as [|[|n] [|m s]]; try discriminate.
  - destruct (elems a); [discriminate|].
    intros H. injection H as <-. reflexivity.
  - intros H. injection H as <-. reflexivity.
Qed.

Lemma to_numbers_shape (a : ndarray pyobj) (xs : ndarray Q) :
  to_numbers a = ok xs -> shape xs = shape a.
Proof.
  unfold to_numbers. intros H. apply bind_ok_inv in H as (l & _ & H).
  injection H as <-. reflexivity.
Qed.

Lemma item_numbers_shape (first : item pyobj) (xs : ndarray Q) :
  item_numbers first = ok xs -> shape xs = item_shape first.
Proof.
  destruct first as [x|a]; cbn [item_numbers item_shape]; intros H;
    apply to_numbers_shape in H; exact H.
Qed.

Lemma item_value_shape (first : item pyobj) (s : list nat) :
  attr_shape (item_value first) = Some s -> s = item_shape first.
Proof.
  destruct first as [[|q|t]|a]; simpl; intros H; try discriminate;
    injection H as <-; reflexivity.
Qed.

Lemma broadcast_value_shape (v : attr_value) (s : list nat)
  (b : ndarray pyobj) :
  broadcast_value v s = ok b -> shape b = s.
Proof.
  unfold broadcast_value, np_broadcast_to.
  destruct v; (destruct (can_broadcast_to _ s); [|discriminate]);
    intros H; injection H as <-; reflexivity.
Qed.

Lemma broadcast_blocks_shapes (group : list stream) (values : list attr_value)
  (blocks : list (ndarray pyobj)) :
  length values = length group ->
  mapM (fun '(value, ih) => broadcast_value value (1%nat :: sample_shape ih))
       (combine values group) = ok blocks ->
  map shape blocks = map (fun ih => 1%nat :: sample_shape ih) group.
Proof.
  revert values blocks.
  induction group as [|ih group IH]; intros values blocks Hlen H.
  - destruct values; [|discriminate]. injection H as <-. reflexivity.
  - destruct values as [|v values]; [discriminate|].
    cbn [combine mapM] in H. apply bind_ok_inv in H as (b & Hb & H).
    apply bind_ok_inv in H as (bs & Hbs & H). injection H as <-.
    cbn [map]. rewrite (broadcast_value_shape _ _ _ Hb).
    f_equal. apply (IH values); [simpl in Hlen; lia | exact Hbs].
Qed.

(** A combined attribute is [None] because every stream has [None], or it
    is made of the first entry of the combination of one block per
    stream, each of the stream's sample shape behind an axis of length
    1. *)
Lemma combine_attr_inv (c : combiner) (group : list stream)
  (attr : string) (v : attr_value) :
  _combine_attr c group attr = ok v ->
  (v = AttrNone
   /\ Forall (fun ih => getattr_or_None ih attr = AttrNone) group)
  \/ exists blocks res first,
       map shape blocks = map (fun ih => 1%nat :: sample_shape ih) group
       /\ task c None blocks = ok res
       /\ first_row res = ok first
       /\ (v = item_value first
           \/ exists xs u, item_numbers first = ok xs /\ v = AttrQuantity xs u).
Proof.
  unfold _combine_attr. intros H.
  destruct (forallb is_None _) eqn:Hall.
  - left. injection H as <-. split; [reflexivity|].
    rewrite forallb_forall in Hall.
    apply List.Forall_forall. intros ih Hin.
    specialize (Hall (getattr_or_None ih attr) (in_map _ _ _ Hin)).
    destruct (getattr_or_None ih attr); [reflexivity | discriminate..].
  - right.
    apply bind_ok_inv in H as (value0 & _ & H).
    apply bind_ok_inv in H as (values & Hvalues & H).
    apply bind_ok_inv in H as (blocks & Hblocks & H).
    apply bind_ok_inv in H as (res & Hres & H).
    apply bind_ok_inv in H as (first & Hfirst & H).
    apply add_note_ok_inv in Hres.
    assert (Hlen : length values = length group).
    { destruct (unit_or_None value0) as [u|].
      - apply mapM_ok_length in Hvalues. rewrite Hvalues. apply length_map.
      - injection Hvalues as <-. apply length_map. }
    exists blocks, res, first.
    split; [apply (broadcast_blocks_shapes group values); assumption|].
    split; [exact Hres|]. split; [exact Hfirst|].
    destruct (unit_or_None value0) as [u|].
    + apply bind_ok_inv in H as (xs & Hxs & H). injection H as <-.
      right. exists xs, u. auto.
    + injection H as <-. left. reflexivity.
Qed.

(** A combined attribute that is not [None] has the shape of the
    combination of the blocks, less its first axis. *)
Lemma combine_attr_ok_inv (c : combiner) (group : list stream)
  (attr : string) (v : attr_value) (s : list nat) :
  _combine_attr c group attr = ok v -> attr_shape v = Some s ->
  exists blocks res,
    map shape blocks = map (fun ih => 1%nat :: sample_shape ih) group
    /\ task c None blocks = ok res
    /\ s = tail (shape res).
Proof.
  intros H Hs.
  apply combine_attr_inv in H
    as [[-> _]|(blocks & res & first & Hblocks & Hres & Hfirst & Hv)];
    [discriminate|].
  exists blocks, res. split; [exact Hblocks|]. split; [exact Hres|].
  apply first_row_shape in Hfirst. rewrite <- Hfirst.
  destruct Hv as [->|(xs & u & Hxs & ->)].
  - apply item_value_shape. exact Hs.
  - simpl in Hs. injection Hs as <-. apply item_numbers_shape. exact Hxs.
Qed.

Lemma join_axis_dimensions {A} (k : nat) (arrays : list (ndarray A))
  (s : list nat) :
  length (shape (join_axis k arrays s)) = length s.
Proof. unfold join_axis. cbn [shape]. apply length_insert. Qed.

End AttributeBlocks.

(** * combining.py: attributes that combine to [None] *)

Section CombinedAttributeNone.

Import combining.

(** X17: for [Stack], and for [Concatenate] on streams whose samples have at
    least one axis, the combined value of an attribute is [None] exactly
    when the attribute is [None], or missing, on every stream: once one
    stream has a value, the result is an array or a quantity, or an
    error. *)
Theorem combine_attr_None_iff (c : combiner) (group : list stream)
  (ih0 : stream) (attr : string) :
  head group = Some ih0 ->
  keeps_sample_axes c ih0 ->
  _combine_attr c group attr = ok AttrNone
  <-> Forall (fun ih => getattr_or_None ih attr = AttrNone) group.
Proof.
  intros Hhead Hc. split; [|apply combine_attr_all_None].
  intros H.
  apply combine_attr_inv in H
    as [[_ H]|(blocks & res & first & Hblocks & Hres & Hfirst & Hv)];
    [exact H|].
  exfalso.
  assert (Hitem : exists x, first = Element x).
  { destruct Hv as [Hv|(xs & u & _ & Hv)]; [|discriminate].
    destruct first as [x|a]; [eauto | discriminate]. }
  destruct Hitem as (x & ->).
  assert (Hdim : length (shape res) = 1%nat).
  { unfold first_row in Hfirst.
    destruct (shape res) as [|[|n] [|m s]]; try discriminate. reflexivity. }
  destruct group as [|ih group]; [discriminate|]. injection Hhead as ->.
  destruct blocks as [|b0 brest]; [discriminate|].
  cbn [map] in Hblocks. injection Hblocks as Hb0 _.
  destruct c as [f|axis|axis]; cbn [keeps_sample_axes] in Hc; [contradiction| |].
  - cbn [task] in Hres. apply bind_ok_inv in Hres as (out & _ & Hres).
    apply np_concatenate_inv in Hres as (k & _ & _ & ->).
    rewrite join_axis_dimensions, Hb0 in Hdim. cbn [length] in Hdim.
    destruct (sample_shape ih0); [contradiction | discriminate].
  - cbn [task] in Hres. apply bind_ok_inv in Hres as (out & _ & Hres).
    apply np_stack_inv in Hres as (_ & k & _ & ->).
    rewrite join_axis_dimensions, Hb0 in Hdim.
    rewrite length_app in Hdim. cbn [length] in Hdim.
    rewrite length_take, length_drop in Hdim. cbn [length] in Hdim. lia.
Qed.

End CombinedAttributeNone.

Lemma combine_attr_None_iff_witness :
  combining._combine_attr (combining.Concatenate 1)
    [stream_without; stream_without] "frequency" = ok combining.AttrNone
  <-> Forall (fun ih => combining.getattr_or_None ih "frequency"
                        = combining.AttrNone)
             [stream_without; stream_without].
Proof.
  apply (combine_attr_None_iff (combining.Concatenate 1)
           [stream_without; stream_without] stream_without "frequency").
  - reflexivity.
  - simpl. discriminate.
Defined.

(** Frequencies on no stream, and on every stream. *)
Example combine_attr_one_missing :
  combining._combine_attr (combining.Concatenate 1)
    [stream_without; stream_without] "frequency" = ok combining.AttrNone
  /\ is_ok (combining._combine_attr (combining.Concatenate 1)
              [stream_with_array; stream_with_array] "frequency") = true
  /\ combining._combine_attr (combining.Concatenate 1)
       [stream_with_array; stream_with_array] "frequency"
     <> ok combining.AttrNone.
Proof.
  split; [vm_compute; reflexivity|]. split; [vm_compute; reflexivity|].
  vm_compute. discriminate.
Qed.

(** A combination that leaves one axis: the streams below hold one number
    per sample and the task returns the first block, so the combined
    frequency is [frequency[0]] of an array of one dimension, the [None]
    of the first stream, although the second stream has a frequency. *)
Example combine_attr_first_element :
  combining._combine_attr (combining.CombineStreams first_block)
    [scalar_stream combining.AttrNone;
     scalar_stream (combining.AttrScalar (combining.PNum (inject_Z 1400)))]
    "frequency"
  = ok combining.AttrNone
  /\ (exists self,
        combining.CombineStreamsBase_init zero_memory
          (combining.CombineStreams first_block)
          [scalar_stream combining.AttrNone;
           scalar_stream
             (combining.AttrScalar (combining.PNum (inject_Z 1400)))]
        = ok self
        /\ combining.combined_frequency self = combining.AttrNone)
  /\ combining._combine_attr (combining.CombineStreams first_block)
       [scalar_stream (combining.AttrScalar (combining.PNum (inject_Z 1400)));
        scalar_stream combining.AttrNone]
       "frequency"
     = ok (combining.AttrScalar (combining.PNum (inject_Z 1400))).
Proof.
  split; [vm_compute; reflexivity|].
  split; [|vm_compute; reflexivity].
  eexists. split; vm_compute; reflexivity.
Qed.

(** * combining.py: the shape of the combined attributes *)

Section AttributeShape.

Import combining.

Variable uninitialised : list nat -> string -> nat -> pyobj.

(** The attributes that an accepted construction stores. *)
Lemma init_ok_attrs (c : combiner) (group : list stream)
  (self : CombineStreamsBase) :
  CombineStreamsBase_init uninitialised c group = ok self ->
  _combine_attr c group "frequency" = ok (combined_frequency self)
  /\ _combine_attr c group "sideband" = ok (combined_sideband self)
  /\ _combine_attr c group "polarization" = ok (combined_polarization self).
Proof.
  unfold CombineStreamsBase_init. destruct group as [|ih0 rest]; [discriminate|].
  intros H.
  apply bind_ok_inv in H as (us & _ & H).
  apply bind_ok_inv in H as (a & _ & H).
  apply bind_ok_inv in H as (lead & _ & H).
  destruct (negb (lead =? 7)%nat); [discriminate|].
  apply bind_ok_inv in H as (f & Hf & H).
  apply bind_ok_inv in H as (sb & Hsb & H).
  apply bind_ok_inv in H as (pol & Hpol & H).
  unfold TaskBase_init in H. injection H as <-. simpl. auto.
Qed.

Lemma sum_nat_map_shape {A} (k : nat) (arrays : list (ndarray A)) :
  sum_nat (map (fun a => nth k (shape a) 0%nat) arrays)
  = sum_nat (map (fun s => nth k s 0%nat) (map shape arrays)).
Proof. rewrite map_map. reflexivity. Qed.

(** X18: every combined attribute of a stream that [Concatenate] builds is
    [None] or has the combined sample shape. *)
Theorem concatenate_attribute_shape (axis : Z) (group : list stream)
  (self : CombineStreamsBase) (v : attr_value) (s : list nat) :
  CombineStreamsBase_init uninitialised (Concatenate axis) group = ok self ->
  In v [combined_frequency self; combined_sideband self;
        combined_polarization self] ->
  attr_shape v = Some s ->
  s = tail (combined_shape self).
Proof.
  intros Hinit Hv Hs.
  destruct (init_ok_attrs _ _ _ Hinit) as (Hf & Hsb & Hpol).
  apply init_ok_inv in Hinit
    as (ih0 & rest & a & -> & _ & Hprobe & _ & _ & Hshape & _).
  assert (Hattr : exists attr,
            _combine_attr (Concatenate axis) (ih0 :: rest) attr = ok v).
  { destruct Hv as [<-|[<-|[<-|[]]]]; eauto. }
  destruct Hattr as (attr & Hattr).
  destruct (combine_attr_ok_inv _ _ _ _ _ Hattr Hs)
    as (blocks & res & Hblocks & Hres & ->).
  rewrite Hshape. cbn [tail].
  cbn [task] in Hprobe, Hres.
  apply bind_ok_inv in Hprobe as (out & _ & Hprobe).
  apply bind_ok_inv in Hres as (out' & _ & Hres).
  destruct blocks as [|b0 brest]; [discriminate|].
  cbn [map] in Hblocks. injection Hblocks as Hb0 Hbrest.
  cbn [probe_blocks map] in Hprobe.
  apply np_concatenate_inv in Hprobe as (k & Hk & _ & ->).
  apply np_concatenate_inv in Hres as (k' & Hk' & _ & ->).
  rewrite Hb0 in Hk'. cbn [np_empty shape length] in Hk, Hk'.
  rewrite Hk in Hk'. injection Hk' as <-.
  unfold join_axis. cbn [shape]. rewrite Hb0.
  rewrite !sum_nat_map_shape. cbn [map np_empty shape].
  rewrite Hb0, Hbrest, !map_map. cbn [np_empty shape].
  destruct k as [|k0]; reflexivity.
Qed.

(** X19: every combined attribute of a stream that [Stack] builds along a new
    axis other than the time axis is [None] or has the combined sample
    shape. *)
Theorem stack_attribute_shape (axis : Z) (group : list stream)
  (ih0 : stream) (k0 : nat) (self : CombineStreamsBase) (v : attr_value)
  (s : list nat) :
  CombineStreamsBase_init uninitialised (Stack axis) group = ok self ->
  head group = Some ih0 ->
  normalize_axis (S (length (stream_shape ih0))) axis = ok (S k0) ->
  In v [combined_frequency self; combined_sideband self;
        combined_polarization self] ->
  attr_shape v = Some s ->
  s = tail (combined_shape self).
Proof.
  intros Hinit Hhead Hk Hv Hs.
  destruct (init_ok_attrs _ _ _ Hinit) as (Hf & Hsb & Hpol).
  apply init_ok_inv in Hinit
    as (ih0' & rest & a & -> & _ & Hprobe & _ & _ & Hshape & _).
  injection Hhead as ->.
  assert (Hattr : exists attr,
            _combine_attr (Stack axis) (ih0 :: rest) attr = ok v).
  { destruct Hv as [<-|[<-|[<-|[]]]]; eauto. }
  destruct Hattr as (attr & Hattr).
  destruct (combine_attr_ok_inv _ _ _ _ _ Hattr Hs)
    as (blocks & res & Hblocks & Hres & ->).
  apply stack_probe_inv in Hprobe as (Hshapes & k & Hk' & Ha).
  unfold stream_shape in Hk. cbn [length] in Hk.
  rewrite Hk in Hk'. injection Hk' as <-.
  rewrite Hshape, Ha. cbn [tail take drop app].
  cbn [task] in Hres. apply bind_ok_inv in Hres as (out & _ & Hres).
  destruct blocks as [|b0 brest]; [discriminate|].
  assert (Hb0 : shape b0 = 1%nat :: sample_shape ih0).
  { cbn [map] in Hblocks. injection Hblocks as Hb0 _. exact Hb0. }
  assert (Hlen : length (b0 :: brest) = S (length rest)).
  { rewrite <- (length_map shape), Hblocks, length_map. reflexivity. }
  apply np_stack_inv in Hres as (Hall & k & Hk' & ->).
  rewrite Hb0 in Hk'. cbn [length] in Hk'.
  replace (S (length (sample_shape ih0)) + 1)%nat
    with (S (S (length (sample_shape ih0)))) in Hk' by lia.
  rewrite Hk in Hk'. injection Hk' as <-.
  apply normalize_axis_lt in Hk as Hlt.
  rewrite Hb0.
  rewrite (stacked_shape (1%nat :: sample_shape ih0) (S k0) (b0 :: brest)).
  - rewrite Hlen. reflexivity.
  - simpl. lia.
  - constructor; [exact Hb0|]. rewrite <- Hb0. exact Hall.
Qed.

End AttributeShape.

Lemma concatenate_attribute_shape_witness :
  [4%nat] = tail (combining.combined_shape concatenated_with_frequencies).
Proof.
  apply (concatenate_attribute_shape zero_memory 1
           [stream_with_array; stream_with_array]
           concatenated_with_frequencies
           (combining.combined_frequency concatenated_with_frequencies)
           [4%nat]).
  - vm_compute. reflexivity.
  - left. reflexivity.
  - reflexivity.
Defined.

Lemma stack_attribute_shape_witness :
  [2; 2]%nat = tail (combining.combined_shape stacked_with_frequencies).
Proof.
  apply (stack_attribute_shape zero_memory 1
           [stream_with_array; stream_with_array] stream_with_array 0
           stacked_with_frequencies
           (combining.combined_frequency stacked_with_frequencies)
           [2; 2]%nat).
  - vm_compute. reflexivity.
  - reflexivity.
  - reflexivity.
  - left. reflexivity.
  - reflexivity.
Defined.

(** Seven streams stacked along the time axis: the combined sample shape
    carries the length of the probe, the combined frequencies an axis of
    length 1 in its place. *)
Example stack_time_axis_attribute :
  exists self,
    combining.CombineStreamsBase_init zero_memory (combining.Stack 0)
      (repeat stream_with_array 7) = ok self
    /\ tail (combining.combined_shape self) = [7; 2]%nat
    /\ attr_shape (combining.combined_frequency self) = Some [1; 2]%nat.
Proof.
  eexists. split; [vm_compute; reflexivity|].
  split; vm_compute; reflexivity.
Qed.

(** * io/psrfits/psrfits_htm_parser.py: what is stored, and when *)

Section StoredSections.

Import psrfits_htm_parser.

(** An event that opens no section leaves the stored extensions and the
    section flag as they are. *)
Lemma handle_keeps_extensions (self self' : MyHTMLParser) (ev : event) :
  opens_section ev = false ->
  handle self ev = ok self' ->
  extensions self' = extensions self /\ section self' = section self.
Proof.
  intros Hev H. destruct ev as [tag attrs|tag|text]; cbn [handle] in H.
  - unfold handle_starttag in H. simpl in Hev. rewrite Hev in H.
    destruct (_ || _); [injection H as <-; auto|].
    destruct (String.eqb tag "br"); injection H as <-; auto.
  - unfold handle_endtag in H.
    destruct (_ || negb (collect self)); [injection H as <-; auto|].
    cbn [psrfits_htm_parser.data headers collect section add_nl extensions
         extname] in H.
    destruct (String.eqb tag "p" && _).
    + apply bind_ok_inv in H as (self1 & H1 & H).
      apply bind_ok_inv in H as (h & _ & H). injection H as <-.
      cbn [extensions section].
      destruct (py_startswith (psrfits_htm_parser.data self) "EXTNAME").
      * apply bind_ok_inv in H1 as (name & _ & H1). injection H1 as <-. auto.
      * injection H1 as <-. auto.
    + destruct (String.eqb tag "div"); [|injection H as <-; auto].
      apply bind_ok_inv in H as (h & _ & H).
      destruct (_ && _); injection H as <-; auto.
  - injection H as <-. auto.
Qed.

(** X20: whatever follows the last [h3] heading of a document is never
    stored: events that open no section leave [extensions] unchanged, so
    the cards of the last section are collected and then dropped. *)
Theorem last_section_not_stored (self self' : MyHTMLParser)
  (evs : list event) :
  Forall (fun ev => opens_section ev = false) evs ->
  feed self evs = ok self' ->
  extensions self' = extensions self.
Proof.
  intros Hevs. revert self.
  induction Hevs as [|ev evs Hev _ IH]; intros self H; cbn [feed] in H.
  - injection H as <-. reflexivity.
  - apply bind_ok_inv in H as (self1 & H1 & H).
    apply IH in H. rewrite H.
    apply (handle_keeps_extensions self self1 ev Hev H1).
Qed.

Lemma last_section_not_stored_witness :
  extensions
    (MkParser true false false {["" := "END"]} "HISTORY"
       "EXTNAME = HISTORY / name of this binary table extension"
       (Some ["EXTNAME = HISTORY / name of this binary table extension"]))
  = extensions (MkParser true false false {["" := "END"]} "" "" (Some [])).
Proof.
  apply (last_section_not_stored
           (MkParser true false false {["" := "END"]} "" "" (Some []))
           (MkParser true false false {["" := "END"]} "HISTORY"
              "EXTNAME = HISTORY / name of this binary table extension"
              (Some ["EXTNAME = HISTORY / name of this binary table extension"]))
           (card "EXTNAME = HISTORY / name of this binary table extension")).
  - repeat constructor.
  - vm_compute. reflexivity.
Defined.

(** Along a document read by a fresh parser: before the first heading
    nothing is stored, and afterwards there is at least one heading more
    than there are stored extensions. *)
Lemma stored_below_headings (evs : list event) (self self' : MyHTMLParser)
  (n : nat) :
  (section self = false /\ extensions self = ∅ /\ n = 0%nat)
  \/ (section self = true /\ (size (extensions self) + 1 <= n)%nat) ->
  feed self evs = ok self' ->
  let n' := (n + length (List.filter opens_section evs))%nat in
  (section self' = false /\ extensions self' = ∅ /\ n' = 0%nat)
  \/ (section self' = true /\ (size (extensions self') + 1 <= n')%nat).
Proof.
  revert self n. induction evs as [|ev evs IH]; intros self n Hinv H;
    cbn [feed] in H.
  - injection H as <-. simpl. rewrite Nat.add_0_r. exact Hinv.
  - apply bind_ok_inv in H as (self1 & H1 & H).
    cbn [List.filter]. destruct (opens_section ev) eqn:Hev.
    + cbn [length]. replace (n + S (length (List.filter opens_section evs)))%nat
        with (S n + length (List.filter opens_section evs))%nat by lia.
      apply (IH self1 (S n)); [|exact H]. right.
      destruct ev as [tag attrs|tag|text]; try discriminate.
      simpl in Hev. apply String.eqb_eq in Hev as ->.
      cbn [handle] in H1. unfold handle_starttag in H1. simpl in H1.
      apply bind_ok_inv in H1 as (self2 & H2 & H1). injection H1 as <-.
      cbn [section extensions]. split; [reflexivity|].
      destruct Hinv as [(Hs & He & ->)|(Hs & Hle)]; rewrite Hs in H2.
      * injection H2 as <-. rewrite He, map_size_empty. lia.
      * unfold dump in H2. apply bind_ok_inv in H2 as (h & _ & H2).
        injection H2 as <-. cbn [extensions].
        pose proof (map_size_insert (extname self) (py_join nl h)
                      (extensions self)) as Hsize.
        destruct (extensions self !! extname self); simpl in Hsize; lia.
    + apply (IH self1 n); [|exact H].
      destruct (handle_keeps_extensions self self1 ev Hev H1) as [He Hs].
      rewrite He, Hs. exact Hinv.
Qed.

(** X21: the module fails on every document with fewer than two [h3]
    headings: a section is stored only when the next heading arrives, so
    the lookup of the primary header raises a key error whenever the
    document parses. *)
Theorem main_needs_two_sections (document : list event) :
  (length (List.filter opens_section document) <= 1)%nat ->
  is_ok (main document) = false
  /\ (is_ok (feed new_parser document) = true ->
      main document = raise KeyError "''").
Proof.
  intros Hn. unfold main.
  destruct (feed new_parser document) as [e|parser] eqn:Hfeed;
    [split; [reflexivity | discriminate]|].
  cbn [bind ok].
  assert (Hempty : extensions parser = ∅).
  { pose proof (stored_below_headings document new_parser parser 0%nat) as H.
    destruct H as [(_ & He & _)|(_ & Hle)].
    - left. repeat split.
    - exact Hfeed.
    - exact He.
    - simpl in Hle. apply map_size_empty_iff.
      destruct (size (extensions parser)); [reflexivity | lia]. }
  rewrite Hempty, lookup_empty. split; [reflexivity | intros _; reflexivity].
Qed.

Lemma main_needs_two_sections_witness :
  is_ok (main (heading "Primary header" ++ card "END")) = false
  /\ (is_ok (feed new_parser (heading "Primary header" ++ card "END")) = true ->
      main (heading "Primary header" ++ card "END") = raise KeyError "''").
Proof.
  apply (main_needs_two_sections (heading "Primary header" ++ card "END")).
  vm_compute. lia.
Defined.

(** The example document: the primary header is found under the empty
    name, the SUBINT section under the name of its EXTNAME card, and the
    last section is not stored; a card before any heading fails. *)
Example parser_examples :
  main documentation
    = ok ("SIMPLE  =                    T / file does conform to FITS standard"
          +:+ nl +:+ "END")
  /\ (exists parser,
        feed new_parser documentation = ok parser
        /\ extensions parser !! "SUBINT"
           = Some ("EXTNAME = SUBINT / name of this binary table extension"
                   +:+ nl +:+ "END")
        /\ extensions parser !! "HISTORY" = None
        /\ size (extensions parser) = 2%nat)
  /\ main (card "END")
     = raise AttributeError "'MyHTMLParser' object has no attribute 'headers'".
Proof.
  split; [vm_compute; reflexivity|]. split; [|vm_compute; reflexivity].
  eexists. split; [vm_compute; reflexivity|].
  split; [vm_compute; reflexivity|]. split; vm_compute; reflexivity.
Qed.

End StoredSections.
